(** * A shallow embedding of [utils/neural_network.py]

    The class [NeuralNetwork] (forward propagation, losses, backpropagation,
    one-hot encoding, accuracy, and the training loop) is embedded as
    functions over IEEE binary64 numbers ([PrimFloat]), 2-D numpy arrays
    with explicit shapes, Python exceptions as an error type, and the
    instance [self] as the state of a state-and-exception monad. *)

From Stdlib Require Import String Ascii.
From Stdlib Require Import PrimFloat SpecFloat FloatOps Uint63 ZArith List Bool Lia.
From Stdlib Require Import Permutation.
Import ListNotations.

Set Implicit Arguments.

Local Open Scope nat_scope.

(* ================================================================== *)
(** ** Python exceptions and fallible results *)

Inductive exception : Type :=
| AssertionError (msg : string)
| ValueError (msg : string)
| IndexError
| KeyError (key : string)
| TypeError
| AttributeError
| ZeroDivisionError
| OverflowError
| UnboundLocalError.

Inductive result (A : Type) : Type :=
| Ok (a : A)
| Err (e : exception).

Arguments Ok {A} a.
Arguments Err {A} e.

Definition rbind {A B : Type} (r : result A) (k : A -> result B) : result B :=
  match r with
  | Ok a => k a
  | Err e => Err e
  end.

Definition is_ok {A : Type} (r : result A) : bool :=
  match r with Ok _ => true | Err _ => false end.

Declare Scope result_scope.
Delimit Scope result_scope with result.
Notation "x <~ r ; k" := (rbind r (fun x => k))
  (at level 61, r at next level, right associativity) : result_scope.

(* ================================================================== *)
(** ** Python lists: indexing with negative indices, item assignment *)

Module PyList.

(** [l[i]] for a non-negative index. *)
Definition index {A : Type} (l : list A) (i : nat) : result A :=
  match nth_error l i with
  | Some a => Ok a
  | None => Err IndexError
  end.

(** [l[-k]] with [k >= 1]: the k-th element from the end. *)
Definition index_from_end {A : Type} (l : list A) (k : nat) : result A :=
  if (k <=? length l) && (1 <=? k) then index l (length l - k)
  else Err IndexError.

Fixpoint replace {A : Type} (l : list A) (i : nat) (v : A) : list A :=
  match l, i with
  | [], _ => []
  | _ :: t, O => v :: t
  | h :: t, S i' => h :: replace t i' v
  end.

(** [l[i] = v]. *)
Definition setitem {A : Type} (l : list A) (i : nat) (v : A) : result (list A) :=
  if i <? length l then Ok (replace l i v) else Err IndexError.

(** [l[-k] = v]. *)
Definition setitem_from_end {A : Type} (l : list A) (k : nat) (v : A)
  : result (list A) :=
  if (k <=? length l) && (1 <=? k) then setitem l (length l - k) v
  else Err IndexError.

(** [range(n)] for an integer [n]: empty when [n <= 0]. *)
Definition range (n : Z) : list Z := map Z.of_nat (seq 0 (Z.to_nat n)).

(** A Python slice bound [i] clamped into [0 .. n]. *)
Definition clamp (n : nat) (i : Z) : nat :=
  if (i <? 0)%Z then Z.to_nat (Z.max 0 (i + Z.of_nat n))
  else Nat.min (Z.to_nat i) n.

(** [l[start:stop]]. *)
Definition slice {A : Type} (l : list A) (start stop : Z) : list A :=
  let s := clamp (length l) start in
  let e := clamp (length l) stop in
  firstn (e - s) (skipn s l).

End PyList.

(* ================================================================== *)
(** ** Strings: [str.lower()] on ASCII text *)

Definition lower_ascii (c : ascii) : ascii :=
  let n := nat_of_ascii c in
  if (65 <=? n) && (n <=? 90) then ascii_of_nat (n + 32) else c.

Fixpoint lower (s : string) : string :=
  match s with
  | EmptyString => EmptyString
  | String c s' => String (lower_ascii c) (lower s')
  end.

(* ================================================================== *)
(** ** numpy arrays *)

(** Conversion of an integer to float64: the nearest float64, ties to
    even.  This is the cast of an int64 entry and the conversion of a
    Python integer in float arithmetic; the integers converted here are
    entries and sizes, far below the [2^1024] at which the result would
    be infinite. *)
Definition float_of_Z (z : Z) : float :=
  SF2Prim (binary_normalize 53 1024 z 0 false).

Definition float_of_nat (n : nat) : float := float_of_Z (Z.of_nat n).

(** An int64 result [z] wrapped into [-2^63 .. 2^63 - 1]. *)
Definition wrap_int64 (z : Z) : Z :=
  ((z + 2 ^ 63) mod 2 ^ 64 - 2 ^ 63)%Z.

(** A float64 array of shape [(shape0, shape1)].  The shape is kept
    beside the entries, as numpy does, so that empty axes are not lost. *)
Record ndarray : Type := mk_ndarray {
  shape0 : nat;
  shape1 : nat;
  data : list (list float)
}.

Definition tabulate (n m : nat) (f : nat -> nat -> float) : ndarray :=
  mk_ndarray n m (map (fun i => map (f i) (seq 0 m)) (seq 0 n)).

(** [a[i, j]] *)
Definition item (a : ndarray) (i j : nat) : float :=
  nth j (nth i (data a) []) 0%float.

Definition row (a : ndarray) (i : nat) : list float :=
  map (item a i) (seq 0 (shape1 a)).

Definition col (a : ndarray) (j : nat) : list float :=
  map (fun i => item a i j) (seq 0 (shape0 a)).

Definition rows (a : ndarray) : list (list float) :=
  map (row a) (seq 0 (shape0 a)).

Definition same_shape (a b : ndarray) : Prop :=
  shape0 a = shape0 b /\ shape1 a = shape1 b.

(** An elementwise unary operation, also [a + c], [1 - a], ... with a
    Python scalar [c]. *)
Definition map_array (f : float -> float) (a : ndarray) : ndarray :=
  tabulate (shape0 a) (shape1 a) (fun i j => f (item a i j)).

Definition broadcast_error : exception :=
  ValueError "operands could not be broadcast together".

(** numpy's broadcasting rule for one axis. *)
Definition broadcast_dim (n m : nat) : result nat :=
  if n =? m then Ok n
  else if n =? 1 then Ok m
  else if m =? 1 then Ok n
  else Err broadcast_error.

Definition bidx (dim i : nat) : nat := if dim =? 1 then 0 else i.

(** The entry of [a] that position [(i, j)] of a broadcast result reads. *)
Definition bitem (a : ndarray) (i j : nat) : float :=
  item a (bidx (shape0 a) i) (bidx (shape1 a) j).

(** An elementwise binary operation [a (op) b] with broadcasting. *)
Definition broadcast (f : float -> float -> float) (a b : ndarray)
  : result ndarray :=
  (n <~ broadcast_dim (shape0 a) (shape0 b);
   m <~ broadcast_dim (shape1 a) (shape1 b);
   Ok (tabulate n m (fun i j => f (bitem a i j) (bitem b i j))))%result.

(** An in-place operation [a (op)= b]: [b] is broadcast to the shape of
    [a], which cannot change. *)
Definition broadcast_inplace (f : float -> float -> float) (a b : ndarray)
  : result ndarray :=
  if ((shape0 b =? shape0 a) || (shape0 b =? 1)) &&
     ((shape1 b =? shape1 a) || (shape1 b =? 1))
  then Ok (tabulate (shape0 a) (shape1 a)
             (fun i j => f (item a i j) (bitem b i j)))
  else Err broadcast_error.

(** [a.T] *)
Definition transpose (a : ndarray) : ndarray :=
  tabulate (shape1 a) (shape0 a) (fun i j => item a j i).

(** [a[start:stop]] on the first axis. *)
Definition slice_rows (a : ndarray) (start stop : Z) : ndarray :=
  let s := PyList.clamp (shape0 a) start in
  let e := PyList.clamp (shape0 a) stop in
  tabulate (e - s) (shape1 a) (fun i j => item a (s + i) j).

(** [a[idx]] with an array of non-negative row indices. *)
Definition take_rows (a : ndarray) (idx : list nat) : result ndarray :=
  if forallb (fun i => i <? shape0 a) idx
  then Ok (tabulate (length idx) (shape1 a) (fun i j => item a (nth i idx O) j))
  else Err IndexError.

(** [np.maximum(x, y)] propagates NaN; of two equal operands, such as
    zeros of different sign, it returns the second. *)
Definition fmax (x y : float) : float :=
  if PrimFloat.is_nan x then x
  else if PrimFloat.ltb y x then x else y.

(** [np.max(a, axis=-1, keepdims=True)]: an empty last axis has no
    maximum. *)
Definition max_axis1 (a : ndarray) : result ndarray :=
  if shape1 a =? 0
  then Err (ValueError "zero-size array to reduction operation maximum which has no identity")
  else Ok (tabulate (shape0 a) 1
             (fun i _ => fold_left fmax (tl (row a i)) (item a i 0))).

(** [np.argmax] on one row: the first position of the maximum, a NaN
    counting as the maximum. *)
Fixpoint argmax_from (best_i : nat) (best : float) (i : nat) (l : list float)
  : nat :=
  match l with
  | [] => best_i
  | x :: l' =>
      if PrimFloat.is_nan best then best_i
      else if negb (PrimFloat.leb x best) then argmax_from i x (S i) l'
      else argmax_from best_i best (S i) l'
  end.

(** [np.argmax(a, axis=1)] *)
Definition argmax_axis1 (a : ndarray) : result (list Z) :=
  if shape1 a =? 0
  then Err (ValueError "attempt to get argmax of an empty sequence")
  else Ok (map (fun i => Z.of_nat (argmax_from 0 (item a i 0) 1 (tl (row a i))))
             (seq 0 (shape0 a))).

(** *** Labels

    [y] is either a 1-D array of integer class indices or a 2-D float
    array that is already one-hot ([compute_loss] tests [y.ndim]). *)
Inductive labels : Type :=
| Indices (y : list Z)
| OneHot (y : ndarray).

(** [y.size] *)
Definition size (y : labels) : nat :=
  match y with
  | Indices v => length v
  | OneHot m => shape0 m * shape1 m
  end.

(** [y.shape[0]] *)
Definition labels_shape0 (y : labels) : nat :=
  match y with
  | Indices v => length v
  | OneHot m => shape0 m
  end.

(** A 1-D integer array as it takes part in float arithmetic against a
    2-D array: a single row. *)
Definition row_of_ints (v : list Z) : ndarray :=
  tabulate 1 (length v) (fun _ j => float_of_Z (nth j v 0%Z)).

(** [-y]: the negation of an int64 array wraps around, so that
    [-(-2^63)] is [-2^63]. *)
Definition neg_labels (y : labels) : ndarray :=
  match y with
  | Indices v => row_of_ints (map (fun z => wrap_int64 (- z)) v)
  | OneHot m => map_array PrimFloat.opp m
  end.

(** [y[idx]] *)
Definition take_labels (y : labels) (idx : list nat) : result labels :=
  match y with
  | Indices v =>
      if forallb (fun i => i <? length v) idx
      then Ok (Indices (map (fun i => nth i v 0%Z) idx))
      else Err IndexError
  | OneHot m => (m' <~ take_rows m idx; Ok (OneHot m'))%result
  end.

(** [y[start:stop]] *)
Definition slice_labels (y : labels) (start stop : Z) : labels :=
  match y with
  | Indices v => Indices (PyList.slice v start stop)
  | OneHot m => OneHot (slice_rows m start stop)
  end.

(** The derivative of an activation is an array or the Python scalar [1]. *)
Inductive operand : Type :=
| Scalar (c : float)
| Array (a : ndarray).

(** [a * d] *)
Definition mul_operand (a : ndarray) (d : operand) : result ndarray :=
  match d with
  | Scalar c => Ok (map_array (fun x => PrimFloat.mul x c) a)
  | Array b => broadcast PrimFloat.mul a b
  end.

(** [a / n] with a Python integer [n]. *)
Definition div_by_int (a : ndarray) (n : nat) : ndarray :=
  map_array (fun x => PrimFloat.div x (float_of_nat n)) a.

(** Gradient lists start as [[None] * L] and are filled by index. *)
Definition grads : Type := list (option ndarray).

(* ================================================================== *)
(** ** Optimizer configuration: the dict handed to [set_optimizer] *)

Inductive pyvalue : Type :=
| PStr (s : string)
| PFloat (x : float)
| PBool (b : bool).

Definition dict : Type := list (string * pyvalue).

Fixpoint dict_get (d : dict) (k : string) : result pyvalue :=
  match d with
  | [] => Err (KeyError k)
  | (k', v) :: d' => if String.eqb k' k then Ok v else dict_get d' k
  end.

(** [d.update({k: v})] *)
Fixpoint dict_update (d : dict) (k : string) (v : pyvalue) : dict :=
  match d with
  | [] => [(k, v)]
  | (k', v') :: d' =>
      if String.eqb k' k then (k, v) :: d' else (k', v') :: dict_update d' k v
  end.

(** [s.lower()] on a dict value: only a [str] has the method. *)
Definition pylower (v : pyvalue) : result string :=
  match v with
  | PStr s => Ok (lower s)
  | _ => Err AttributeError
  end.

Definition pystr (v : pyvalue) : string :=
  match v with
  | PStr s => s
  | PFloat _ => "<float>"
  | PBool true => "True"
  | PBool false => "False"
  end.

Inductive optimizer_class : Type :=
| SGDOptimizer
| MomentumOptimizer
| NesterovOptimizer
| RMSpropOptimizer
| AdamOptimizer
| NadamOptimizer.

Definition optimizer_map (name : string) : option optimizer_class :=
  if String.eqb name "sgd" then Some SGDOptimizer
  else if String.eqb name "momentum" then Some MomentumOptimizer
  else if String.eqb name "nesterov" then Some NesterovOptimizer
  else if String.eqb name "rmsprop" then Some RMSpropOptimizer
  else if String.eqb name "adam" then Some AdamOptimizer
  else if String.eqb name "nadam" then Some NadamOptimizer
  else None.

(** Training history; the validation entries are [None] when no
    validation inputs were given. *)
Record history : Type := mk_history {
  train_loss : list float;
  train_acc : list float;
  val_loss : option (list float);
  val_acc : option (list float)
}.

(* ================================================================== *)
(** ** The configuration object read by [nn_from_config] *)

Module Config.

Record t : Type := mk {
  hidden_size : nat;
  num_layers : Z;
  activation : string;
  weight_init : string;
  weight_decay : float;
  optimizer : string;
  learning_rate : float;
  batch_size : Z;
  epochs : Z;
  loss : string
}.

End Config.

(** [y_pred] of [compute_accuracy_from_predictions]: predicted class
    labels (1-D) or per-class scores (2-D). *)
Inductive predictions : Type :=
| Classes (p : list Z)
| Scores (a : ndarray).

(* ================================================================== *)
(** ** Reference reductions and sample data *)

(** Summation from left to right, one admissible order for [np.sum]. *)
Definition sum_left (l : list float) : float :=
  fold_left PrimFloat.add l 0%float.

(** The inner product accumulated from left to right. *)
Definition inner_left (a b : list float) : float :=
  sum_left (map (fun p => PrimFloat.mul (fst p) (snd p)) (combine a b)).

Module Toy.

(** [[1, 2], [3, 4]] *)
Definition X : ndarray := tabulate 2 2 (fun i j => float_of_nat (2 * i + j + 1)).

(** [[0.5, 0.5], [0.5, 0.5]] *)
Definition half : ndarray := tabulate 2 2 (fun _ _ => 0.5%float).

(** Three rows of [0.5, 0.5]. *)
Definition half3 : ndarray := tabulate 3 2 (fun _ _ => 0.5%float).

(** [[1, 0.5], [0.5, 1]] *)
Definition W0 : ndarray :=
  tabulate 2 2 (fun i j => if i =? j then 1%float else 0.5%float).

(** [[0, 0]] *)
Definition B0 : ndarray := tabulate 1 2 (fun _ _ => 0%float).

End Toy.

(* ================================================================== *)
(** ** The network *)

Section Network.

(** numpy's transcendental functions, and its reductions, whose order of
    summation numpy leaves to the implementation. *)
Variables np_exp np_log np_tanh : float -> float.
Variable np_sum : list float -> float.
Variable np_inner : list float -> list float -> float.

(** The optimizer classes of [utils/optimizer.py], which this module
    imports: construction from [W], [B] and the entries of [optimizer_dict], and
    [update(W, B, dW, dB, iteration)], which returns the new parameters
    and may change the optimizer's own auxiliary state. *)
Variable OptState : Type.
Variable optimizer_init :
  optimizer_class -> list ndarray -> list ndarray -> dict -> result OptState.
Variable optimizer_update :
  optimizer_class -> OptState -> list ndarray -> list ndarray ->
  grads -> grads -> Z -> result (list ndarray * list ndarray) * OptState.

Record optimizer_obj : Type := mk_optimizer {
  opt_class : optimizer_class;
  opt_state : OptState
}.

Record NeuralNetwork : Type := mk_network {
  layer_sizes : list nat;
  L : nat;
  activation_functions : list string;
  LOG_EACH : bool;
  W : list ndarray;
  B : list ndarray;
  weight_decay : float;
  optimizer : option optimizer_obj
}.

Definition with_optimizer (o : option optimizer_obj) (nn : NeuralNetwork)
  : NeuralNetwork :=
  mk_network (layer_sizes nn) (L nn) (activation_functions nn) (LOG_EACH nn)
    (W nn) (B nn) (weight_decay nn) o.

Definition with_parameters (W' B' : list ndarray) (nn : NeuralNetwork)
  : NeuralNetwork :=
  mk_network (layer_sizes nn) (L nn) (activation_functions nn) (LOG_EACH nn)
    W' B' (weight_decay nn) (optimizer nn).

Definition with_weight_decay (wd : float) (nn : NeuralNetwork)
  : NeuralNetwork :=
  mk_network (layer_sizes nn) (L nn) (activation_functions nn) (LOG_EACH nn)
    (W nn) (B nn) wd (optimizer nn).

(** *** Methods: computations on [self] that may raise.
    The instance is threaded through and survives an exception. *)

Definition M (A : Type) : Type := NeuralNetwork -> result A * NeuralNetwork.

Definition ret {A : Type} (a : A) : M A := fun self => (Ok a, self).

Definition raise {A : Type} (e : exception) : M A := fun self => (Err e, self).

Definition bind {A C : Type} (m : M A) (k : A -> M C) : M C :=
  fun self =>
    match m self with
    | (Ok a, self') => k a self'
    | (Err e, self') => (Err e, self')
    end.

Definition lift {A : Type} (r : result A) : M A := fun self => (r, self).

(** [self.field] *)
Definition gets {A : Type} (field : NeuralNetwork -> A) : M A :=
  fun self => (Ok (field self), self).

(** [self.field = ...] *)
Definition modify (f : NeuralNetwork -> NeuralNetwork) : M unit :=
  fun self => (Ok tt, f self).

Definition run {A : Type} (m : M A) (self : NeuralNetwork) : result A :=
  fst (m self).

Definition exec {A : Type} (m : M A) (self : NeuralNetwork) : NeuralNetwork :=
  snd (m self).

Notation "x <- m ;; k" := (bind m (fun x => k))
  (at level 61, m at next level, right associativity).
Notation "' pat <- m ;; k" := (bind m (fun x => match x with pat => k end))
  (at level 61, pat pattern, m at next level, right associativity).

(** [for x in xs: s = body(x, s)] *)
Fixpoint for_each {I S : Type} (xs : list I) (body : I -> S -> M S) (s : S)
  : M S :=
  match xs with
  | [] => ret s
  | x :: xs' => s' <- body x s ;; for_each xs' body s'
  end.

Definition py_assert (b : bool) (msg : string) : M unit :=
  if b then ret tt else raise (AssertionError msg).

(** *** numpy operations that reduce *)

(** [np.dot(a, b)] *)
Definition np_dot (a b : ndarray) : result ndarray :=
  if shape1 a =? shape0 b
  then Ok (tabulate (shape0 a) (shape1 b)
             (fun i j => np_inner (row a i) (col b j)))
  else Err (ValueError "shapes not aligned").

(** [np.sum(a, axis=0, keepdims=True)] *)
Definition sum_axis0 (a : ndarray) : ndarray :=
  tabulate 1 (shape1 a) (fun _ j => np_sum (col a j)).

(** [np.sum(a, axis=-1, keepdims=True)] *)
Definition sum_axis1 (a : ndarray) : ndarray :=
  tabulate (shape0 a) 1 (fun i _ => np_sum (row a i)).

(** [np.sum(a)] *)
Definition sum_all (a : ndarray) : float := np_sum (concat (rows a)).

(** [np.mean(p == y)] for predicted class indices [p]: the comparison
    broadcasts, and the mean of the booleans is their count over their
    number.  Two integer arrays are compared as integers; against a
    float array the integers are converted first. *)
Definition mean_equal (p : list Z) (y : labels) : result float :=
  match y with
  | Indices v =>
      (n <~ broadcast_dim (List.length p) (List.length v);
       let hits :=
         filter (fun j => Z.eqb (nth (bidx (List.length p) j) p 0%Z)
                            (nth (bidx (List.length v) j) v 0%Z))
           (seq 0 n) in
       Ok (PrimFloat.div (float_of_nat (List.length hits)) (float_of_nat n)))%result
  | OneHot m =>
      (hits <~ broadcast (fun u v => if PrimFloat.eqb u v then 1%float else 0%float)
                 (row_of_ints p) m;
       let count :=
         List.length (filter (fun x => PrimFloat.eqb x 1%float)
                        (concat (rows hits))) in
       Ok (PrimFloat.div (float_of_nat count)
             (float_of_nat (shape0 hits * shape1 hits))))%result
  end.

(** *** [__init__]

    [uniform] and [randn] stand for the draws of [np.random.uniform(-0.5,
    0.5, shape)] and [np.random.randn] for the weight matrix of
    each layer. *)
Definition adjacent_sizes (sizes : list nat) : list (nat * nat) :=
  combine (tl sizes) sizes.

Definition __init__ (layer_sizes : list nat) (activation_functions : list string)
    (weight_decay : float) (weight_init : string) (LOG_EACH : bool)
    (uniform randn : nat -> nat -> nat -> float)
  : result NeuralNetwork :=
  if negb (List.length layer_sizes =? List.length activation_functions + 1)
  then Err (AssertionError
              "Number of layers (excluding input layer) and activations must match")
  else
    let L := List.length layer_sizes - 1 in
    let zeros := map (fun '(n, _) => tabulate 1 n (fun _ _ => 0%float))
                     (adjacent_sizes layer_sizes) in
    let layers := combine (seq 0 L) (adjacent_sizes layer_sizes) in
    if String.eqb (lower weight_init) "random" then
      Ok (mk_network layer_sizes L activation_functions LOG_EACH
            (map (fun '(l, (n, m)) => tabulate n m (uniform l)) layers)
            zeros weight_decay None)
    else if String.eqb (lower weight_init) "xavier" then
      if existsb (fun '(n, m) => n + m =? 0) (adjacent_sizes layer_sizes)
      then Err ZeroDivisionError
      else
        Ok (mk_network layer_sizes L activation_functions LOG_EACH
              (map (fun '(l, (n, m)) =>
                      tabulate n m
                        (fun i j =>
                           PrimFloat.mul (randn l i j)
                             (PrimFloat.sqrt
                                (PrimFloat.div 2%float (float_of_nat (n + m))))))
                   layers)
              zeros weight_decay None)
    else Err (ValueError ("Unsupported weight initialization: " ++ weight_init)).

(** *** [set_optimizer] *)
Definition set_optimizer (optimizer_dict : dict) : M unit :=
  name <- lift (dict_get optimizer_dict "name") ;;
  key <- lift (pylower name) ;;
  match optimizer_map key with
  | None => raise (ValueError ("Unsupported optimizer: " ++ pystr name))
  | Some cls =>
      log_each <- gets LOG_EACH ;;
      let optimizer_dict' :=
        dict_update optimizer_dict "LOG_EACH" (PBool log_each) in
      W_ <- gets W ;;
      B_ <- gets B ;;
      st <- lift (optimizer_init cls W_ B_ optimizer_dict') ;;
      modify (with_optimizer (Some (mk_optimizer cls st)))
  end.

(** *** [activate] *)
Definition activate (A : ndarray) (activation : string) : result ndarray :=
  if String.eqb (lower activation) "sigmoid" then
    Ok (map_array (fun a => 1 / (1 + np_exp (- a)))%float A)
  else if String.eqb (lower activation) "relu" then
    Ok (map_array (fmax 0%float) A)
  else if String.eqb (lower activation) "tanh" then
    Ok (map_array np_tanh A)
  else if String.eqb (lower activation) "softmax" then
    (mx <~ max_axis1 A;
     shifted <~ broadcast PrimFloat.sub A mx;
     let exps := map_array np_exp shifted in
     broadcast PrimFloat.div exps (sum_axis1 exps))%result
  else if String.eqb (lower activation) "identity" then
    Ok A
  else Err (ValueError ("Unsupported activation function: " ++ activation)).

(** *** [_activate_derivative] *)
Definition _activate_derivative (A H : ndarray) (activation : string)
  : result operand :=
  if String.eqb (lower activation) "sigmoid" then
    Ok (Array (map_array (fun h => h * (1 - h))%float H))
  else if String.eqb (lower activation) "relu" then
    Ok (Array (map_array
                 (fun a => if PrimFloat.ltb 0%float a then 1%float else 0%float) A))
  else if String.eqb (lower activation) "tanh" then
    Ok (Array (map_array (fun h => 1 - h * h)%float H))
  else if String.eqb (lower activation) "identity" then
    Ok (Scalar 1%float)
  else if String.eqb (lower activation) "softmax" then
    Ok (Scalar 1%float)
  else Err (ValueError ("Unsupported activation function: " ++ activation)).

(** *** [forward_propagation] *)
Definition forward_layer (i : nat) (HA : list ndarray * list ndarray)
  : M (list ndarray * list ndarray) :=
  let '(H, A) := HA in
  Hi <- lift (PyList.index H i) ;;
  W_ <- gets W ;;
  Wi <- lift (PyList.index W_ i) ;;
  z <- lift (np_dot Hi (transpose Wi)) ;;
  B_ <- gets B ;;
  Bi <- lift (PyList.index B_ i) ;;
  a <- lift (broadcast PrimFloat.add z Bi) ;;
  let A' := A ++ [a] in
  Ai <- lift (PyList.index A' i) ;;
  acts <- gets activation_functions ;;
  act <- lift (PyList.index acts i) ;;
  h <- lift (activate Ai act) ;;
  ret (H ++ [h], A').

Definition forward_propagation (X : ndarray) : M (list ndarray * list ndarray) :=
  n <- gets L ;;
  for_each (seq 0 n) forward_layer ([X], []).

(** *** [one_hot]

    Integer fancy indexing accepts a label [z] with [-C <= z < C] and
    counts a negative one from the end; a float array is not an index. *)
Definition wrap_index (C : nat) (z : Z) : nat :=
  if (z <? 0)%Z then Z.to_nat (z + Z.of_nat C) else Z.to_nat z.

Definition one_hot (y : labels) : M ndarray :=
  sizes <- gets layer_sizes ;;
  C <- lift (PyList.index_from_end sizes 1) ;;
  match y with
  | Indices v =>
      if forallb (fun z => (- Z.of_nat C <=? z)%Z && (z <? Z.of_nat C)%Z) v
      then ret (tabulate (List.length v) C
                  (fun i j => if j =? wrap_index C (nth i v 0%Z)
                              then 1%float else 0%float))
      else raise IndexError
  | OneHot _ => raise IndexError
  end.

(** [if y.ndim == 1: y = self.one_hot(y)] *)
Definition expand_labels (y : labels) : M ndarray :=
  match y with
  | Indices _ => one_hot y
  | OneHot m => ret m
  end.

Definition epsilon : float := 0x1.203af9ee75616p-50%float.  (* 1e-15 *)

(** *** [compute_loss] *)
Definition compute_loss (H_final : ndarray) (y : labels) (loss_type : string)
  : M float :=
  y' <- expand_labels y ;;
  let m := shape0 y' in
  if String.eqb (lower loss_type) "cross_entropy" then
    prod <- lift (broadcast PrimFloat.mul y'
                    (map_array (fun h => np_log (h + epsilon))%float H_final)) ;;
    ret (- (sum_all prod) / float_of_nat m)%float
  else if String.eqb (lower loss_type) "mse"
          || String.eqb (lower loss_type) "mean_squared_error" then
    diff <- lift (broadcast PrimFloat.sub H_final y') ;;
    ret (sum_all (map_array (fun d => d * d)%float diff) / float_of_nat (2 * m))%float
  else raise (ValueError ("Unsupported loss function: " ++ loss_type)).

(** *** [_loss_derivative] *)
Definition _loss_derivative (y_pred : ndarray) (y : labels) (loss_type : string)
  : M ndarray :=
  if String.eqb (lower loss_type) "cross_entropy" then
    lift (broadcast PrimFloat.div (neg_labels y)
            (map_array (fun p => p + epsilon)%float y_pred))
  else if String.eqb (lower loss_type) "mse"
          || String.eqb (lower loss_type) "mean_squared_error" then
    y' <- expand_labels y ;;
    let m := shape0 y' in
    diff <- lift (broadcast PrimFloat.sub y_pred y') ;;
    ret (div_by_int diff m)
  else raise (ValueError ("Unsupported loss function: " ++ loss_type)).

(** *** [back_propagation] *)

(** [self.activation_functions[-1]] *)
Definition last_activation : M string :=
  acts <- gets activation_functions ;;
  lift (PyList.index_from_end acts 1).

(** The error [dA] at the output layer. *)
Definition output_error (y : labels) (H A : list ndarray) (loss_type : string)
  : M ndarray :=
  shortcut <- (if String.eqb (lower loss_type) "cross_entropy"
               then act <- last_activation ;;
                    ret (String.eqb (lower act) "softmax")
               else ret false) ;;
  if shortcut : bool then
    HL <- lift (PyList.index_from_end H 1) ;;
    y' <- one_hot y ;;
    lift (broadcast PrimFloat.sub HL y')
  else
    HL <- lift (PyList.index_from_end H 1) ;;
    dH <- _loss_derivative HL y loss_type ;;
    AL <- lift (PyList.index_from_end A 1) ;;
    act <- last_activation ;;
    d <- lift (_activate_derivative AL HL act) ;;
    lift (mul_operand dH d).

(** [np.dot(dA.T, Hk) / N] *)
Definition weight_gradient (dA Hk : ndarray) (N : nat) : result ndarray :=
  (p <~ np_dot (transpose dA) Hk; Ok (div_by_int p N))%result.

(** [np.sum(dA, axis=0, keepdims=True) / N] *)
Definition bias_gradient (dA : ndarray) (N : nat) : ndarray :=
  div_by_int (sum_axis0 dA) N.

(** The assignments to [dW[-1]] and [dB[-1]]. *)
Definition output_layer (H : list ndarray) (N : nat) (dA : ndarray)
    (dW dB : grads) : M (grads * grads) :=
  Hprev <- lift (PyList.index_from_end H 2) ;;
  g <- lift (weight_gradient dA Hprev N) ;;
  dW' <- lift (PyList.setitem_from_end dW 1 (Some g)) ;;
  dB' <- lift (PyList.setitem_from_end dB 1 (Some (bias_gradient dA N))) ;;
  ret (dW', dB').

(** The body of [for k in range(self.L-2, -1, -1)]. *)
Definition hidden_layer (H A : list ndarray) (N : nat) (k : nat)
    (st : ndarray * grads * grads) : M (ndarray * grads * grads) :=
  let '(dA, dW, dB) := st in
  W_ <- gets W ;;
  Wnext <- lift (PyList.index W_ (k + 1)) ;;
  back <- lift (np_dot dA Wnext) ;;
  Ak <- lift (PyList.index A k) ;;
  Hnext <- lift (PyList.index H (k + 1)) ;;
  acts <- gets activation_functions ;;
  act <- lift (PyList.index acts k) ;;
  d <- lift (_activate_derivative Ak Hnext act) ;;
  dA' <- lift (mul_operand back d) ;;
  Hk <- lift (PyList.index H k) ;;
  dWk <- lift (weight_gradient dA' Hk N) ;;
  let dBk := bias_gradient dA' N in
  dW' <- lift (PyList.setitem dW k (Some dWk)) ;;
  dB' <- lift (PyList.setitem dB k (Some dBk)) ;;
  ret (dA', dW', dB').

(** The body of [for i in range(len(self.W))]: [dW[i] += weight_decay * W[i]]. *)
Definition decay_layer (i : nat) (dW : grads) : M grads :=
  g <- lift (PyList.index dW i) ;;
  wd <- gets weight_decay ;;
  W_ <- gets W ;;
  Wi <- lift (PyList.index W_ i) ;;
  match g with
  | None => raise TypeError
  | Some g =>
      g' <- lift (broadcast_inplace PrimFloat.add g
                    (map_array (PrimFloat.mul wd) Wi)) ;;
      lift (PyList.setitem dW i (Some g'))
  end.

(** Everything before [if self.weight_decay > 0]. *)
Definition layer_gradients (X : ndarray) (y : labels) (H A : list ndarray)
    (loss_type : string) : M (grads * grads) :=
  n <- gets L ;;
  _ <- py_assert ((List.length H =? n + 1) && (List.length A =? n)) "" ;;
  let N := shape0 X in
  _ <- py_assert ((N =? size y) && (n =? List.length A)
                  && (n + 1 =? List.length H)) "" ;;
  let dW := repeat (@None ndarray) n in
  let dB := repeat (@None ndarray) n in
  dA <- output_error y H A loss_type ;;
  ' (dW, dB) <- output_layer H N dA dW dB ;;
  ' (_, dW, dB) <- for_each (rev (seq 0 (n - 1))) (hidden_layer H A N)
                     (dA, dW, dB) ;;
  ret (dW, dB).

Definition back_propagation (X : ndarray) (y : labels) (H A : list ndarray)
    (loss_type : string) : M (grads * grads) :=
  ' (dW, dB) <- layer_gradients X y H A loss_type ;;
  wd <- gets weight_decay ;;
  if PrimFloat.ltb 0%float wd then
    W_ <- gets W ;;
    dW' <- for_each (seq 0 (List.length W_)) decay_layer dW ;;
    ret (dW', dB)
  else ret (dW, dB).

(** *** [predict] *)
Definition predict (X : ndarray) : M ndarray :=
  ' (H, _) <- forward_propagation X ;;
  lift (PyList.index_from_end H 1).

(** *** [compute_accuracy] *)
Definition compute_accuracy (X : ndarray) (y : labels) : M float :=
  p <- predict X ;;
  y_pred <- lift (argmax_axis1 p) ;;
  lift (mean_equal y_pred y).

(** *** [train] *)

(** [self.W, self.B = self.optimizer.update(self.W, self.B, dW, dB, iteration)] *)
Definition optimizer_step (dW dB : grads) (iteration : Z) : M unit :=
  o <- gets optimizer ;;
  match o with
  | None => raise AttributeError
  | Some opt =>
      W_ <- gets W ;;
      B_ <- gets B ;;
      let '(r, st) :=
        optimizer_update (opt_class opt) (opt_state opt) W_ B_ dW dB iteration in
      _ <- modify (with_optimizer (Some (mk_optimizer (opt_class opt) st))) ;;
      ' (W', B') <- lift r ;;
      modify (with_parameters W' B')
  end.

(** [a / b] for Python integers, [b] not zero: the quotient rounded to
    the nearest float64, ties to even ([SpecFloat] has the division of
    two mantissas and the rounding).  A quotient below [2^-1075] in
    magnitude rounds to zero; one of [2^1024] or more would need more
    than the [2^63] rows an array can have. *)
Definition true_divide (a b : Z) : spec_float :=
  match a with
  | Z0 => S754_zero (b <? 0)%Z
  | _ =>
      let '(m, e, l) := SFdiv_core_binary 53 1024 (Z.abs a) 0 (Z.abs b) 0 in
      binary_round_aux 53 1024 (xorb (a <? 0)%Z (b <? 0)%Z) m e l
  end.

(** [int(np.ceil(x))] for a finite [x], which the quotient of a number
    of rows is. *)
Definition int_ceil (x : spec_float) : Z :=
  match x with
  | S754_finite s m e =>
      let n := if s then Z.neg m else Z.pos m in
      if (0 <=? e)%Z then (n * 2 ^ e)%Z else (- ((- n) / 2 ^ (- e)))%Z
  | _ => 0%Z
  end.

(** [int(np.log10(n) + 1)]: the value only sets the width of printed
    fields; [np.log10] gives [-inf] at 0 and [nan] below, which [int]
    rejects. *)
Definition spacer (n : Z) : result unit :=
  if (n =? 0)%Z then Err OverflowError
  else if (n <? 0)%Z then Err (ValueError "cannot convert float NaN to integer")
  else Ok tt.

(** The local variables of [train] that the loops carry; [loc_batch] is
    [(H, X_batch, y_batch)] once a batch has run. *)
Record locals : Type := mk_locals {
  loc_X_train : ndarray;
  loc_y_train : labels;
  loc_iteration : Z;
  loc_history : history;
  loc_batch : option (list ndarray * ndarray * labels)
}.

(** The permutation step at the head of an epoch. *)
Definition shuffle (permutation : list nat) (X_train : ndarray)
    (y_train : labels) : result (ndarray * labels) :=
  (X' <~ take_rows X_train permutation;
   y' <~ take_labels y_train permutation;
   Ok (X', y'))%result.

(** [compute_loss(None, y, loss_type)], reached through [predict(None)]
    on a network without layers. *)
Definition compute_loss_of_none (y : option labels) (loss_type : string)
  : M float :=
  match y with
  | None => raise AttributeError
  | Some y =>
      _ <- expand_labels y ;;
      if String.eqb (lower loss_type) "cross_entropy" then raise TypeError
      else if String.eqb (lower loss_type) "mse"
              || String.eqb (lower loss_type) "mean_squared_error"
      then raise TypeError
      else raise (ValueError ("Unsupported loss function: " ++ loss_type))
  end.

Section Train.

Variable X_val : option ndarray.
Variable y_val : option labels.
Variables batch_size num_epochs : Z.
Variable loss_type : string.
Variable log_every : Z.
(** [callback.on_epoch_end], when a callback is given. *)
Variable callback : option (float -> float -> float -> float -> result unit).
(** The draw of [np.random.permutation(num_datapoints)] in each epoch. *)
Variable np_random_permutation : Z -> list nat.

Variable num_datapoints : nat.
Variable num_batches : Z.

(** The body of [for batch in range(num_batches)].  Console output
    is left out. *)
Definition train_batch (batch : Z) (v : locals) : M locals :=
  let start_idx := (batch * batch_size)%Z in
  let end_idx := Z.min ((batch + 1) * batch_size) (Z.of_nat num_datapoints) in
  let X_batch := slice_rows (loc_X_train v) start_idx end_idx in
  let y_batch := slice_labels (loc_y_train v) start_idx end_idx in
  ' (H, A) <- forward_propagation X_batch ;;
  ' (dW, dB) <- back_propagation X_batch y_batch H A loss_type ;;
  _ <- optimizer_step dW dB (loc_iteration v) ;;
  _ <- (if (log_every =? 0)%Z then raise ZeroDivisionError
        else if (loc_iteration v mod log_every =? 0)%Z then
          HL <- lift (PyList.index_from_end H 1) ;;
          _ <- compute_loss HL y_batch loss_type ;;
          match X_val, y_val with
          | Some Xv, Some yv =>
              p <- predict Xv ;;
              _ <- compute_loss p yv loss_type ;;
              ret tt
          | _, _ => ret tt
          end
        else ret tt) ;;
  ret (mk_locals (loc_X_train v) (loc_y_train v) (loc_iteration v + 1)%Z
         (loc_history v) (Some (H, X_batch, y_batch))).

(** The validation entries at the end of an epoch and the callback.
    With [X_val = None], [self.predict(None)] starts forward
    propagation from [H = [None]] and [np.dot(None, self.W[0].T)]
    raises [TypeError] (the layers having at least one unit each); with
    validation inputs but [y_val = None], [compute_loss] fails on
    [y.ndim]. *)
Definition epoch_validation (v : locals) (train_loss_ : float)
    (hist : history) : M history :=
  match X_val, y_val with
  | Some Xv, Some yv =>
      p <- predict Xv ;;
      val_loss_ <- compute_loss p yv loss_type ;;
      val_acc_ <- compute_accuracy Xv yv ;;
      match val_loss hist with
      | None => raise AttributeError
      | Some losses =>
          match val_acc hist with
          | None => raise AttributeError
          | Some accs =>
              let hist' :=
                mk_history (train_loss hist) (train_acc hist)
                  (Some (losses ++ [val_loss_])) (Some (accs ++ [val_acc_])) in
              match callback with
              | None => ret hist'
              | Some on_epoch_end =>
                  acc <- compute_accuracy (loc_X_train v) (loc_y_train v) ;;
                  p' <- predict Xv ;;
                  vl <- compute_loss p' yv loss_type ;;
                  va <- compute_accuracy Xv yv ;;
                  _ <- lift (on_epoch_end train_loss_ acc vl va) ;;
                  ret hist'
              end
          end
      end
  | Some Xv, None =>
      _ <- predict Xv ;;
      raise AttributeError
  | None, _ =>
      n <- gets L ;;
      if n =? 0 then
        _ <- compute_loss_of_none y_val loss_type ;;
        raise AttributeError
      else
        W_ <- gets W ;;
        _ <- lift (PyList.index W_ 0) ;;
        raise TypeError
  end.

(** The body of [for epoch in range(num_epochs)]. *)
Definition train_epoch (epoch : Z) (v : locals) : M locals :=
  ' (X', y') <- lift (shuffle (np_random_permutation epoch)
                        (loc_X_train v) (loc_y_train v)) ;;
  v <- for_each (PyList.range num_batches) train_batch
         (mk_locals X' y' (loc_iteration v) (loc_history v) (loc_batch v)) ;;
  match loc_batch v with
  | None => raise UnboundLocalError
  | Some (H, X_batch, y_batch) =>
      HL <- lift (PyList.index_from_end H 1) ;;
      train_loss_ <- compute_loss HL y_batch loss_type ;;
      train_acc_ <- compute_accuracy X_batch y_batch ;;
      let hist := loc_history v in
      let hist := mk_history (train_loss hist ++ [train_loss_])
                    (train_acc hist ++ [train_acc_])
                    (val_loss hist) (val_acc hist) in
      hist' <- epoch_validation v train_loss_ hist ;;
      ret (mk_locals (loc_X_train v) (loc_y_train v) (loc_iteration v)
             hist' (loc_batch v))
  end.

End Train.

Definition default_optimizer : dict :=
  [("name"%string, PStr "sgd");
   ("learning_rate"%string, PFloat 0x1.47ae147ae147bp-7%float)].  (* 0.01 *)

(** [train] from [num_datapoints = X_train.shape[0]] on. *)
Definition train_loop (X_train : ndarray) (y_train : labels)
    (X_val : option ndarray) (y_val : option labels)
    (batch_size num_epochs : Z) (loss_type : string) (log_every : Z)
    (callback : option (float -> float -> float -> float -> result unit))
    (np_random_permutation : Z -> list nat) : M history :=
  let num_datapoints := shape0 X_train in
  if (batch_size =? 0)%Z then raise ZeroDivisionError
  else
    let num_batches :=
      int_ceil (true_divide (Z.of_nat num_datapoints) batch_size) in
    _ <- lift (spacer num_epochs) ;;
    _ <- lift (spacer num_batches) ;;
    let hist :=
      mk_history [] []
        (match X_val with Some _ => Some [] | None => None end)
        (match X_val with Some _ => Some [] | None => None end) in
    v <- for_each (PyList.range num_epochs)
           (train_epoch X_val y_val batch_size loss_type log_every callback
              np_random_permutation num_datapoints num_batches)
           (mk_locals X_train y_train 0%Z hist None) ;;
    ret (loc_history v).

Definition train (X_train : ndarray) (y_train : labels)
    (X_val : option ndarray) (y_val : option labels)
    (batch_size num_epochs : Z) (loss_type : string) (log_every : Z)
    (callback : option (float -> float -> float -> float -> result unit))
    (np_random_permutation : Z -> list nat) : M history :=
  o <- gets optimizer ;;
  _ <- match o with
       | None => set_optimizer default_optimizer
       | Some _ => ret tt
       end ;;
  train_loop X_train y_train X_val y_val batch_size num_epochs loss_type
    log_every callback np_random_permutation.


(** *** [compute_accuracy_from_predictions]

    The method does not read [self]: [if y_pred.ndim != 1] takes the
    row-wise argmax of a score array, then [np.mean(y_pred == y)]. *)
Definition compute_accuracy_from_predictions (y_pred : predictions) (y : labels)
  : result float :=
  (p <~ match y_pred with
        | Scores a => argmax_axis1 a
        | Classes p => Ok p
        end;
   mean_equal p y)%result.

(** *** [nn_from_config]

    [get_optimizer], which the module imports, turns an optimizer name
    and a learning rate into the dict for [set_optimizer]; [[x] * n] is
    empty for [n <= 0]. *)
Definition nn_from_config (get_optimizer : string -> float -> result dict)
    (config : Config.t)
    (wandb_callback : option (float -> float -> float -> float -> result unit))
    (X_train : ndarray) (y_train : labels)
    (X_val : option ndarray) (y_val : option labels)
    (uniform randn : nat -> nat -> nat -> float)
    (np_random_permutation : Z -> list nat)
  : result (NeuralNetwork * history) :=
  let layer_sizes :=
    [784] ++ repeat (Config.hidden_size config) (Z.to_nat (Config.num_layers config))
          ++ [10] in
  let activation_functions :=
    repeat (Config.activation config) (Z.to_nat (Config.num_layers config))
      ++ ["softmax"%string] in
  (nn <~ __init__ layer_sizes activation_functions (Config.weight_decay config)
           (Config.weight_init config) false uniform randn;
   optimizer_ <~ get_optimizer (Config.optimizer config) (Config.learning_rate config);
   let '(r, nn) := set_optimizer optimizer_ nn in
   _ <~ r;
   let '(r, nn) :=
     train X_train y_train X_val y_val (Config.batch_size config)
       (Config.epochs config) (Config.loss config) 1000%Z wandb_callback
       np_random_permutation nn in
   history_ <~ r;
   Ok (nn, history_))%result.

(** *** Sample networks *)

(** Layers [2, 2], a sigmoid output. *)
Definition one_layer_network : NeuralNetwork :=
  mk_network [2; 2] 1 ["sigmoid"%string] false [Toy.W0] [Toy.B0] 0%float None.

(** Layers [2, 2, 2], relu then softmax, with weight decay [wd]. *)
Definition two_layer_network (wd : float) : NeuralNetwork :=
  mk_network [2; 2; 2] 2 ["relu"%string; "softmax"%string] false
    [Toy.W0; Toy.W0] [Toy.B0; Toy.B0] wd None.

(** The value of a result that is known to be [Ok]. *)
Definition from_ok {A : Type} (default : A) (r : result A) : A :=
  match r with Ok a => a | Err _ => default end.

(* ================================================================== *)
(** ** Notions used to state the properties *)

(** The label of sample [i]. *)
Definition label_at (y : labels) (i : nat) : Z + list float :=
  match y with
  | Indices v => inl (nth i v 0%Z)
  | OneHot m => inr (row m i)
  end.

(** The (input, label) pairs of a data set, in order. *)
Definition samples (X : ndarray) (y : labels) : list (list float * (Z + list float)) :=
  map (fun i => (row X i, label_at y i)) (seq 0 (shape0 X)).

(** The error of hidden layer [k] from the error [dA_next] of layer [k+1]:
    [(dA_next . W[k+1]) * derivative(A[k], H[k+1], kind_k)]. *)
Definition hidden_error (self : NeuralNetwork) (H A : list ndarray) (k : nat)
    (dA_next : ndarray) : result ndarray :=
  (Wnext <~ PyList.index (W self) (k + 1);
   back <~ np_dot dA_next Wnext;
   Ak <~ PyList.index A k;
   Hnext <~ PyList.index H (k + 1);
   act <~ PyList.index (activation_functions self) k;
   d <~ _activate_derivative Ak Hnext act;
   mul_operand back d)%result.

(** Layer [k] of the returned gradients holds [dA_k^T . H[k] / N] and
    [columnwise-sum(dA_k) / N]. *)
Definition gradient_entries (H : list ndarray) (N k : nat) (dAk : ndarray)
    (dW dB : grads) : Prop :=
  exists (Hk g : ndarray),
    nth_error H k = Some Hk /\
    weight_gradient dAk Hk N = Ok g /\
    nth_error dW k = Some (Some g) /\
    nth_error dB k = Some (Some (bias_gradient dAk N)).

(** The layer errors [ds[0 .. L-1]] and the gradients [(G, dB)] they
    give: [ds[L-1]] is the output-layer error, each error below comes from
    the one above by [hidden_error], and layer [k] of [(G, dB)] holds the
    gradients of [ds[k]]. *)
Definition gradient_chain (self : NeuralNetwork) (X : ndarray) (y : labels)
    (H A : list ndarray) (loss_type : string) (ds : list ndarray)
    (G dB : grads) : Prop :=
  List.length ds = L self /\
  List.length G = L self /\
  List.length dB = L self /\
  (exists dAL,
     run (output_error y H A loss_type) self = Ok dAL /\
     nth_error ds (L self - 1) = Some dAL) /\
  (forall k, k + 1 < L self ->
     exists dAk dAnext,
       nth_error ds k = Some dAk /\
       nth_error ds (k + 1) = Some dAnext /\
       hidden_error self H A k dAnext = Ok dAk) /\
  (forall k, k < L self ->
     exists dAk,
       nth_error ds k = Some dAk /\
       gradient_entries H (shape0 X) k dAk G dB).

(** A method that neither reads nor writes [self.weight_decay]. *)
Definition decay_free {A : Type} (m : M A) : Prop :=
  forall (self : NeuralNetwork) (wd : float),
    m (with_weight_decay wd self) = (run m self, with_weight_decay wd self).

(** [g0 + wd * Wi], entry by entry. *)
Definition decayed (wd : float) (g0 Wi : ndarray) : ndarray :=
  tabulate (shape0 g0) (shape1 g0)
    (fun r c => PrimFloat.add (item g0 r c)
                  (bitem (map_array (PrimFloat.mul wd) Wi) r c)).

(** The states an optimizer object can reach through calls of [update]. *)
Inductive evolves (cls : optimizer_class) : OptState -> OptState -> Prop :=
| evolves_refl (st : OptState) : evolves cls st st
| evolves_update (st st' : OptState) (W_ B_ : list ndarray) (dW dB : grads)
    (iteration : Z) :
    evolves cls st st' ->
    evolves cls st (snd (optimizer_update cls st' W_ B_ dW dB iteration)).

(** A method call that ends in an exception whatever the instance. *)
Definition raises {A : Type} (m : M A) : Prop :=
  forall self : NeuralNetwork, exists e : exception, run m self = Err e.

(** A method that leaves an attached optimizer in place: afterwards the
    network holds the same optimizer object, advanced by calls of its
    [update] only. *)
Definition keeps_optimizer {A : Type} (m : M A) : Prop :=
  forall (self : NeuralNetwork) (o : optimizer_obj),
    optimizer self = Some o ->
    exists st' : OptState,
      optimizer (exec m self) = Some (mk_optimizer (opt_class o) st') /\
      evolves (opt_class o) (opt_state o) st'.

(** The names each dispatch accepts. *)
Definition supported_activation (name : string) : bool :=
  existsb (String.eqb (lower name))
    ["sigmoid"; "relu"; "tanh"; "softmax"; "identity"]%string.

Definition supported_loss (name : string) : bool :=
  existsb (String.eqb (lower name))
    ["cross_entropy"; "mse"; "mean_squared_error"]%string.

Definition supported_weight_init (name : string) : bool :=
  existsb (String.eqb (lower name)) ["random"; "xavier"]%string.

(** The cross-entropy gradient as documented, [-y_onehot / (y_pred + epsilon)],
    with integer labels expanded first. *)
Definition documented_cross_entropy_gradient (y_pred : ndarray) (y : labels)
  : M ndarray :=
  y' <- expand_labels y ;;
  lift (broadcast PrimFloat.div (map_array PrimFloat.opp y')
          (map_array (fun p => p + epsilon)%float y_pred)).

(** The parameters have the shapes the layer sizes give them: [W[i]] is
    [(layer_sizes[i+1], layer_sizes[i])] and [B[i]] is
    [(1, layer_sizes[i+1])], one of each per layer. *)
Definition well_shaped (self : NeuralNetwork) : Prop :=
  List.length (layer_sizes self) = L self + 1 /\
  List.length (activation_functions self) = L self /\
  List.length (W self) = L self /\
  List.length (B self) = L self /\
  forall i, i < L self ->
    exists Wi Bi,
      nth_error (W self) i = Some Wi /\
      nth_error (B self) i = Some Bi /\
      shape0 Wi = nth (i + 1) (layer_sizes self) 0 /\
      shape1 Wi = nth i (layer_sizes self) 0 /\
      shape0 Bi = 1 /\
      shape1 Bi = nth (i + 1) (layer_sizes self) 0.

(** Layer [i] applied to its input [Hi]: the pre-activation
    [np.dot(Hi, W[i].T) + B[i]] and its activation. *)
Definition layer_output (self : NeuralNetwork) (i : nat) (Hi : ndarray)
  : result (ndarray * ndarray) :=
  (Wi <~ PyList.index (W self) i;
   z <~ np_dot Hi (transpose Wi);
   Bi <~ PyList.index (B self) i;
   a <~ broadcast PrimFloat.add z Bi;
   act <~ PyList.index (activation_functions self) i;
   h <~ activate a act;
   Ok (a, h))%result.

(** Every layer has a supported activation, and a softmax layer has at
    least one unit. *)
Definition activations_usable (self : NeuralNetwork) : Prop :=
  forall i act,
    nth_error (activation_functions self) i = Some act ->
    supported_activation act = true /\
    (lower act = "softmax"%string -> nth (i + 1) (layer_sizes self) 0 <> 0).

(** An array of shape [(n, m)]. *)
Definition has_shape (a : ndarray) (n m : nat) : Prop :=
  shape0 a = n /\ shape1 a = m.

(** Integer labels that [one_hot] can place in [C] columns. *)
Definition labels_in_range (C : nat) (v : list Z) : Prop :=
  Forall (fun z => (- Z.of_nat C <= z < Z.of_nat C)%Z) v.

(** Gradients filled layer by layer, each with the shape of the
    parameter it belongs to. *)
Definition gradients_shaped (self : NeuralNetwork) (dW dB : grads) : Prop :=
  List.length dW = L self /\ List.length dB = L self /\
  forall k, k < L self ->
    exists gW gB Wk Bk,
      nth_error dW k = Some (Some gW) /\ nth_error dB k = Some (Some gB) /\
      nth_error (W self) k = Some Wk /\ nth_error (B self) k = Some Bk /\
      same_shape gW Wk /\ same_shape gB Bk.

(** The losses whose gradient works on integer labels: cross-entropy on
    a softmax output, and the squared error. *)
Definition trainable_loss (self : NeuralNetwork) (loss_type : string) : Prop :=
  (lower loss_type = "cross_entropy"%string /\
   exists act, PyList.index_from_end (activation_functions self) 1 = Ok act /\
               lower act = "softmax"%string) \/
  lower loss_type = "mse"%string \/
  lower loss_type = "mean_squared_error"%string.

(** Two instances with the same architecture and hyper-parameters:
    everything but the parameters and the optimizer. *)
Definition same_architecture (a b : NeuralNetwork) : Prop :=
  layer_sizes a = layer_sizes b /\ L a = L b /\
  activation_functions a = activation_functions b /\
  LOG_EACH a = LOG_EACH b /\ weight_decay a = weight_decay b.

(** A method that leaves the architecture alone, whether it returns or
    raises. *)
Definition keeps_architecture {A : Type} (m : M A) : Prop :=
  forall self : NeuralNetwork, same_architecture (exec m self) self.

(** A history with [n] entries in each of its four lists. *)
Definition history_lengths (h : history) (n : nat) : Prop :=
  List.length (train_loss h) = n /\ List.length (train_acc h) = n /\
  exists vl va,
    val_loss h = Some vl /\ val_acc h = Some va /\
    List.length vl = n /\ List.length va = n.

(** A network that a training step can work on, relative to the
    network [self0] training started from: well shaped, of the same
    architecture, with an optimizer in a state that satisfies [good]. *)
Definition trainable_state (good : optimizer_obj -> Prop)
    (self0 s : NeuralNetwork) : Prop :=
  well_shaped s /\ same_architecture s self0 /\
  exists o, optimizer s = Some o /\ good o.

(** Inputs with one integer label per row that fit the network [self0]. *)
Definition labelled (self0 : NeuralNetwork) (X : ndarray) (y : labels) : Prop :=
  exists v,
    y = Indices v /\ List.length v = shape0 X /\
    shape1 X = nth 0 (layer_sizes self0) 0 /\
    labels_in_range (nth (L self0) (layer_sizes self0) 0) v.

(** What [train] remembers of the last batch: its data and a forward
    cache whose last entry has one row of class scores per sample. *)
Definition cached_batch (self0 : NeuralNetwork)
    (b : list ndarray * ndarray * labels) : Prop :=
  let '(H, X_batch, y_batch) := b in
  labelled self0 X_batch y_batch /\
  exists HL,
    PyList.index_from_end H 1 = Ok HL /\
    has_shape HL (shape0 X_batch) (nth (L self0) (layer_sizes self0) 0).

(** A history whose validation lists exist. *)
Definition validated (h : history) : Prop :=
  exists vl va, val_loss h = Some vl /\ val_acc h = Some va.

(** An optimizer whose [update], in a state that satisfies [good] and
    on gradients of the parameters' shapes, returns parameters of the
    same shapes and a state that satisfies [good] again. *)
Definition optimizer_keeps_shapes (good : optimizer_obj -> Prop)
    (self0 : NeuralNetwork) : Prop :=
  forall (s : NeuralNetwork) (o : optimizer_obj) (dW dB : grads) (iteration : Z),
    good o -> well_shaped s -> same_architecture s self0 ->
    gradients_shaped s dW dB ->
    exists W' B' st',
      optimizer_update (opt_class o) (opt_state o) (W s) (B s) dW dB iteration
        = (Ok (W', B'), st') /\
      well_shaped (with_parameters W' B' s) /\
      good (mk_optimizer (opt_class o) st').

(** The number of positions [j] with [p[j] == v[j]]. *)
Definition matches (p v : list Z) : nat :=
  List.length
    (filter (fun j => Z.eqb (nth j p 0%Z) (nth j v 0%Z))
       (seq 0 (List.length v))).

(** The exact ceiling of the quotient [a / b], [b] not zero. *)
Definition ceil_div (a b : Z) : Z := (- ((- a) / b))%Z.

(** The second half of [SpecFloat]'s [binary_round_aux] for a positive
    float64: the rounded mantissa [m1] put back into 53 bits. *)
Definition round_tail (m1 e1 : Z) : spec_float :=
  let '(mrs'', e'') := shr_fexp 53 1024 m1 e1 loc_Exact in
  match shr_m mrs'' with
  | Z0 => S754_zero false
  | Zpos m => if Z.leb e'' (1024 - 53) then S754_finite false m e''
              else S754_infinity false
  | _ => S754_nan
  end.

(** *** The documented formulas of the backward pass

    The gradients as the specification states them, entry by entry;
    the code is compared with these. *)

(** The derivative of an activation kind at the pre-activation [a] and
    the activation [h]: [h (1 - h)] for sigmoid, 1 where [a > 0] and 0
    elsewhere for relu, [1 - h^2] for tanh, and 1 for identity and for
    softmax. *)
Definition spec_derivative (kind : string) (a h : float) : float :=
  if String.eqb (lower kind) "sigmoid" then (h * (1 - h))%float
  else if String.eqb (lower kind) "relu" then
    (if PrimFloat.ltb 0%float a then 1%float else 0%float)
  else if String.eqb (lower kind) "tanh" then (1 - h * h)%float
  else 1%float.

(** Entry [(i, j)] of [one_hot(y)] over [C] classes: 1 in the column of
    the class index, which counts from the end when negative. *)
Definition spec_one_hot_entry (C : nat) (v : list Z) (i j : nat) : float :=
  if (Z.of_nat j =? nth i v 0%Z mod Z.of_nat C)%Z then 1%float else 0%float.

(** The loss gradient at one entry, for the prediction [p], the one-hot
    label entry [t] and [m] samples: [-t / (p + epsilon)] for
    cross-entropy and [(p - t) / m] for the squared error. *)
Definition spec_loss_gradient (loss_type : string) (p t : float) (m : nat)
  : float :=
  if String.eqb (lower loss_type) "cross_entropy"
  then PrimFloat.div (PrimFloat.opp t) (PrimFloat.add p epsilon)
  else PrimFloat.div (PrimFloat.sub p t) (float_of_nat m).

(** The output-layer error: [H[L] - one_hot(y)] for cross-entropy on
    a softmax output, and otherwise the loss gradient times the
    derivative of the final activation at [(A[L], H[L])]. *)
Definition spec_output_error (loss_type kind : string) (HL AL : ndarray)
    (C : nat) (v : list Z) : ndarray :=
  tabulate (shape0 HL) (shape1 HL)
    (fun i j =>
       if String.eqb (lower loss_type) "cross_entropy"
          && String.eqb (lower kind) "softmax"
       then PrimFloat.sub (item HL i j) (spec_one_hot_entry C v i j)
       else PrimFloat.mul
              (spec_loss_gradient loss_type (item HL i j)
                 (spec_one_hot_entry C v i j) (List.length v))
              (spec_derivative kind (item AL i j) (item HL i j))).

(** [dA_k = (dA_next . W[k+1]) * derivative(A[k], H[k+1], kind_k)]:
    entry [(i, j)] is the inner product of row [i] of [dA_next] and
    column [j] of [W[k+1]], times the derivative at that entry. *)
Definition spec_hidden_error (dA_next Wnext Ak Hnext : ndarray) (kind : string)
  : ndarray :=
  tabulate (shape0 dA_next) (shape1 Wnext)
    (fun i j =>
       PrimFloat.mul (np_inner (row dA_next i) (col Wnext j))
         (spec_derivative kind (item Ak i j) (item Hnext i j))).

(** [dW[k] = dA_k^T . H[k] / N]: entry [(r, c)] is the inner product of
    column [r] of [dA_k] and column [c] of [H[k]], over [N]. *)
Definition spec_weight_gradient (dA Hk : ndarray) (N : nat) : ndarray :=
  tabulate (shape1 dA) (shape1 Hk)
    (fun r c =>
       PrimFloat.div (np_inner (col dA r) (col Hk c)) (float_of_nat N)).

(** [dB[k] = columnwise-sum(dA_k) / N], a single row. *)
Definition spec_bias_gradient (dA : ndarray) (N : nat) : ndarray :=
  tabulate 1 (shape1 dA)
    (fun _ c => PrimFloat.div (np_sum (col dA c)) (float_of_nat N)).

(** A cache [(H, A)] of the shapes a forward pass over [N] samples
    gives: [H[i]] is [(N, layer_sizes[i])] and [A[i]] is
    [(N, layer_sizes[i+1])]. *)
Definition cache_shaped (self : NeuralNetwork) (N : nat) (H A : list ndarray)
  : Prop :=
  (forall i, i <= L self ->
     exists Hi, nth_error H i = Some Hi /\
                has_shape Hi N (nth i (layer_sizes self) 0)) /\
  (forall i, i < L self ->
     exists Ai, nth_error A i = Some Ai /\
                has_shape Ai N (nth (i + 1) (layer_sizes self) 0)).

(** A method is read-only when it hands back the instance it was given,
    whether it returns or raises. *)
Definition readonly {A : Type} (m : M A) : Prop :=
  forall self : NeuralNetwork, exec m self = self.

(* ================================================================== *)
(** ** Basic facts: arrays and the method monad *)

Unset Implicit Arguments.

Lemma item_tabulate (n m : nat) (f : nat -> nat -> float) (i j : nat) :
  i < n -> j < m -> item (tabulate n m f) i j = f i j.
Proof.
  intros Hi Hj. unfold item, tabulate. simpl.
  rewrite (nth_indep _ [] (map (f 0) (seq 0 m))) by (rewrite length_map, length_seq; exact Hi).
  rewrite (map_nth (fun i => map (f i) (seq 0 m)) (seq 0 n) 0 i).
  rewrite seq_nth by exact Hi. simpl.
  rewrite (nth_indep _ 0%float (f i 0)) by (rewrite length_map, length_seq; exact Hj).
  rewrite (map_nth (f i) (seq 0 m) 0 j).
  rewrite seq_nth by exact Hj. reflexivity.
Qed.

Lemma run_bind {A C : Type} (m : M A) (k : A -> M C) (self : NeuralNetwork) :
  run (bind m k) self =
  match m self with
  | (Ok a, self') => run (k a) self'
  | (Err e, _) => Err e
  end.
Proof. unfold run, bind. destruct (m self) as [[a | e] self']; reflexivity. Qed.

Lemma readonly_ret {A : Type} (a : A) : readonly (ret a).
Proof. intro self. reflexivity. Qed.

Lemma readonly_raise {A : Type} (e : exception) : readonly (@raise A e).
Proof. intro self. reflexivity. Qed.

Lemma readonly_lift {A : Type} (r : result A) : readonly (lift r).
Proof. intro self. reflexivity. Qed.

Lemma readonly_gets {A : Type} (field : NeuralNetwork -> A) : readonly (gets field).
Proof. intro self. reflexivity. Qed.

Lemma readonly_bind {A C : Type} (m : M A) (k : A -> M C) :
  readonly m -> (forall a, readonly (k a)) -> readonly (bind m k).
Proof.
  intros Hm Hk self. unfold exec, bind.
  specialize (Hm self). unfold exec in Hm.
  destruct (m self) as [[a | e] self']; simpl in Hm; subst self'.
  - apply Hk.
  - reflexivity.
Qed.

Lemma readonly_for_each {I S : Type} (xs : list I) (body : I -> S -> M S) :
  (forall x s, readonly (body x s)) -> forall s, readonly (for_each xs body s).
Proof.
  intros Hbody. induction xs as [| x xs IH]; intro s; simpl.
  - apply readonly_ret.
  - apply readonly_bind; [apply Hbody | exact IH].
Qed.

Lemma readonly_py_assert (b : bool) (msg : string) : readonly (py_assert b msg).
Proof. destruct b; [apply readonly_ret | apply readonly_raise]. Qed.

(** A read-only method run to its result. *)
Lemma readonly_state {A : Type} (m : M A) (self : NeuralNetwork) :
  readonly m -> m self = (run m self, self).
Proof.
  intros Hm. specialize (Hm self). unfold exec, run in *.
  destruct (m self) as [r self']. simpl in *. subst. reflexivity.
Qed.

Create HintDb readonly.
#[local] Hint Resolve readonly_ret readonly_raise readonly_lift readonly_gets
  readonly_py_assert : readonly.

Ltac readonly_step :=
  match goal with
  | |- readonly (bind _ _) => apply readonly_bind; [| intros ?]
  | |- readonly (for_each _ _ _) => apply readonly_for_each; intros ? ?
  | |- readonly (match ?x with _ => _ end) => destruct x
  | |- readonly (if ?b then _ else _) => destruct b
  | |- readonly (let '(_, _) := ?x in _) => destruct x
  | |- readonly _ => solve [auto with readonly]
  end.

Ltac readonly_auto := repeat readonly_step.

Lemma readonly_forward_layer (i : nat) (HA : list ndarray * list ndarray) :
  readonly (forward_layer i HA).
Proof. unfold forward_layer. readonly_auto. Qed.

Lemma readonly_forward_propagation (X : ndarray) : readonly (forward_propagation X).
Proof.
  unfold forward_propagation. apply readonly_bind; [auto with readonly | intro n].
  apply readonly_for_each. intros; apply readonly_forward_layer.
Qed.

Lemma readonly_one_hot (y : labels) : readonly (one_hot y).
Proof. unfold one_hot. readonly_auto. Qed.

Lemma readonly_expand_labels (y : labels) : readonly (expand_labels y).
Proof. destruct y; simpl; [apply readonly_one_hot | apply readonly_ret]. Qed.

Lemma readonly_predict (X : ndarray) : readonly (predict X).
Proof.
  unfold predict. apply readonly_bind; [apply readonly_forward_propagation |].
  intros [H A]. apply readonly_lift.
Qed.

Lemma readonly_compute_loss (H_final : ndarray) (y : labels) (loss_type : string) :
  readonly (compute_loss H_final y loss_type).
Proof.
  unfold compute_loss.
  apply readonly_bind; [apply readonly_expand_labels | intro y'].
  readonly_auto.
Qed.

Lemma readonly_compute_accuracy (X : ndarray) (y : labels) :
  readonly (compute_accuracy X y).
Proof.
  unfold compute_accuracy.
  apply readonly_bind; [apply readonly_predict | intro p].
  readonly_auto.
Qed.

#[local] Hint Resolve readonly_forward_propagation readonly_one_hot
  readonly_expand_labels readonly_predict readonly_compute_loss
  readonly_compute_accuracy : readonly.

(** C10. Forward propagation, prediction, loss and accuracy hand back the
    network exactly as they received it (so its weights [W], biases [B]
    and attached optimizer are unchanged), whether they return a value or
    raise. *)
Theorem inference_and_metrics_do_not_mutate
    (self : NeuralNetwork) (X H_final : ndarray) (y : labels) (loss_type : string) :
  exec (forward_propagation X) self = self /\
  exec (predict X) self = self /\
  exec (compute_loss H_final y loss_type) self = self /\
  exec (compute_accuracy X y) self = self.
Proof.
  repeat split.
  - apply readonly_forward_propagation.
  - apply readonly_predict.
  - apply readonly_compute_loss.
  - apply readonly_compute_accuracy.
Qed.

(* ================================================================== *)
(** ** One-hot encoding *)

Lemma row_tabulate (n m : nat) (f : nat -> nat -> float) (i : nat) :
  i < n -> row (tabulate n m f) i = map (f i) (seq 0 m).
Proof.
  intros Hi. unfold row. simpl.
  apply map_ext_in. intros j Hj. apply in_seq in Hj.
  apply item_tabulate; lia.
Qed.

Lemma map_nth_seq {A : Type} (l : list A) (d : A) :
  map (fun i => nth i l d) (seq 0 (List.length l)) = l.
Proof.
  apply (nth_ext _ _ d d).
  - rewrite length_map, length_seq. reflexivity.
  - intros n Hn. rewrite length_map, length_seq in Hn.
    rewrite (nth_indep _ d (nth 0 l d)) by (rewrite length_map, length_seq; exact Hn).
    rewrite (map_nth (fun i => nth i l d) (seq 0 (List.length l)) 0 n).
    rewrite seq_nth by exact Hn. reflexivity.
Qed.

(** Once the running maximum is 1, entries that are 0 or 1 do not move it. *)
Lemma argmax_from_after_one (l : list float) (best_i i : nat) :
  Forall (fun x => x = 0%float \/ x = 1%float) l ->
  argmax_from best_i 1%float i l = best_i.
Proof.
  revert i. induction l as [| x l IH]; intros i Hl; simpl.
  - reflexivity.
  - inversion Hl as [| ? ? Hx Hl']; subst.
    destruct Hx as [-> | ->]; simpl; apply IH; exact Hl'.
Qed.

(** While the running maximum is 0, the first 1 is found at its column. *)
Lemma argmax_from_before_one (k n s best_i : nat) :
  s <= k < s + n ->
  argmax_from best_i 0%float s
    (map (fun j => if j =? k then 1%float else 0%float) (seq s n)) = k.
Proof.
  revert s best_i. induction n as [| n IH]; intros s best_i Hk.
  - lia.
  - simpl. destruct (Nat.eqb_spec s k) as [-> | Hne]; simpl.
    + apply argmax_from_after_one.
      apply Forall_forall. intros x Hx. apply in_map_iff in Hx.
      destruct Hx as [j [<- _]]. destruct (j =? k); auto.
    + apply IH. lia.
Qed.

Lemma argmax_one_hot_row (k C : nat) :
  k < C ->
  let r := map (fun j => if j =? k then 1%float else 0%float) (seq 0 C) in
  argmax_from 0 (nth 0 r 0%float) 1 (tl r) = k.
Proof.
  intros Hk. destruct C as [| C]; [lia |]. simpl.
  destruct k as [| k]; simpl.
  - apply argmax_from_after_one.
    apply Forall_forall. intros x Hx. apply in_map_iff in Hx.
    destruct Hx as [j [<- _]]. destruct (j =? 0); auto.
  - apply (@argmax_from_before_one (S k) C 1 0). lia.
Qed.

Lemma wrap_index_nonneg (C : nat) (z : Z) :
  (0 <= z)%Z -> wrap_index C z = Z.to_nat z.
Proof.
  intros Hz. unfold wrap_index.
  destruct (Z.ltb_spec z 0); [lia | reflexivity].
Qed.

(** C8. For labels that are class indices in range, [one_hot] returns an
    array with a single 1 in each row, at the column of the label, and
    taking the row-wise argmax gives the labels back. *)
Theorem argmax_one_hot_roundtrip (self : NeuralNetwork) (y : list Z) (C : nat) :
  PyList.index_from_end (layer_sizes self) 1 = Ok C ->
  0 < C ->
  Forall (fun z => (0 <= z < Z.of_nat C)%Z) y ->
  exists m : ndarray,
    run (one_hot (Indices y)) self = Ok m /\
    shape0 m = List.length y /\ shape1 m = C /\
    (forall i j, i < List.length y -> j < C ->
       item m i j = if (Z.of_nat j =? nth i y 0%Z)%Z then 1%float else 0%float) /\
    argmax_axis1 m = Ok y.
Proof.
  intros Hwidth HC Hy.
  assert (Hin : forall i, i < List.length y -> (0 <= nth i y 0 < Z.of_nat C)%Z).
  { intros i Hi. rewrite Forall_forall in Hy. apply Hy. apply nth_In. exact Hi. }
  assert (Hrange : forallb (fun z => (- Z.of_nat C <=? z)%Z && (z <? Z.of_nat C)%Z) y = true).
  { apply forallb_forall. intros z Hz. rewrite Forall_forall in Hy.
    specialize (Hy z Hz). apply andb_true_iff. split.
    - apply Z.leb_le. lia.
    - apply Z.ltb_lt. lia. }
  eexists. split; [| split; [| split; [| split]]].
  - unfold run, one_hot, bind, gets, lift. simpl. rewrite Hwidth. simpl.
    rewrite Hrange. reflexivity.
  - reflexivity.
  - reflexivity.
  - intros i j Hi Hj. rewrite item_tabulate by assumption.
    specialize (Hin i Hi). rewrite wrap_index_nonneg by lia.
    destruct (Nat.eqb_spec j (Z.to_nat (nth i y 0%Z))) as [E | E];
      destruct (Z.eqb_spec (Z.of_nat j) (nth i y 0%Z)) as [E' | E'];
      try reflexivity; lia.
  - unfold argmax_axis1. simpl shape1. simpl shape0.
    destruct (Nat.eqb_spec C 0) as [E | _]; [lia |].
    f_equal. rewrite <- (map_nth_seq y 0%Z) at 2.
    apply map_ext_in. intros i Hi. apply in_seq in Hi.
    specialize (Hin i ltac:(lia)).
    rewrite row_tabulate by lia.
    unfold item at 1.
    replace (nth 0 (nth i (data (tabulate (List.length y) C _)) []) 0%float)
      with (nth 0 (map (fun j => if j =? wrap_index C (nth i y 0%Z)
                                 then 1%float else 0%float) (seq 0 C)) 0%float).
    + rewrite (argmax_one_hot_row (wrap_index C (nth i y 0%Z)) C).
      * rewrite wrap_index_nonneg by lia. lia.
      * rewrite wrap_index_nonneg by lia. lia.
    + destruct C as [| C']; [lia |]. simpl nth at 1.
      change (nth 0 (nth i (data (tabulate (List.length y) (S C')
                 (fun i0 j => if j =? wrap_index (S C') (nth i0 y 0%Z)
                              then 1%float else 0%float))) []) 0%float)
        with (item (tabulate (List.length y) (S C')
                 (fun i0 j => if j =? wrap_index (S C') (nth i0 y 0%Z)
                              then 1%float else 0%float)) i 0).
      rewrite item_tabulate by lia. reflexivity.
Qed.

(* ================================================================== *)
(** ** The epoch shuffle *)

Lemma nth_map_in_range {A C : Type} (f : A -> C) (l : list A) (i : nat) (d : A) (d' : C) :
  i < List.length l -> nth i (map f l) d' = f (nth i l d).
Proof.
  intros Hi. rewrite (nth_indep _ d' (f d)) by (rewrite length_map; exact Hi).
  apply map_nth.
Qed.

Lemma permutation_in_range (perm : list nat) (n : nat) :
  Permutation perm (seq 0 n) -> forallb (fun i => i <? n) perm = true.
Proof.
  intros HP. apply forallb_forall. intros i Hi.
  apply (Permutation_in _ HP) in Hi. apply in_seq in Hi.
  apply Nat.ltb_lt. lia.
Qed.

Lemma row_take_rows (X X' : ndarray) (perm : list nat) (i : nat) :
  take_rows X perm = Ok X' -> i < List.length perm ->
  row X' i = row X (nth i perm 0).
Proof.
  unfold take_rows. destruct (forallb _ perm); [| discriminate].
  intros E Hi. injection E as <-. rewrite row_tabulate by exact Hi.
  reflexivity.
Qed.

Lemma label_at_take_labels (y y' : labels) (perm : list nat) (i : nat) :
  take_labels y perm = Ok y' -> i < List.length perm ->
  label_at y' i = label_at y (nth i perm 0).
Proof.
  destruct y as [v | m]; simpl.
  - destruct (forallb _ perm); [| discriminate].
    intros E Hi. injection E as <-. simpl. f_equal.
    apply (nth_map_in_range (fun i => nth i v 0%Z)). exact Hi.
  - destruct (take_rows m perm) as [m' |] eqn:E; simpl; [| discriminate].
    intros E' Hi. injection E' as <-. simpl. f_equal.
    eapply row_take_rows; eassumption.
Qed.

(** C9. The epoch shuffle indexes inputs and labels with one and the same
    permutation: sample [i] of the result is sample [permutation[i]] of
    the data, label included, and the (input, label) pairs after the
    shuffle are a permutation of the pairs before it. *)
Theorem shuffle_keeps_pairs (X : ndarray) (y : labels) (permutation : list nat) :
  Permutation permutation (seq 0 (shape0 X)) ->
  labels_shape0 y = shape0 X ->
  exists (X' : ndarray) (y' : labels),
    shuffle permutation X y = Ok (X', y') /\
    shape0 X' = shape0 X /\
    (forall i, i < shape0 X ->
       row X' i = row X (nth i permutation 0) /\
       label_at y' i = label_at y (nth i permutation 0)) /\
    Permutation (samples X' y') (samples X y).
Proof.
  intros HP Hy.
  pose proof (permutation_in_range _ _ HP) as Hrange.
  pose proof (Permutation_length HP) as Hlen. rewrite length_seq in Hlen.
  assert (EX : exists X', take_rows X permutation = Ok X').
  { unfold take_rows. rewrite Hrange. eexists. reflexivity. }
  assert (Ey : exists y', take_labels y permutation = Ok y').
  { destruct y as [v | m]; simpl in *.
    - rewrite Hy, Hrange. eexists. reflexivity.
    - unfold take_rows. rewrite Hy, Hrange. simpl. eexists. reflexivity. }
  destruct EX as [X' EX]. destruct Ey as [y' Ey].
  assert (HX' : shape0 X' = shape0 X).
  { unfold take_rows in EX. rewrite Hrange in EX. injection EX as <-. exact Hlen. }
  assert (Hpoint : forall i, i < shape0 X ->
            row X' i = row X (nth i permutation 0) /\
            label_at y' i = label_at y (nth i permutation 0)).
  { intros i Hi. split.
    - eapply row_take_rows; [exact EX | lia].
    - eapply label_at_take_labels; [exact Ey | lia]. }
  exists X', y'. split; [| split; [exact HX' | split; [exact Hpoint |]]].
  - unfold shuffle. rewrite EX, Ey. reflexivity.
  - unfold samples. rewrite HX'.
    rewrite (map_ext_in _ (fun i => (fun p => (row X p, label_at y p)) (nth i permutation 0))).
    + rewrite <- (map_map (fun i => nth i permutation 0) (fun p => (row X p, label_at y p))).
      rewrite <- Hlen. rewrite map_nth_seq. rewrite Hlen.
      apply Permutation_map. exact HP.
    + intros i Hi. apply in_seq in Hi.
      destruct (Hpoint i ltac:(lia)) as [-> ->]. reflexivity.
Qed.

(* ================================================================== *)
(** ** Backpropagation *)

Lemma run_bind_readonly {A C : Type} (m : M A) (k : A -> M C) (self : NeuralNetwork) :
  readonly m ->
  run (bind m k) self = rbind (run m self) (fun a => run (k a) self).
Proof.
  intros Hm. unfold run at 1. unfold bind.
  rewrite (readonly_state m self Hm).
  destruct (run m self); reflexivity.
Qed.

Lemma readonly_loss_derivative (y_pred : ndarray) (y : labels) (loss_type : string) :
  readonly (_loss_derivative y_pred y loss_type).
Proof.
  unfold _loss_derivative.
  destruct (String.eqb (lower loss_type) "cross_entropy"); [apply readonly_lift |].
  destruct (_ || _); [| apply readonly_raise].
  apply readonly_bind; [apply readonly_expand_labels | intro y'].
  readonly_auto.
Qed.

Lemma readonly_last_activation : readonly last_activation.
Proof. unfold last_activation. readonly_auto. Qed.

#[local] Hint Resolve readonly_loss_derivative readonly_last_activation : readonly.

Lemma readonly_output_error (y : labels) (H A : list ndarray) (loss_type : string) :
  readonly (output_error y H A loss_type).
Proof. unfold output_error. readonly_auto. Qed.

Lemma readonly_hidden_layer (H A : list ndarray) (N k : nat)
    (st : ndarray * grads * grads) :
  readonly (hidden_layer H A N k st).
Proof. unfold hidden_layer. destruct st as [[dA dW] dB]. readonly_auto. Qed.

Lemma readonly_output_layer (H : list ndarray) (N : nat) (dA : ndarray)
    (dW dB : grads) :
  readonly (output_layer H N dA dW dB).
Proof. unfold output_layer. readonly_auto. Qed.

Lemma readonly_layer_gradients (X : ndarray) (y : labels) (H A : list ndarray)
    (loss_type : string) :
  readonly (layer_gradients X y H A loss_type).
Proof.
  unfold layer_gradients.
  repeat (apply readonly_bind; [auto using readonly_output_error,
            readonly_output_layer with readonly | intros ?]).
  destruct a3 as [dW dB].
  apply readonly_bind.
  - apply readonly_for_each. intros. apply readonly_hidden_layer.
  - intros [[dA' dW'] dB']. apply readonly_ret.
Qed.

Lemma length_replace {A : Type} (l : list A) (i : nat) (v : A) :
  List.length (PyList.replace l i v) = List.length l.
Proof.
  revert i. induction l as [| h t IH]; intros [| i]; simpl; auto.
Qed.

Lemma nth_error_replace_eq {A : Type} (l : list A) (i : nat) (v : A) :
  i < List.length l -> nth_error (PyList.replace l i v) i = Some v.
Proof.
  revert i. induction l as [| h t IH]; intros [| i] Hi; simpl in *; try lia.
  - reflexivity.
  - apply IH. lia.
Qed.

Lemma nth_error_replace_neq {A : Type} (l : list A) (i j : nat) (v : A) :
  i <> j -> nth_error (PyList.replace l i v) j = nth_error l j.
Proof.
  revert i j. induction l as [| h t IH]; intros [| i] [| j] Hij; simpl;
    try reflexivity; try lia.
  apply IH. lia.
Qed.

Lemma setitem_ok {A : Type} (l l' : list A) (i : nat) (v : A) :
  PyList.setitem l i v = Ok l' ->
  i < List.length l /\ l' = PyList.replace l i v.
Proof.
  unfold PyList.setitem. destruct (Nat.ltb_spec i (List.length l)); [| discriminate].
  intros E. injection E as <-. auto.
Qed.

Lemma index_ok {A : Type} (l : list A) (i : nat) (a : A) :
  PyList.index l i = Ok a <-> nth_error l i = Some a.
Proof.
  unfold PyList.index. destruct (nth_error l i); split; intros E;
    try discriminate; injection E as ->; reflexivity.
Qed.

Lemma for_each_cons {I S : Type} (x : I) (xs : list I) (body : I -> S -> M S) (s : S) :
  for_each (x :: xs) body s = bind (body x s) (fun s' => for_each xs body s').
Proof. reflexivity. Qed.

(** One pass of the hidden-layer loop, as a computation on results. *)
Lemma run_hidden_layer (self : NeuralNetwork) (H A : list ndarray) (N k : nat)
    (dA : ndarray) (dW dB : grads) :
  run (hidden_layer H A N k (dA, dW, dB)) self =
  (dA' <~ hidden_error self H A k dA;
   Hk <~ PyList.index H k;
   g <~ weight_gradient dA' Hk N;
   dW' <~ PyList.setitem dW k (Some g);
   dB' <~ PyList.setitem dB k (Some (bias_gradient dA' N));
   Ok (dA', dW', dB'))%result.
Proof.
  unfold hidden_layer, hidden_error, run, bind, gets, lift, ret, rbind. simpl.
  repeat match goal with
         | |- context [match ?r with Ok _ => _ | Err _ => _ end] =>
             destruct r; simpl; try reflexivity
         end.
Qed.

(** The hidden-layer loop from layer [m - 1] down to layer 0, started with
    the error [dA] of layer [m]: [ds] collects the errors of layers
    [0 .. m - 1]. *)
Lemma hidden_loop_spec (self : NeuralNetwork) (H A : list ndarray) (N : nat) :
  forall (m : nat) (dA : ndarray) (dW dB : grads) (dA' : ndarray) (dW' dB' : grads),
    run (for_each (rev (seq 0 m)) (hidden_layer H A N) (dA, dW, dB)) self
      = Ok (dA', dW', dB') ->
    exists ds : list ndarray,
      List.length ds = m /\
      (forall k, k < m ->
         exists dAk,
           nth_error ds k = Some dAk /\
           hidden_error self H A k (nth (k + 1) (ds ++ [dA]) dA) = Ok dAk /\
           gradient_entries H N k dAk dW' dB') /\
      (forall k, m <= k ->
         nth_error dW' k = nth_error dW k /\ nth_error dB' k = nth_error dB k).
Proof.
  induction m as [| m IH]; intros dA dW dB dA' dW' dB' Hrun.
  - simpl in Hrun. injection Hrun as <- <- <-.
    exists []. split; [reflexivity | split]; [intros k Hk; lia | auto].
  - rewrite seq_S, rev_app_distr in Hrun.
    change (rev [0 + m] ++ rev (seq 0 m)) with (m :: rev (seq 0 m)) in Hrun.
    rewrite for_each_cons in Hrun.
    rewrite run_bind_readonly in Hrun by apply readonly_hidden_layer.
    rewrite run_hidden_layer in Hrun.
    destruct (hidden_error self H A m dA) as [dAm |] eqn:Eerr; simpl in Hrun; [| discriminate].
    destruct (PyList.index H m) as [Hm |] eqn:EH; simpl in Hrun; [| discriminate].
    destruct (weight_gradient dAm Hm N) as [g |] eqn:Eg; simpl in Hrun; [| discriminate].
    destruct (PyList.setitem dW m (Some g)) as [dW1 |] eqn:EW; simpl in Hrun; [| discriminate].
    destruct (PyList.setitem dB m (Some (bias_gradient dAm N))) as [dB1 |] eqn:EB;
      simpl in Hrun; [| discriminate].
    apply setitem_ok in EW. destruct EW as [HlW ->].
    apply setitem_ok in EB. destruct EB as [HlB ->].
    apply index_ok in EH.
    destruct (IH _ _ _ _ _ _ Hrun) as [ds [Hlen [Hbelow Habove]]].
    exists (ds ++ [dAm]). split; [| split].
    + rewrite length_app. simpl. lia.
    + intros k Hk. destruct (Nat.eq_dec k m) as [-> | Hne].
      * exists dAm. split; [| split].
        -- rewrite nth_error_app2 by lia. rewrite Hlen, Nat.sub_diag. reflexivity.
        -- rewrite app_nth2 by (rewrite length_app; simpl; lia).
           rewrite length_app. simpl.
           replace (m + 1 - (List.length ds + 1)) with 0 by lia.
           exact Eerr.
        -- destruct (Habove m (le_n m)) as [EW' EB'].
           exists Hm, g. repeat split; try assumption.
           ++ rewrite EW'. apply nth_error_replace_eq. exact HlW.
           ++ rewrite EB'. apply nth_error_replace_eq. exact HlB.
      * destruct (Hbelow k ltac:(lia)) as [dAk [Ek [Eh Hg]]].
        exists dAk. split; [| split].
        -- rewrite nth_error_app1 by lia. exact Ek.
        -- rewrite <- Eh. f_equal.
           rewrite (app_nth1 (ds ++ [dAm])) by (rewrite length_app; simpl; lia).
           apply nth_indep. rewrite length_app. simpl. lia.
        -- exact Hg.
    + intros k Hk. destruct (Habove k ltac:(lia)) as [EW' EB'].
      rewrite EW', EB'.
      split; apply nth_error_replace_neq; lia.
Qed.

Lemma run_output_layer (self : NeuralNetwork) (H : list ndarray) (N : nat)
    (dA : ndarray) (dW dB : grads) :
  run (output_layer H N dA dW dB) self =
  (Hprev <~ PyList.index_from_end H 2;
   g <~ weight_gradient dA Hprev N;
   dW' <~ PyList.setitem_from_end dW 1 (Some g);
   dB' <~ PyList.setitem_from_end dB 1 (Some (bias_gradient dA N));
   Ok (dW', dB'))%result.
Proof.
  unfold output_layer, run, bind, gets, lift, ret, rbind. simpl.
  repeat match goal with
         | |- context [match ?r with Ok _ => _ | Err _ => _ end] =>
             destruct r; simpl; try reflexivity
         end.
Qed.

Lemma index_from_end_ok {A : Type} (l : list A) (k : nat) (a : A) :
  PyList.index_from_end l k = Ok a ->
  1 <= k <= List.length l /\ nth_error l (List.length l - k) = Some a.
Proof.
  unfold PyList.index_from_end.
  destruct (Nat.leb_spec k (List.length l)); cbn [andb]; [| discriminate].
  destruct (Nat.leb_spec 1 k); [| discriminate].
  intros E. apply index_ok in E. split; [lia | exact E].
Qed.

Lemma setitem_from_end_ok {A : Type} (l l' : list A) (k : nat) (v : A) :
  PyList.setitem_from_end l k v = Ok l' ->
  1 <= k <= List.length l /\ l' = PyList.replace l (List.length l - k) v.
Proof.
  unfold PyList.setitem_from_end.
  destruct (Nat.leb_spec k (List.length l)); cbn [andb]; [| discriminate].
  destruct (Nat.leb_spec 1 k); [| discriminate].
  intros E. apply setitem_ok in E. split; [lia | apply E].
Qed.

(** What a successful gradient pass went through: the assertions held,
    the network has a layer, and the hidden-layer loop ran from the
    output-layer error and gradients. *)
Lemma layer_gradients_inv (self : NeuralNetwork) (X : ndarray) (y : labels)
    (H A : list ndarray) (loss_type : string) (dW dB : grads) :
  run (layer_gradients X y H A loss_type) self = Ok (dW, dB) ->
  exists (dAL Hprev g dA' : ndarray),
    1 <= L self /\
    List.length H = L self + 1 /\ List.length A = L self /\
    shape0 X = size y /\
    run (output_error y H A loss_type) self = Ok dAL /\
    nth_error H (L self - 1) = Some Hprev /\
    weight_gradient dAL Hprev (shape0 X) = Ok g /\
    run (for_each (rev (seq 0 (L self - 1))) (hidden_layer H A (shape0 X))
           (dAL,
            PyList.replace (repeat None (L self)) (L self - 1) (Some g),
            PyList.replace (repeat None (L self)) (L self - 1)
              (Some (bias_gradient dAL (shape0 X))))) self
      = Ok (dA', dW, dB).
Proof.
  intros Hrun. unfold layer_gradients in Hrun.
  rewrite run_bind_readonly in Hrun by apply readonly_gets.
  change (run (gets L) self) with (Ok (L self)) in Hrun. simpl rbind in Hrun.
  set (n := L self) in *.
  rewrite run_bind_readonly in Hrun by apply readonly_py_assert.
  destruct ((List.length H =? n + 1) && (List.length A =? n)) eqn:Hlens;
    [| discriminate].
  simpl rbind in Hrun.
  rewrite run_bind_readonly in Hrun by apply readonly_py_assert.
  destruct ((shape0 X =? size y) && (n =? List.length A)
            && (n + 1 =? List.length H)) eqn:Hsizes; [| discriminate].
  simpl rbind in Hrun.
  apply andb_true_iff in Hsizes. destruct Hsizes as [Hsizes _].
  apply andb_true_iff in Hsizes. destruct Hsizes as [HN _].
  apply Nat.eqb_eq in HN.
  apply andb_true_iff in Hlens. destruct Hlens as [HlH HlA].
  apply Nat.eqb_eq in HlH. apply Nat.eqb_eq in HlA.
  rewrite run_bind_readonly in Hrun by apply readonly_output_error.
  destruct (run (output_error y H A loss_type) self) as [dAL |] eqn:Eout;
    [| discriminate].
  simpl rbind in Hrun.
  rewrite run_bind_readonly in Hrun by apply readonly_output_layer.
  rewrite run_output_layer in Hrun.
  destruct (PyList.index_from_end H 2) as [Hprev |] eqn:EHp; simpl in Hrun; [| discriminate].
  destruct (weight_gradient dAL Hprev (shape0 X)) as [g |] eqn:Eg; simpl in Hrun; [| discriminate].
  destruct (PyList.setitem_from_end (repeat None n) 1 (Some g)) as [dW1 |] eqn:EW;
    simpl in Hrun; [| discriminate].
  destruct (PyList.setitem_from_end (repeat None n) 1 (Some (bias_gradient dAL (shape0 X))))
    as [dB1 |] eqn:EB; simpl in Hrun; [| discriminate].
  apply index_from_end_ok in EHp. destruct EHp as [HH2 EHp].
  apply setitem_from_end_ok in EW. destruct EW as [Hn ->].
  apply setitem_from_end_ok in EB. destruct EB as [_ ->].
  rewrite repeat_length in *. rewrite HlH in EHp.
  replace (n + 1 - 2) with (n - 1) in EHp by lia.
  rewrite run_bind_readonly in Hrun
    by (apply readonly_for_each; intros; apply readonly_hidden_layer).
  match type of Hrun with
  | rbind ?r _ = _ => destruct r as [[[dA' dW'] dB'] |] eqn:Eloop; [| discriminate]
  end.
  simpl in Hrun. injection Hrun as <- <-.
  exists dAL, Hprev, g, dA'. repeat split; try assumption. lia.
Qed.

(** Every layer of the returned weight gradients is filled. *)
Lemma layer_gradients_filled (self : NeuralNetwork) (X : ndarray) (y : labels)
    (H A : list ndarray) (loss_type : string) (dW dB : grads) :
  run (layer_gradients X y H A loss_type) self = Ok (dW, dB) ->
  forall k, k < L self -> exists g, nth_error dW k = Some (Some g).
Proof.
  intros Hrun k Hk.
  destruct (layer_gradients_inv _ _ _ _ _ _ _ _ Hrun)
    as [dAL [Hprev [g [dA' [Hn [_ [_ [_ [_ [_ [_ Eloop]]]]]]]]]]].
  destruct (hidden_loop_spec _ _ _ _ _ _ _ _ _ _ _ Eloop) as [ds [_ [Hbelow Habove]]].
  destruct (Nat.eq_dec k (L self - 1)) as [-> | Hne].
  - exists g. destruct (Habove (L self - 1) (le_n _)) as [-> _].
    apply nth_error_replace_eq. rewrite repeat_length. lia.
  - destruct (Hbelow k ltac:(lia)) as [dAk [_ [_ [Hk' [g' [_ [_ [Eg _]]]]]]]].
    exists g'. exact Eg.
Qed.

(** The hidden-layer loop also preserves the lengths of the lists. *)
Lemma hidden_loop_length (self : NeuralNetwork) (H A : list ndarray) (N : nat) :
  forall (m : nat) (dA : ndarray) (dW dB : grads) (dA' : ndarray) (dW' dB' : grads),
    run (for_each (rev (seq 0 m)) (hidden_layer H A N) (dA, dW, dB)) self
      = Ok (dA', dW', dB') ->
    List.length dW' = List.length dW /\ List.length dB' = List.length dB.
Proof.
  induction m as [| m IH]; intros dA dW dB dA' dW' dB' Hrun.
  - simpl in Hrun. injection Hrun as <- <- <-. auto.
  - rewrite seq_S, rev_app_distr in Hrun.
    change (rev [0 + m] ++ rev (seq 0 m)) with (m :: rev (seq 0 m)) in Hrun.
    rewrite for_each_cons in Hrun.
    rewrite run_bind_readonly in Hrun by apply readonly_hidden_layer.
    rewrite run_hidden_layer in Hrun.
    destruct (hidden_error self H A m dA) as [dAm |]; simpl in Hrun; [| discriminate].
    destruct (PyList.index H m) as [Hm |]; simpl in Hrun; [| discriminate].
    destruct (weight_gradient dAm Hm N) as [g |]; simpl in Hrun; [| discriminate].
    destruct (PyList.setitem dW m (Some g)) as [dW1 |] eqn:EW; simpl in Hrun; [| discriminate].
    destruct (PyList.setitem dB m (Some (bias_gradient dAm N))) as [dB1 |] eqn:EB;
      simpl in Hrun; [| discriminate].
    apply setitem_ok in EW. destruct EW as [_ ->].
    apply setitem_ok in EB. destruct EB as [_ ->].
    destruct (IH _ _ _ _ _ _ Hrun) as [E1 E2].
    rewrite E1, E2, !length_replace. auto.
Qed.

(** Conversely, the hidden-layer loop runs to its end when the errors
    [ds] of layers [0 .. m - 1] and their weight gradients are defined. *)
Lemma hidden_loop_runs (self : NeuralNetwork) (H A : list ndarray) (N : nat) :
  forall (m : nat) (ds : list ndarray) (dA : ndarray) (dW dB : grads),
    List.length ds = m ->
    m <= List.length dW -> m <= List.length dB ->
    (forall k, k < m ->
       exists dAk Hk g,
         nth_error ds k = Some dAk /\
         hidden_error self H A k (nth (k + 1) (ds ++ [dA]) dA) = Ok dAk /\
         nth_error H k = Some Hk /\
         weight_gradient dAk Hk N = Ok g) ->
    exists (dA' : ndarray) (dW' dB' : grads),
      run (for_each (rev (seq 0 m)) (hidden_layer H A N) (dA, dW, dB)) self
        = Ok (dA', dW', dB').
Proof.
  induction m as [| m IH]; intros ds dA dW dB Hlen HlW HlB Hsteps.
  - exists dA, dW, dB. reflexivity.
  - assert (Hne : ds <> []) by (destruct ds; simpl in Hlen; [lia | discriminate]).
    destruct (exists_last Hne) as [ds0 [dAm ->]].
    rewrite length_app in Hlen. simpl in Hlen.
    destruct (Hsteps m ltac:(lia)) as [dAk [Hm [g [Ek [Eerr [EH Eg]]]]]].
    rewrite nth_error_app2 in Ek by lia.
    replace (m - List.length ds0) with 0 in Ek by lia.
    simpl in Ek. injection Ek as <-.
    rewrite app_nth2 in Eerr by (rewrite length_app; simpl; lia).
    rewrite length_app in Eerr. simpl in Eerr.
    replace (m + 1 - (List.length ds0 + 1)) with 0 in Eerr by lia.
    simpl in Eerr.
    destruct (IH ds0 dAm (PyList.replace dW m (Some g))
                (PyList.replace dB m (Some (bias_gradient dAm N))))
      as [dA' [dW' [dB' Hrun]]].
    + lia.
    + rewrite length_replace. lia.
    + rewrite length_replace. lia.
    + intros k Hk.
      destruct (Hsteps k ltac:(lia)) as [dAk [Hk' [g' [Ek [Eerr' [EH' Eg']]]]]].
      exists dAk, Hk', g'. repeat split; try assumption.
      * rewrite nth_error_app1 in Ek by lia. exact Ek.
      * rewrite <- Eerr'. f_equal.
        rewrite (app_nth1 (ds0 ++ [dAm])) by (rewrite length_app; simpl; lia).
        apply nth_indep. rewrite length_app. simpl. lia.
    + exists dA', dW', dB'.
      rewrite seq_S, rev_app_distr.
      change (rev [0 + m] ++ rev (seq 0 m)) with (m :: rev (seq 0 m)).
      rewrite for_each_cons.
      rewrite run_bind_readonly by apply readonly_hidden_layer.
      rewrite run_hidden_layer.
      apply index_ok in EH. rewrite Eerr. simpl. rewrite EH. simpl.
      rewrite Eg. simpl. unfold PyList.setitem.
      destruct (Nat.ltb_spec m (List.length dW)); [| lia].
      destruct (Nat.ltb_spec m (List.length dB)); [| lia].
      simpl. exact Hrun.
Qed.

(** The hidden errors are determined by the error they start from. *)
Lemma hidden_chain_unique (self : NeuralNetwork) (H A : list ndarray) :
  forall (m : nat) (ds ds' : list ndarray) (dA : ndarray),
    List.length ds = m -> List.length ds' = m ->
    (forall k, k < m ->
       exists dAk, nth_error ds k = Some dAk /\
         hidden_error self H A k (nth (k + 1) (ds ++ [dA]) dA) = Ok dAk) ->
    (forall k, k < m ->
       exists dAk, nth_error ds' k = Some dAk /\
         hidden_error self H A k (nth (k + 1) (ds' ++ [dA]) dA) = Ok dAk) ->
    ds = ds'.
Proof.
  intros m ds ds' dA Hlen Hlen' Hc Hc'.
  assert (Hnth : forall j k, k + j = m -> nth k (ds ++ [dA]) dA = nth k (ds' ++ [dA]) dA).
  { induction j as [| j IH]; intros k Hk.
    - rewrite !app_nth2 by lia. rewrite Hlen, Hlen'. reflexivity.
    - destruct (Hc k ltac:(lia)) as [a [Ea Eh]].
      destruct (Hc' k ltac:(lia)) as [a' [Ea' Eh']].
      rewrite (IH (k + 1) ltac:(lia)) in Eh. rewrite Eh in Eh'. injection Eh' as <-.
      rewrite !app_nth1 by lia.
      rewrite (nth_error_nth _ _ dA Ea), (nth_error_nth _ _ dA Ea'). reflexivity. }
  apply nth_error_ext. intros k.
  destruct (Nat.lt_ge_cases k m) as [Hk | Hk].
  - rewrite !(nth_error_nth' _ dA) by lia.
    f_equal. specialize (Hnth (m - k) k ltac:(lia)).
    rewrite !app_nth1 in Hnth by lia. exact Hnth.
  - transitivity (@None ndarray); [| symmetry]; apply nth_error_None; lia.
Qed.

(** The gradients before the weight-decay step, layer by layer: the
    gradient pass returns [(G, dB)] exactly when its assertions hold and
    [(G, dB)] are the gradients of a chain of layer errors. *)
Lemma layer_gradients_chain (self : NeuralNetwork) (X : ndarray) (y : labels)
    (H A : list ndarray) (loss_type : string) (G dB : grads) :
  run (layer_gradients X y H A loss_type) self = Ok (G, dB) <->
  (List.length H = L self + 1 /\ List.length A = L self /\
   shape0 X = size y /\
   exists ds, gradient_chain self X y H A loss_type ds G dB).
Proof.
  split.
  - intros Hrun.
    destruct (layer_gradients_inv _ _ _ _ _ _ _ _ Hrun)
      as [dAL [Hprev [g [dA' [Hn [HlH [HlA [HN [Eout [EHp [Eg Eloop]]]]]]]]]]].
    set (n := L self) in *.
    destruct (hidden_loop_spec _ _ _ _ _ _ _ _ _ _ _ Eloop) as [ds [Hlen [Hbelow Habove]]].
    destruct (hidden_loop_length _ _ _ _ _ _ _ _ _ _ _ Eloop) as [HlG HlB].
    rewrite length_replace, repeat_length in HlG, HlB.
    split; [exact HlH | split; [exact HlA | split; [exact HN |]]].
    exists (ds ++ [dAL]). unfold gradient_chain. fold n.
    split; [| split; [exact HlG | split; [exact HlB | split; [| split]]]].
    + rewrite length_app. simpl. lia.
    + exists dAL. split; [exact Eout |].
      rewrite nth_error_app2 by lia. rewrite Hlen, Nat.sub_diag. reflexivity.
    + intros k Hk. destruct (Hbelow k ltac:(lia)) as [dAk [Ek [Eh _]]].
      exists dAk, (nth (k + 1) (ds ++ [dAL]) dAL). split; [| split].
      * rewrite nth_error_app1 by lia. exact Ek.
      * apply nth_error_nth'. rewrite length_app. simpl. lia.
      * exact Eh.
    + intros k Hk. destruct (Nat.eq_dec k (n - 1)) as [-> | Hne].
      * exists dAL. split.
        -- rewrite nth_error_app2 by lia. rewrite Hlen, Nat.sub_diag. reflexivity.
        -- destruct (Habove (n - 1) (le_n _)) as [EW' EB'].
           exists Hprev, g. repeat split; try assumption.
           ++ rewrite EW'. apply nth_error_replace_eq. rewrite repeat_length. lia.
           ++ rewrite EB'. apply nth_error_replace_eq. rewrite repeat_length. lia.
      * destruct (Hbelow k ltac:(lia)) as [dAk [Ek [_ Hg]]].
        exists dAk. split; [| exact Hg].
        rewrite nth_error_app1 by lia. exact Ek.
  - intros [HlH [HlA [HN [ds Hchain]]]].
    destruct Hchain as [Hlen [HlG [HlB [[dAL [Eout EdAL]] [Hhidden Hgrads]]]]].
    set (n := L self) in *.
    assert (Hn : 1 <= n).
    { destruct n; [| lia]. simpl in EdAL. destruct ds; [discriminate | discriminate]. }
    (* the errors below the output layer *)
    assert (Hne : ds <> []) by (destruct ds; simpl in Hlen; [lia | discriminate]).
    destruct (exists_last Hne) as [ds0 [dAL' Eds]]. subst ds.
    rewrite length_app in Hlen. simpl in Hlen.
    rewrite nth_error_app2 in EdAL by lia.
    replace (n - 1 - List.length ds0) with 0 in EdAL by lia.
    simpl in EdAL. injection EdAL as ->.
    destruct (Hgrads (n - 1) ltac:(lia)) as [dAk [Ek [Hprev [g [EHp [Eg [EGn EBn]]]]]]].
    rewrite nth_error_app2 in Ek by lia.
    replace (n - 1 - List.length ds0) with 0 in Ek by lia.
    simpl in Ek. injection Ek as <-.
    assert (Hsteps : forall k, k < n - 1 ->
              exists dAk Hk g',
                nth_error ds0 k = Some dAk /\
                hidden_error self H A k (nth (k + 1) (ds0 ++ [dAL]) dAL) = Ok dAk /\
                nth_error H k = Some Hk /\
                weight_gradient dAk Hk (shape0 X) = Ok g').
    { intros k Hk.
      destruct (Hhidden k ltac:(lia)) as [dAk [dAnext [Ek [Enext Eh]]]].
      destruct (Hgrads k ltac:(lia)) as [dAk' [Ek' [Hk' [g' [EH' [Eg' _]]]]]].
      rewrite Ek in Ek'. injection Ek' as <-.
      exists dAk, Hk', g'. repeat split; try assumption.
      - rewrite nth_error_app1 in Ek by lia. exact Ek.
      - rewrite (nth_error_nth _ _ dAL Enext). exact Eh. }
    destruct (hidden_loop_runs self H A (shape0 X) (n - 1) ds0 dAL
                (PyList.replace (repeat None n) (n - 1) (Some g))
                (PyList.replace (repeat None n) (n - 1)
                   (Some (bias_gradient dAL (shape0 X)))))
      as [dA' [dW' [dB' Eloop]]];
      try (rewrite length_replace, repeat_length); try lia; try exact Hsteps.
    assert (Hrun : run (layer_gradients X y H A loss_type) self = Ok (dW', dB')).
    { unfold layer_gradients.
      rewrite run_bind_readonly by apply readonly_gets.
      change (run (gets L) self) with (Ok n). simpl rbind.
      rewrite run_bind_readonly by apply readonly_py_assert.
      rewrite HlH, HlA, (proj2 (Nat.eqb_eq (shape0 X) (size y)) HN), !Nat.eqb_refl.
      simpl.
      rewrite run_bind_readonly by apply readonly_ret. simpl.
      rewrite run_bind_readonly by apply readonly_output_error.
      rewrite Eout. simpl rbind.
      rewrite run_bind_readonly by apply readonly_output_layer.
      rewrite run_output_layer.
      assert (EH2 : PyList.index_from_end H 2 = Ok Hprev).
      { unfold PyList.index_from_end. rewrite HlH.
        destruct (Nat.leb_spec 2 (n + 1)); [| lia]. simpl.
        replace (n + 1 - 2) with (n - 1) by lia.
        apply index_ok. exact EHp. }
      rewrite EH2. simpl. rewrite Eg. simpl.
      unfold PyList.setitem_from_end, PyList.setitem. rewrite repeat_length.
      destruct (Nat.leb_spec 1 n); [| lia]. simpl.
      destruct (Nat.ltb_spec (n - 1) n); [| lia]. simpl.
      rewrite run_bind_readonly
        by (apply readonly_for_each; intros; apply readonly_hidden_layer).
      rewrite Eloop. reflexivity. }
    (* the result is (G, dB): both are the gradients of the same chain *)
    destruct (layer_gradients_inv _ _ _ _ _ _ _ _ Hrun)
      as [dAL2 [Hprev2 [g2 [dA2 [_ [_ [_ [_ [Eout2 [EHp2 [Eg2 Eloop2]]]]]]]]]]].
    fold n in Eout2, EHp2, Eloop2.
    rewrite Eout in Eout2. injection Eout2 as <-.
    rewrite EHp in EHp2. injection EHp2 as <-.
    rewrite Eg in Eg2. injection Eg2 as <-.
    destruct (hidden_loop_spec _ _ _ _ _ _ _ _ _ _ _ Eloop2)
      as [ds' [Hlen' [Hbelow Habove]]].
    destruct (hidden_loop_length _ _ _ _ _ _ _ _ _ _ _ Eloop2) as [HlG' HlB'].
    rewrite length_replace, repeat_length in HlG', HlB'.
    assert (Eds : ds0 = ds').
    { apply (hidden_chain_unique self H A (n - 1) ds0 ds' dAL); try lia.
      - intros k Hk. destruct (Hsteps k Hk) as [dAk [_ [_ [Ek [Eh _]]]]].
        exists dAk. auto.
      - intros k Hk. destruct (Hbelow k Hk) as [dAk [Ek [Eh _]]].
        exists dAk. auto. }
    subst ds'.
    assert (EG : dW' = G /\ dB' = dB).
    { split; apply nth_error_ext; intros k.
      - destruct (Nat.lt_ge_cases k n) as [Hk | Hk].
        + destruct (Nat.eq_dec k (n - 1)) as [-> | Hne'].
          * destruct (Habove (n - 1) (le_n _)) as [-> _].
            rewrite EGn. apply nth_error_replace_eq. rewrite repeat_length. lia.
          * destruct (Hbelow k ltac:(lia)) as [dAk [Ek [_ [Hk1 [g1 [EH1 [Eg1 [EW1 _]]]]]]]].
            destruct (Hgrads k Hk) as [dAk' [Ek' [Hk2 [g2 [EH2 [Eg2 [EW2 _]]]]]]].
            rewrite nth_error_app1 in Ek' by lia.
            rewrite Ek in Ek'. injection Ek' as <-.
            rewrite EH1 in EH2. injection EH2 as <-.
            rewrite Eg1 in Eg2. injection Eg2 as <-.
            rewrite EW1, EW2. reflexivity.
        + transitivity (@None (option ndarray)); [| symmetry];
            apply nth_error_None; lia.
      - destruct (Nat.lt_ge_cases k n) as [Hk | Hk].
        + destruct (Nat.eq_dec k (n - 1)) as [-> | Hne'].
          * destruct (Habove (n - 1) (le_n _)) as [_ ->].
            rewrite EBn. apply nth_error_replace_eq. rewrite repeat_length. lia.
          * destruct (Hbelow k ltac:(lia)) as [dAk [Ek [_ [Hk1 [g1 [_ [_ [_ EB1]]]]]]]].
            destruct (Hgrads k Hk) as [dAk' [Ek' [Hk2 [g2 [_ [_ [_ EB2]]]]]]].
            rewrite nth_error_app1 in Ek' by lia.
            rewrite Ek in Ek'. injection Ek' as <-.
            rewrite EB1, EB2. reflexivity.
        + transitivity (@None (option ndarray)); [| symmetry];
            apply nth_error_None; lia. }
    destruct EG as [<- <-]. exact Hrun.
Qed.

(* ================================================================== *)
(** ** Weight decay *)

Lemma with_weight_decay_same (self : NeuralNetwork) :
  with_weight_decay (weight_decay self) self = self.
Proof. destruct self; reflexivity. Qed.

Lemma decay_free_readonly {A : Type} (m : M A) : decay_free m -> readonly m.
Proof.
  intros Hm self. unfold exec.
  specialize (Hm self (weight_decay self)).
  rewrite with_weight_decay_same in Hm. rewrite Hm. reflexivity.
Qed.

Lemma decay_free_run {A : Type} (m : M A) (self : NeuralNetwork) (wd : float) :
  decay_free m -> run m (with_weight_decay wd self) = run m self.
Proof. intros Hm. unfold run at 1. rewrite Hm. reflexivity. Qed.

Lemma decay_free_ret {A : Type} (a : A) : decay_free (ret a).
Proof. intros self wd. reflexivity. Qed.

Lemma decay_free_raise {A : Type} (e : exception) : decay_free (@raise A e).
Proof. intros self wd. reflexivity. Qed.

Lemma decay_free_lift {A : Type} (r : result A) : decay_free (lift r).
Proof. intros self wd. reflexivity. Qed.

Lemma decay_free_gets {A : Type} (field : NeuralNetwork -> A) :
  (forall self wd, field (with_weight_decay wd self) = field self) ->
  decay_free (gets field).
Proof. intros Hf self wd. unfold gets, run. simpl. rewrite Hf. reflexivity. Qed.

Lemma decay_free_bind {A C : Type} (m : M A) (k : A -> M C) :
  decay_free m -> (forall a, decay_free (k a)) -> decay_free (bind m k).
Proof.
  intros Hm Hk self wd.
  rewrite (run_bind_readonly m k self (decay_free_readonly m Hm)).
  unfold bind. rewrite Hm.
  destruct (run m self) as [a | e]; simpl.
  - apply Hk.
  - reflexivity.
Qed.

Lemma decay_free_for_each {I S : Type} (xs : list I) (body : I -> S -> M S) :
  (forall x s, decay_free (body x s)) -> forall s, decay_free (for_each xs body s).
Proof.
  intros Hbody. induction xs as [| x xs IH]; intro s; simpl.
  - apply decay_free_ret.
  - apply decay_free_bind; [apply Hbody | exact IH].
Qed.

Lemma decay_free_py_assert (b : bool) (msg : string) : decay_free (py_assert b msg).
Proof. destruct b; [apply decay_free_ret | apply decay_free_raise]. Qed.

Create HintDb decay_free.
#[local] Hint Resolve decay_free_ret decay_free_raise decay_free_lift
  decay_free_py_assert : decay_free.

Ltac decay_free_step :=
  match goal with
  | |- decay_free (bind _ _) => apply decay_free_bind; [| intros ?]
  | |- decay_free (for_each _ _ _) => apply decay_free_for_each; intros ? ?
  | |- decay_free (gets _) => apply decay_free_gets; reflexivity
  | |- decay_free (match ?x with _ => _ end) => destruct x
  | |- decay_free (if ?b then _ else _) => destruct b
  | |- decay_free _ => solve [auto with decay_free]
  end.

Ltac decay_free_auto := repeat decay_free_step.

Lemma decay_free_one_hot (y : labels) : decay_free (one_hot y).
Proof. unfold one_hot. decay_free_auto. Qed.

Lemma decay_free_expand_labels (y : labels) : decay_free (expand_labels y).
Proof. destruct y; simpl; [apply decay_free_one_hot | apply decay_free_ret]. Qed.

#[local] Hint Resolve decay_free_one_hot decay_free_expand_labels : decay_free.

Lemma decay_free_loss_derivative (y_pred : ndarray) (y : labels) (loss_type : string) :
  decay_free (_loss_derivative y_pred y loss_type).
Proof. unfold _loss_derivative. decay_free_auto. Qed.

Lemma decay_free_last_activation : decay_free last_activation.
Proof. unfold last_activation. decay_free_auto. Qed.

#[local] Hint Resolve decay_free_loss_derivative decay_free_last_activation
  : decay_free.

Lemma decay_free_output_error (y : labels) (H A : list ndarray) (loss_type : string) :
  decay_free (output_error y H A loss_type).
Proof. unfold output_error. decay_free_auto. Qed.

Lemma decay_free_hidden_layer (H A : list ndarray) (N k : nat)
    (st : ndarray * grads * grads) :
  decay_free (hidden_layer H A N k st).
Proof. unfold hidden_layer. destruct st as [[dA dW] dB]. decay_free_auto. Qed.

Lemma decay_free_output_layer (H : list ndarray) (N : nat) (dA : ndarray)
    (dW dB : grads) :
  decay_free (output_layer H N dA dW dB).
Proof. unfold output_layer. decay_free_auto. Qed.

Lemma decay_free_layer_gradients (X : ndarray) (y : labels) (H A : list ndarray)
    (loss_type : string) :
  decay_free (layer_gradients X y H A loss_type).
Proof.
  unfold layer_gradients.
  apply decay_free_bind; [decay_free_auto | intro n].
  apply decay_free_bind; [decay_free_auto | intros _].
  apply decay_free_bind; [decay_free_auto | intros _].
  apply decay_free_bind; [apply decay_free_output_error | intro dA].
  apply decay_free_bind; [apply decay_free_output_layer | intros [dW dB]].
  apply decay_free_bind.
  - apply decay_free_for_each. intros. apply decay_free_hidden_layer.
  - intros [[dA' dW'] dB']. apply decay_free_ret.
Qed.

(** Without a positive weight decay, backpropagation returns the layer
    gradients as they are. *)
Lemma back_propagation_without_decay (self : NeuralNetwork) (X : ndarray)
    (y : labels) (H A : list ndarray) (loss_type : string) :
  PrimFloat.ltb 0%float (weight_decay self) = false ->
  run (back_propagation X y H A loss_type) self
    = run (layer_gradients X y H A loss_type) self.
Proof.
  intros Hwd. unfold back_propagation.
  rewrite run_bind_readonly by apply readonly_layer_gradients.
  destruct (run (layer_gradients X y H A loss_type) self) as [[dW dB] |]; simpl;
    [| reflexivity].
  unfold run, bind, gets. simpl. rewrite Hwd. reflexivity.
Qed.

Lemma run_decay_layer (self : NeuralNetwork) (i : nat) (dW : grads) :
  run (decay_layer i dW) self =
  (g <~ PyList.index dW i;
   Wi <~ PyList.index (W self) i;
   match g with
   | None => Err TypeError
   | Some g =>
       g' <~ broadcast_inplace PrimFloat.add g
               (map_array (PrimFloat.mul (weight_decay self)) Wi);
       PyList.setitem dW i (Some g')
   end)%result.
Proof.
  unfold decay_layer, run, bind, gets, lift, raise, rbind. simpl.
  repeat match goal with
         | |- context [match ?r with Ok _ => _ | Err _ => _ end] =>
             destruct r; simpl; try reflexivity
         | |- context [match ?o with Some _ => _ | None => _ end] =>
             destruct o; simpl; try reflexivity
         end.
Qed.

Lemma readonly_decay_layer (i : nat) (dW : grads) : readonly (decay_layer i dW).
Proof. unfold decay_layer. readonly_auto. Qed.

Lemma broadcast_inplace_same_shape (f : float -> float -> float) (a b : ndarray) :
  same_shape b a ->
  broadcast_inplace f a b =
  Ok (tabulate (shape0 a) (shape1 a) (fun i j => f (item a i j) (bitem b i j))).
Proof.
  intros [E0 E1]. unfold broadcast_inplace.
  rewrite E0, E1, !Nat.eqb_refl. reflexivity.
Qed.

(** The decay loop over layers [s .. s + n - 1]. *)
Lemma decay_loop_spec (self : NeuralNetwork) :
  forall (n s : nat) (dW : grads),
    (forall i, s <= i < s + n ->
       exists g0 Wi, nth_error dW i = Some (Some g0) /\
                     nth_error (W self) i = Some Wi /\ same_shape Wi g0) ->
    exists dW' : grads,
      run (for_each (seq s n) decay_layer dW) self = Ok dW' /\
      List.length dW' = List.length dW /\
      (forall i, s <= i < s + n ->
         exists g0 Wi, nth_error dW i = Some (Some g0) /\
                       nth_error (W self) i = Some Wi /\
                       nth_error dW' i
                         = Some (Some (decayed (weight_decay self) g0 Wi))) /\
      (forall i, ~ (s <= i < s + n) -> nth_error dW' i = nth_error dW i).
Proof.
  induction n as [| n IH]; intros s dW Hentries.
  - exists dW. simpl. repeat split; auto. intros i Hi. lia.
  - destruct (Hentries s ltac:(lia)) as [g0 [Wi [Eg [EW Hshape]]]].
    assert (Hs : s < List.length dW).
    { apply nth_error_Some. rewrite Eg. discriminate. }
    set (dW1 := PyList.replace dW s (Some (decayed (weight_decay self) g0 Wi))).
    assert (Hstep : run (decay_layer s dW) self = Ok dW1).
    { rewrite run_decay_layer.
      apply index_ok in Eg. apply index_ok in EW. rewrite Eg, EW. simpl.
      rewrite broadcast_inplace_same_shape.
      - simpl. unfold PyList.setitem.
        destruct (Nat.ltb_spec s (List.length dW)); [reflexivity | lia].
      - destruct Hshape as [E0 E1]. split; simpl; assumption. }
    destruct (IH (S s) dW1) as [dW' [Hrun [Hlen [Hin Hout]]]].
    { intros i Hi. destruct (Hentries i ltac:(lia)) as [g [Wj [Eg' [EW' Hsh]]]].
      exists g, Wj. repeat split; try assumption; try apply Hsh.
      unfold dW1. rewrite nth_error_replace_neq by lia. exact Eg'. }
    exists dW'. split; [| split; [| split]].
    + simpl seq. rewrite for_each_cons.
      rewrite run_bind_readonly by apply readonly_decay_layer.
      rewrite Hstep. simpl. exact Hrun.
    + rewrite Hlen. unfold dW1. apply length_replace.
    + intros i Hi. destruct (Nat.eq_dec i s) as [-> | Hne].
      * exists g0, Wi. repeat split; try assumption.
        rewrite Hout by lia. unfold dW1. apply nth_error_replace_eq. exact Hs.
      * destruct (Hin i ltac:(lia)) as [g [Wj [Eg' [EW' Eres]]]].
        exists g, Wj. repeat split; try assumption.
        unfold dW1 in Eg'. rewrite nth_error_replace_neq in Eg' by lia. exact Eg'.
    + intros i Hi. rewrite Hout by lia.
      unfold dW1. apply nth_error_replace_neq. lia.
Qed.

Lemma item_decayed (wd : float) (g0 Wi : ndarray) (r c : nat) :
  same_shape Wi g0 -> r < shape0 g0 -> c < shape1 g0 ->
  item (decayed wd g0 Wi) r c
    = PrimFloat.add (item g0 r c) (PrimFloat.mul wd (item Wi r c)).
Proof.
  intros [E0 E1] Hr Hc. unfold decayed. rewrite item_tabulate by assumption.
  f_equal. unfold bitem. simpl shape0. simpl shape1.
  assert (Hb0 : bidx (shape0 Wi) r = r).
  { unfold bidx. destruct (Nat.eqb_spec (shape0 Wi) 1); [lia | reflexivity]. }
  assert (Hb1 : bidx (shape1 Wi) c = c).
  { unfold bidx. destruct (Nat.eqb_spec (shape1 Wi) 1); [lia | reflexivity]. }
  rewrite Hb0, Hb1. unfold map_array. apply item_tabulate; lia.
Qed.

(* ================================================================== *)
(** ** The gradients returned by backpropagation *)

(** C4. With a positive weight decay, every weight gradient returned by
    backpropagation is, entry by entry, the gradient returned with
    [weight_decay = 0] plus [weight_decay * W[i]], and the bias gradients
    are the same; the network's weight matrices have the shapes of their
    gradients. *)
Theorem weight_decay_adds_penalty (self : NeuralNetwork) (X : ndarray)
    (y : labels) (H A : list ndarray) (loss_type : string) (dW0 dB0 : grads) :
  PrimFloat.ltb 0%float (weight_decay self) = true ->
  run (back_propagation X y H A loss_type) (with_weight_decay 0%float self)
    = Ok (dW0, dB0) ->
  List.length (W self) = L self ->
  (forall i g0 Wi,
     nth_error dW0 i = Some (Some g0) -> nth_error (W self) i = Some Wi ->
     same_shape Wi g0) ->
  exists dW : grads,
    run (back_propagation X y H A loss_type) self = Ok (dW, dB0) /\
    List.length dW = List.length dW0 /\
    forall i, i < L self ->
      exists g g0 Wi,
        nth_error dW i = Some (Some g) /\
        nth_error dW0 i = Some (Some g0) /\
        nth_error (W self) i = Some Wi /\
        same_shape g g0 /\
        forall r c, r < shape0 g0 -> c < shape1 g0 ->
          item g r c = (item g0 r c + weight_decay self * item Wi r c)%float.
Proof.
  intros Hwd Hrun0 HlenW Hshapes.
  rewrite back_propagation_without_decay in Hrun0 by reflexivity.
  rewrite decay_free_run in Hrun0 by apply decay_free_layer_gradients.
  pose proof (layer_gradients_filled _ _ _ _ _ _ _ _ Hrun0) as Hfilled.
  assert (Hentries : forall i, 0 <= i < 0 + List.length (W self) ->
            exists g0 Wi, nth_error dW0 i = Some (Some g0) /\
                          nth_error (W self) i = Some Wi /\ same_shape Wi g0).
  { intros i Hi. destruct (Hfilled i ltac:(lia)) as [g0 Eg].
    destruct (nth_error (W self) i) as [Wi |] eqn:EW.
    - exists g0, Wi. repeat split; try assumption; apply (Hshapes i g0 Wi Eg EW).
    - apply nth_error_None in EW. lia. }
  destruct (decay_loop_spec self _ 0 dW0 Hentries) as [dW [Hloop [HlenD [Hin _]]]].
  exists dW. split; [| split].
  - unfold back_propagation.
    rewrite run_bind_readonly by apply readonly_layer_gradients.
    rewrite Hrun0. simpl rbind.
    unfold run at 1. unfold bind at 1, gets at 1. rewrite Hwd.
    unfold bind at 1, gets at 1.
    change (run (dW' <- for_each (seq 0 (List.length (W self))) decay_layer dW0 ;;
                 ret (dW', dB0)) self = Ok (dW, dB0)).
    rewrite run_bind_readonly
      by (apply readonly_for_each; intros; apply readonly_decay_layer).
    rewrite Hloop. reflexivity.
  - exact HlenD.
  - intros i Hi. destruct (Hin i ltac:(lia)) as [g0 [Wi [Eg [EW Eres]]]].
    exists (decayed (weight_decay self) g0 Wi), g0, Wi.
    repeat split; try assumption.
    intros r c Hr Hc. apply item_decayed; try assumption.
    apply (Hshapes i g0 Wi Eg EW).
Qed.

(* ================================================================== *)
(** ** Training without validation data *)

Lemma raises_raise {A : Type} (e : exception) : raises (@raise A e).
Proof. intro self. exists e. reflexivity. Qed.

Lemma raises_bind_l {A C : Type} (m : M A) (k : A -> M C) :
  raises m -> raises (bind m k).
Proof.
  intros Hm self. destruct (Hm self) as [e He].
  exists e. rewrite run_bind. unfold run in He.
  destruct (m self) as [[a | e'] self']; simpl in He; [discriminate |].
  injection He as ->. reflexivity.
Qed.

Lemma raises_bind_r {A C : Type} (m : M A) (k : A -> M C) :
  (forall a, raises (k a)) -> raises (bind m k).
Proof.
  intros Hk self. rewrite run_bind.
  destruct (m self) as [[a | e] self'].
  - apply Hk.
  - exists e. reflexivity.
Qed.

Lemma raises_for_each_cons {I S : Type} (x : I) (xs : list I)
    (body : I -> S -> M S) (s : S) :
  raises (body x s) -> raises (for_each (x :: xs) body s).
Proof. intros Hb. rewrite for_each_cons. apply raises_bind_l. exact Hb. Qed.

Lemma raises_compute_loss_of_none (y : option labels) (loss_type : string) :
  raises (compute_loss_of_none y loss_type).
Proof.
  destruct y as [y |]; simpl; [| apply raises_raise].
  apply raises_bind_r. intros _.
  destruct (String.eqb (lower loss_type) "cross_entropy"); [apply raises_raise |].
  destruct (_ || _); apply raises_raise.
Qed.

(** The validation step of an epoch cannot complete without validation
    inputs. *)
Lemma raises_epoch_validation (y_val : option labels) (loss_type : string)
    (callback : option (float -> float -> float -> float -> result unit))
    (v : locals) (train_loss_ : float) (hist : history) :
  raises (epoch_validation None y_val loss_type callback v train_loss_ hist).
Proof.
  unfold epoch_validation.
  apply raises_bind_r. intro n.
  destruct (n =? 0).
  - apply raises_bind_l. apply raises_compute_loss_of_none.
  - apply raises_bind_r. intro W_. apply raises_bind_r. intros _. apply raises_raise.
Qed.

Lemma raises_train_epoch (y_val : option labels) (batch_size : Z)
    (loss_type : string) (log_every : Z)
    (callback : option (float -> float -> float -> float -> result unit))
    (np_random_permutation : Z -> list nat) (num_datapoints : nat)
    (num_batches epoch : Z) (v : locals) :
  raises (train_epoch None y_val batch_size loss_type log_every callback
            np_random_permutation num_datapoints num_batches epoch v).
Proof.
  unfold train_epoch.
  apply raises_bind_r. intros [X' y'].
  apply raises_bind_r. intros v'.
  destruct (loc_batch v') as [[[H X_batch] y_batch] |]; [| apply raises_raise].
  apply raises_bind_r. intros HL.
  apply raises_bind_r. intros train_loss_.
  apply raises_bind_r. intros train_acc_.
  apply raises_bind_l. apply raises_epoch_validation.
Qed.

Lemma range_positive (n : Z) :
  spacer n = Ok tt -> exists xs, PyList.range n = 0%Z :: xs.
Proof.
  unfold spacer, PyList.range.
  destruct (Z.eqb_spec n 0); [discriminate |].
  destruct (Z.ltb_spec n 0); [discriminate |].
  intros _. destruct (Z.to_nat n) as [| k] eqn:Ek; [lia |].
  simpl. eexists. reflexivity.
Qed.

(** C5 (as the code behaves). With [X_val = None], [train] never returns
    a history: every call ends in an exception. *)
Theorem train_without_validation_raises (self : NeuralNetwork)
    (X_train : ndarray) (y_train : labels) (y_val : option labels)
    (batch_size num_epochs : Z) (loss_type : string) (log_every : Z)
    (callback : option (float -> float -> float -> float -> result unit))
    (np_random_permutation : Z -> list nat) :
  exists e : exception,
    run (train X_train y_train None y_val batch_size num_epochs loss_type
           log_every callback np_random_permutation) self = Err e.
Proof.
  revert self.
  change (raises (train X_train y_train None y_val batch_size num_epochs
                    loss_type log_every callback np_random_permutation)).
  unfold train.
  apply raises_bind_r. intros o.
  apply raises_bind_r. intros _.
  unfold train_loop.
  destruct (batch_size =? 0)%Z; [apply raises_raise |].
  destruct (spacer num_epochs) as [[] | e] eqn:Espacer.
  - apply raises_bind_r. intros _.
    apply raises_bind_r. intros _.
    apply raises_bind_l.
    destruct (range_positive _ Espacer) as [xs ->].
    apply raises_for_each_cons. apply raises_train_epoch.
  - apply raises_bind_l. intro s. exists e. reflexivity.
Qed.

(* ================================================================== *)
(** ** The optimizer attached by [train] *)

Lemma evolves_trans (cls : optimizer_class) (a b c : OptState) :
  evolves cls a b -> evolves cls b c -> evolves cls a c.
Proof.
  intros Hab Hbc. induction Hbc as [| b c W_ B_ dW dB it Hbc IH].
  - exact Hab.
  - apply evolves_update. apply IH. exact Hab.
Qed.

Lemma keeps_readonly {A : Type} (m : M A) : readonly m -> keeps_optimizer m.
Proof.
  intros Hm self o Ho. rewrite Hm. exists (opt_state o). split.
  - rewrite Ho. destruct o; reflexivity.
  - apply evolves_refl.
Qed.

Lemma keeps_bind {A C : Type} (m : M A) (k : A -> M C) :
  keeps_optimizer m -> (forall a, keeps_optimizer (k a)) ->
  keeps_optimizer (bind m k).
Proof.
  intros Hm Hk self o Ho.
  destruct (Hm self o Ho) as [st1 [Ho1 Hev1]].
  unfold exec, bind in *.
  destruct (m self) as [[a | e] self1]; simpl in Ho1.
  - destruct (Hk a self1 _ Ho1) as [st2 [Ho2 Hev2]]. simpl in *.
    exists st2. split; [exact Ho2 |].
    apply (evolves_trans _ _ _ _ Hev1 Hev2).
  - exists st1. split; assumption.
Qed.

Lemma keeps_for_each {I S : Type} (xs : list I) (body : I -> S -> M S) :
  (forall x s, keeps_optimizer (body x s)) ->
  forall s, keeps_optimizer (for_each xs body s).
Proof.
  intros Hbody. induction xs as [| x xs IH]; intro s; simpl.
  - apply keeps_readonly, readonly_ret.
  - apply keeps_bind; [apply Hbody | exact IH].
Qed.

Lemma keeps_optimizer_step (dW dB : grads) (iteration : Z) :
  keeps_optimizer (optimizer_step dW dB iteration).
Proof.
  intros self o Ho. unfold optimizer_step, exec, bind, gets, modify, lift.
  rewrite Ho.
  destruct (optimizer_update (opt_class o) (opt_state o) (W self) (B self)
              dW dB iteration) as [r st] eqn:Eupd.
  exists st. split.
  - destruct r as [[W' B'] | e]; reflexivity.
  - replace st with (snd (optimizer_update (opt_class o) (opt_state o)
                            (W self) (B self) dW dB iteration))
      by (rewrite Eupd; reflexivity).
    apply evolves_update. apply evolves_refl.
Qed.

Lemma readonly_back_propagation (X : ndarray) (y : labels) (H A : list ndarray)
    (loss_type : string) :
  readonly (back_propagation X y H A loss_type).
Proof.
  unfold back_propagation.
  apply readonly_bind; [apply readonly_layer_gradients | intros [dW dB]].
  apply readonly_bind; [apply readonly_gets | intro wd].
  destruct (PrimFloat.ltb 0 wd); [| apply readonly_ret].
  apply readonly_bind; [apply readonly_gets | intro W_].
  apply readonly_bind; [| intro; apply readonly_ret].
  apply readonly_for_each. intros. apply readonly_decay_layer.
Qed.

Lemma readonly_compute_loss_of_none (y : option labels) (loss_type : string) :
  readonly (compute_loss_of_none y loss_type).
Proof.
  destruct y as [y |]; simpl; [| apply readonly_raise].
  apply readonly_bind; [apply readonly_expand_labels | intros _].
  readonly_auto.
Qed.

#[local] Hint Resolve readonly_back_propagation readonly_compute_loss_of_none
  : readonly.

Lemma readonly_epoch_validation (X_val : option ndarray) (y_val : option labels)
    (loss_type : string)
    (callback : option (float -> float -> float -> float -> result unit))
    (v : locals) (train_loss_ : float) (hist : history) :
  readonly (epoch_validation X_val y_val loss_type callback v train_loss_ hist).
Proof. unfold epoch_validation. readonly_auto. Qed.

Section TrainKeepsOptimizer.

Variable X_val : option ndarray.
Variable y_val : option labels.
Variables batch_size num_epochs : Z.
Variable loss_type : string.
Variable log_every : Z.
Variable callback : option (float -> float -> float -> float -> result unit).
Variable np_random_permutation : Z -> list nat.

Lemma keeps_train_batch (num_datapoints : nat) (batch : Z) (v : locals) :
  keeps_optimizer
    (train_batch X_val y_val batch_size loss_type log_every num_datapoints batch v).
Proof.
  unfold train_batch.
  apply keeps_bind; [apply keeps_readonly, readonly_forward_propagation |].
  intros [H A].
  apply keeps_bind; [apply keeps_readonly, readonly_back_propagation |].
  intros [dW dB].
  apply keeps_bind; [apply keeps_optimizer_step | intros _].
  apply keeps_readonly. readonly_auto.
Qed.

Lemma keeps_train_epoch (num_datapoints : nat) (num_batches epoch : Z) (v : locals) :
  keeps_optimizer
    (train_epoch X_val y_val batch_size loss_type log_every callback
       np_random_permutation num_datapoints num_batches epoch v).
Proof.
  unfold train_epoch.
  apply keeps_bind; [apply keeps_readonly, readonly_lift | intros [X' y']].
  apply keeps_bind.
  - apply keeps_for_each. intros. apply keeps_train_batch.
  - intros v'. apply keeps_readonly.
    destruct (loc_batch v') as [[[H X_batch] y_batch] |]; [| apply readonly_raise].
    do 3 (apply readonly_bind; [solve [auto with readonly] | intros ?]).
    apply readonly_bind; [apply readonly_epoch_validation | intros ?].
    apply readonly_ret.
Qed.

Lemma keeps_train_loop (X_train : ndarray) (y_train : labels) :
  keeps_optimizer
    (train_loop X_train y_train X_val y_val batch_size num_epochs loss_type
       log_every callback np_random_permutation).
Proof.
  unfold train_loop.
  destruct (batch_size =? 0)%Z; [apply keeps_readonly, readonly_raise |].
  apply keeps_bind; [apply keeps_readonly, readonly_lift | intros _].
  apply keeps_bind; [apply keeps_readonly, readonly_lift | intros _].
  apply keeps_bind.
  - apply keeps_for_each. intros. apply keeps_train_epoch.
  - intros v. apply keeps_readonly, readonly_ret.
Qed.

End TrainKeepsOptimizer.

Lemma set_optimizer_attaches (d : dict) (self self' : NeuralNetwork) :
  set_optimizer d self = (Ok tt, self') ->
  exists o, optimizer self' = Some o.
Proof.
  unfold set_optimizer, bind, lift, gets, modify, raise.
  destruct (dict_get d "name") as [name |]; [| discriminate].
  destruct (pylower name) as [key |]; [| discriminate].
  destruct (optimizer_map key) as [cls |]; [| discriminate].
  destruct (optimizer_init cls (W self) (B self) _) as [st |]; [| discriminate].
  intros E. injection E as <-. eexists. reflexivity.
Qed.

(** C7. On a network without optimizer, [train] is [set_optimizer] with
    [{'name': 'sgd', 'learning_rate': 0.01}] followed by [train]: the
    default optimizer is attached before anything else happens, and the
    network then holds that SGD object, advanced by its [update] calls
    only.  On a network with an optimizer, the network holds the same
    optimizer object afterwards, advanced by its [update] calls only. *)
Theorem train_default_optimizer (self : NeuralNetwork)
    (X_train : ndarray) (y_train : labels)
    (X_val : option ndarray) (y_val : option labels)
    (batch_size num_epochs : Z) (loss_type : string) (log_every : Z)
    (callback : option (float -> float -> float -> float -> result unit))
    (np_random_permutation : Z -> list nat) :
  let train_ := train X_train y_train X_val y_val batch_size num_epochs
                  loss_type log_every callback np_random_permutation in
  (optimizer self = None ->
   train_ self = bind (set_optimizer default_optimizer) (fun _ => train_) self /\
   forall st : OptState,
     optimizer_init SGDOptimizer (W self) (B self)
       [("name"%string, PStr "sgd");
        ("learning_rate"%string, PFloat 0x1.47ae147ae147bp-7%float);
        ("LOG_EACH"%string, PBool (LOG_EACH self))] = Ok st ->
     exists st' : OptState,
       optimizer (exec train_ self) = Some (mk_optimizer SGDOptimizer st') /\
       evolves SGDOptimizer st st') /\
  (forall o : optimizer_obj,
     optimizer self = Some o ->
     exists st' : OptState,
       optimizer (exec train_ self) = Some (mk_optimizer (opt_class o) st') /\
       evolves (opt_class o) (opt_state o) st').
Proof.
  intros train_.
  assert (Hsome : forall s o, optimizer s = Some o ->
            train_ s = train_loop X_train y_train X_val y_val batch_size
                         num_epochs loss_type log_every callback
                         np_random_permutation s).
  { intros s o Ho. unfold train_, train, bind at 1 2, gets. rewrite Ho. reflexivity. }
  split.
  - intros Hnone. split.
    + unfold train_ at 1. unfold train, bind at 1 2, gets at 1. rewrite Hnone.
      unfold bind at 1.
      destruct (set_optimizer default_optimizer self) as [[[] | e] s1] eqn:Eset;
        [| reflexivity].
      destruct (set_optimizer_attaches _ _ _ Eset) as [o1 Ho1].
      symmetry. apply (Hsome s1 o1 Ho1).
    + intros st Hinit.
      assert (Eset : set_optimizer default_optimizer self
                     = (Ok tt, with_optimizer (Some (mk_optimizer SGDOptimizer st)) self)).
      { unfold set_optimizer, bind, lift, gets, modify. simpl.
        rewrite Hinit. reflexivity. }
      destruct (keeps_train_loop X_val y_val batch_size num_epochs loss_type
                  log_every callback np_random_permutation X_train y_train
                  (with_optimizer (Some (mk_optimizer SGDOptimizer st)) self)
                  (mk_optimizer SGDOptimizer st) eq_refl) as [st' [Ho' Hev]].
      exists st'. split; [| exact Hev].
      unfold exec, train_, train, bind at 1 2, gets at 1. rewrite Hnone, Eset.
      exact Ho'.
  - intros o Ho. unfold exec. rewrite (Hsome self o Ho).
    apply keeps_train_loop. exact Ho.
Qed.

(* ================================================================== *)
(** ** Invalid configuration names *)

Lemma existsb_false_cons {A : Type} (f : A -> bool) (x : A) (l : list A) :
  existsb f (x :: l) = false -> f x = false /\ existsb f l = false.
Proof. simpl. apply orb_false_iff. Qed.

Ltac split_unsupported H :=
  repeat (apply existsb_false_cons in H;
          let E := fresh "E" in destruct H as [E H]).

Lemma activate_unsupported (A : ndarray) (activation : string) :
  supported_activation activation = false ->
  activate A activation
    = Err (ValueError ("Unsupported activation function: " ++ activation)).
Proof.
  intros Hs. unfold supported_activation in Hs. split_unsupported Hs.
  unfold activate. rewrite E, E0, E1, E2, E3. reflexivity.
Qed.

Lemma activate_derivative_unsupported (A H : ndarray) (activation : string) :
  supported_activation activation = false ->
  _activate_derivative A H activation
    = Err (ValueError ("Unsupported activation function: " ++ activation)).
Proof.
  intros Hs. unfold supported_activation in Hs. split_unsupported Hs.
  unfold _activate_derivative. rewrite E, E0, E1, E2, E3. reflexivity.
Qed.

Lemma loss_derivative_unsupported (self : NeuralNetwork) (y_pred : ndarray)
    (y : labels) (loss_type : string) :
  supported_loss loss_type = false ->
  run (_loss_derivative y_pred y loss_type) self
    = Err (ValueError ("Unsupported loss function: " ++ loss_type)).
Proof.
  intros Hs. unfold supported_loss in Hs. split_unsupported Hs.
  unfold _loss_derivative. rewrite E, E0, E1. reflexivity.
Qed.

Lemma compute_loss_unsupported (self : NeuralNetwork) (H_final : ndarray)
    (y : labels) (loss_type : string) :
  supported_loss loss_type = false ->
  (forall y', run (expand_labels y) self = Ok y' ->
     run (compute_loss H_final y loss_type) self
       = Err (ValueError ("Unsupported loss function: " ++ loss_type))) /\
  exists e, run (compute_loss H_final y loss_type) self = Err e.
Proof.
  intros Hs. unfold supported_loss in Hs. split_unsupported Hs.
  unfold compute_loss.
  rewrite run_bind_readonly by apply readonly_expand_labels.
  rewrite E, E0, E1. simpl orb. cbv iota.
  destruct (run (expand_labels y) self) as [y' | e]; simpl.
  - split; [intros; reflexivity | eexists; reflexivity].
  - split; [intros y' Hy; discriminate | eexists; reflexivity].
Qed.

(** C6 (as the code behaves). Mismatched list lengths and an unsupported
    weight-init name fail construction, the latter naming the value; an
    unsupported optimizer name fails [set_optimizer], naming the value and
    leaving the network as it was.  Activation names are not looked at by
    construction: an unsupported activation or loss name raises, naming
    the value, where [activate], [_activate_derivative], [_loss_derivative]
    or [compute_loss] dispatches on it.  No unsupported name is replaced by
    a supported one. *)
Theorem invalid_configuration_raises :
  (forall layer_sizes_ activations wd weight_init log_each uniform randn,
     List.length layer_sizes_ <> List.length activations + 1 ->
     __init__ layer_sizes_ activations wd weight_init log_each uniform randn
       = Err (AssertionError
                "Number of layers (excluding input layer) and activations must match")) /\
  (forall layer_sizes_ activations wd weight_init log_each uniform randn,
     List.length layer_sizes_ = List.length activations + 1 ->
     supported_weight_init weight_init = false ->
     __init__ layer_sizes_ activations wd weight_init log_each uniform randn
       = Err (ValueError ("Unsupported weight initialization: " ++ weight_init))) /\
  (forall layer_sizes_ activations wd weight_init log_each uniform randn,
     List.length layer_sizes_ = List.length activations + 1 ->
     lower weight_init = "random"%string ->
     exists nn,
       __init__ layer_sizes_ activations wd weight_init log_each uniform randn
         = Ok nn /\
       activation_functions nn = activations) /\
  (forall self optimizer_dict name,
     dict_get optimizer_dict "name" = Ok (PStr name) ->
     optimizer_map (lower name) = None ->
     set_optimizer optimizer_dict self
       = (Err (ValueError ("Unsupported optimizer: " ++ name)), self)) /\
  (forall A H activation,
     supported_activation activation = false ->
     activate A activation
       = Err (ValueError ("Unsupported activation function: " ++ activation)) /\
     _activate_derivative A H activation
       = Err (ValueError ("Unsupported activation function: " ++ activation))) /\
  (forall self y_pred y loss_type,
     supported_loss loss_type = false ->
     run (_loss_derivative y_pred y loss_type) self
       = Err (ValueError ("Unsupported loss function: " ++ loss_type)) /\
     (forall y', run (expand_labels y) self = Ok y' ->
        run (compute_loss y_pred y loss_type) self
          = Err (ValueError ("Unsupported loss function: " ++ loss_type))) /\
     exists e, run (compute_loss y_pred y loss_type) self = Err e).
Proof.
  split; [| split; [| split; [| split; [| split]]]].
  - intros ls acts wd wi le u r Hlen. unfold __init__.
    destruct (Nat.eqb_spec (List.length ls) (List.length acts + 1)); [lia |].
    reflexivity.
  - intros ls acts wd wi le u r Hlen Hs. unfold __init__.
    rewrite Hlen, Nat.eqb_refl. simpl negb. cbv iota.
    unfold supported_weight_init in Hs. split_unsupported Hs.
    rewrite E, E0. reflexivity.
  - intros ls acts wd wi le u r Hlen Hrandom. unfold __init__.
    rewrite Hlen, Nat.eqb_refl, Hrandom. simpl.
    eexists. split; reflexivity.
  - intros self d name Hget Hmap. unfold set_optimizer, bind, lift.
    rewrite Hget. simpl. rewrite Hmap. reflexivity.
  - intros A H act Hs. split.
    + apply activate_unsupported. exact Hs.
    + apply activate_derivative_unsupported. exact Hs.
  - intros self y_pred y loss_type Hs. split.
    + apply loss_derivative_unsupported. exact Hs.
    + apply compute_loss_unsupported. exact Hs.
Qed.

(* ================================================================== *)
(** ** The cross-entropy gradient on integer labels *)

Lemma compute_loss_expands_labels (self : NeuralNetwork) (H_final : ndarray)
    (v : list Z) (loss_type : string) :
  run (compute_loss H_final (Indices v) loss_type) self
    = (y' <~ run (one_hot (Indices v)) self;
       run (compute_loss H_final (OneHot y') loss_type) self)%result.
Proof.
  unfold compute_loss at 1.
  rewrite run_bind_readonly by apply readonly_expand_labels.
  simpl expand_labels.
  destruct (run (one_hot (Indices v)) self) as [y' |]; reflexivity.
Qed.

(** C3 (where the code departs from it). [compute_loss] one-hot expands
    integer labels, but the cross-entropy branch of [_loss_derivative]
    divides the negated label vector itself, broadcast as one row: on the
    sigmoid network with predictions all 0.5 and labels [1, 0] its entry
    [(0, 0)] is negative where the documented gradient has a zero, and
    with three samples of two classes it raises. *)
Theorem cross_entropy_gradient_skips_one_hot :
  (forall self H_final v loss_type,
     run (compute_loss H_final (Indices v) loss_type) self
       = (y' <~ run (one_hot (Indices v)) self;
          run (compute_loss H_final (OneHot y') loss_type) self)%result) /\
  (exists g g' : ndarray,
     run (_loss_derivative Toy.half (Indices [1; 0]%Z) "cross_entropy")
       one_layer_network = Ok g /\
     run (documented_cross_entropy_gradient Toy.half (Indices [1; 0]%Z))
       one_layer_network = Ok g' /\
     PrimFloat.ltb (item g 0 0) 0%float = true /\
     PrimFloat.ltb (item g' 0 0) 0%float = false /\
     item g 0 0 <> item g' 0 0) /\
  run (_loss_derivative Toy.half3 (Indices [0; 1; 1]%Z) "cross_entropy")
    one_layer_network = Err broadcast_error.
Proof.
  split; [| split].
  - intros. apply compute_loss_expands_labels.
  - eexists. eexists. split; [| split; [| split; [| split]]].
    + vm_compute. reflexivity.
    + vm_compute. reflexivity.
    + vm_compute. reflexivity.
    + vm_compute. reflexivity.
    + intros E.
      apply (f_equal (fun x => PrimFloat.ltb x 0%float)) in E.
      vm_compute in E. discriminate E.
  - vm_compute. reflexivity.
Qed.
(* ================================================================== *)
(** ** Construction *)

Lemma nth_error_combine {A C : Type} (l : list A) (l' : list C) (i : nat) :
  nth_error (combine l l') i =
  match nth_error l i, nth_error l' i with
  | Some a, Some c => Some (a, c)
  | _, _ => None
  end.
Proof.
  revert l' i. induction l as [| a l IH]; intros [| c l'] [| i]; simpl;
    try reflexivity.
  - destruct (nth_error l i); reflexivity.
  - apply IH.
Qed.

Lemma nth_error_tl {A : Type} (l : list A) (i : nat) :
  nth_error (tl l) i = nth_error l (S i).
Proof. destruct l; [destruct i |]; reflexivity. Qed.

Lemma length_adjacent_sizes (sizes : list nat) :
  List.length (adjacent_sizes sizes) = List.length sizes - 1.
Proof.
  unfold adjacent_sizes. rewrite length_combine.
  destruct sizes; simpl; lia.
Qed.

Lemma nth_error_adjacent_sizes (sizes : list nat) (i : nat) :
  i < List.length sizes - 1 ->
  nth_error (adjacent_sizes sizes) i = Some (nth (i + 1) sizes 0, nth i sizes 0).
Proof.
  intros Hi. unfold adjacent_sizes.
  rewrite nth_error_combine, nth_error_tl.
  rewrite (nth_error_nth' sizes 0) by lia.
  rewrite (nth_error_nth' sizes 0) by lia.
  replace (i + 1) with (S i) by lia. reflexivity.
Qed.

(** The three lists a successful construction builds. *)
Lemma init_ok_fields (layer_sizes_ : list nat) (activations : list string)
    (wd : float) (weight_init : string) (log_each : bool)
    (uniform randn : nat -> nat -> nat -> float) (nn : NeuralNetwork) :
  __init__ layer_sizes_ activations wd weight_init log_each uniform randn = Ok nn ->
  List.length layer_sizes_ = List.length activations + 1 /\
  layer_sizes nn = layer_sizes_ /\
  activation_functions nn = activations /\
  L nn = List.length layer_sizes_ - 1 /\
  LOG_EACH nn = log_each /\
  weight_decay nn = wd /\
  optimizer nn = None /\
  B nn = map (fun '(n, _) => tabulate 1 n (fun _ _ => 0%float))
           (adjacent_sizes layer_sizes_) /\
  exists f : nat -> nat -> nat -> nat -> nat -> float,
    W nn = map (fun '(l, (n, m)) => tabulate n m (f l n m))
             (combine (seq 0 (List.length layer_sizes_ - 1))
                (adjacent_sizes layer_sizes_)).
Proof.
  unfold __init__.
  destruct (Nat.eqb_spec (List.length layer_sizes_) (List.length activations + 1))
    as [Hlen |]; simpl negb; cbv iota; [| discriminate].
  destruct (String.eqb (lower weight_init) "random").
  - intros E. injection E as <-. simpl.
    repeat split; try assumption.
    exists (fun l _ _ => uniform l). reflexivity.
  - destruct (String.eqb (lower weight_init) "xavier"); [| discriminate].
    destruct (existsb _ _); [discriminate |].
    intros E. injection E as <-. simpl.
    repeat split; try assumption.
    exists (fun l n m i j =>
              PrimFloat.mul (randn l i j)
                (PrimFloat.sqrt (PrimFloat.div 2%float (float_of_nat (n + m))))).
    reflexivity.
Qed.

(** X1. A network that [__init__] returns keeps the given sizes,
    activation names, weight decay and logging flag, has no optimizer,
    and has one weight matrix of shape [(layer_sizes[i+1], layer_sizes[i])]
    and one all-zero bias row of shape [(1, layer_sizes[i+1])] per layer,
    with [L = len(layer_sizes) - 1 = len(activation_functions)]. *)
Theorem init_builds_well_shaped_network (layer_sizes_ : list nat)
    (activations : list string) (wd : float) (weight_init : string)
    (log_each : bool) (uniform randn : nat -> nat -> nat -> float)
    (nn : NeuralNetwork) :
  __init__ layer_sizes_ activations wd weight_init log_each uniform randn = Ok nn ->
  well_shaped nn /\
  layer_sizes nn = layer_sizes_ /\
  activation_functions nn = activations /\
  L nn = List.length activations /\
  weight_decay nn = wd /\
  LOG_EACH nn = log_each /\
  optimizer nn = None /\
  forall i Bi, nth_error (B nn) i = Some Bi ->
    forall j, j < shape1 Bi -> item Bi 0 j = 0%float.
Proof.
  intros Hinit.
  destruct (init_ok_fields _ _ _ _ _ _ _ _ Hinit)
    as [Hlen [Els [Eacts [EL [Elog [Ewd [Eopt [EB [f EW]]]]]]]]].
  assert (HL : L nn = List.length activations) by lia.
  split; [| repeat split; try assumption].
  - unfold well_shaped. rewrite Els, Eacts, EB, EW.
    rewrite !length_map, length_combine, length_seq, length_adjacent_sizes.
    split; [lia | split; [lia | split; [lia | split; [lia |]]]].
    intros i Hi.
    assert (Hadj : nth_error (adjacent_sizes layer_sizes_) i
                   = Some (nth (i + 1) layer_sizes_ 0, nth i layer_sizes_ 0))
      by (apply nth_error_adjacent_sizes; lia).
    eexists. eexists. split; [| split].
    + rewrite nth_error_map, nth_error_combine, Hadj.
      rewrite (nth_error_nth' (seq 0 (List.length layer_sizes_ - 1)) 0)
        by (rewrite length_seq; lia).
      simpl. reflexivity.
    + rewrite nth_error_map, Hadj. simpl. reflexivity.
    + simpl. auto.
  - intros i Bi Ei j Hj. rewrite EB, nth_error_map in Ei.
    destruct (nth_error (adjacent_sizes layer_sizes_) i) as [[n m] |]; simpl in Ei;
      [| discriminate].
    injection Ei as <-. simpl in Hj. apply item_tabulate; lia.
Qed.

(** X2. Construction succeeds exactly when the list lengths match and the
    weight-init name is "random", or "xavier" with no two adjacent layers
    that are both empty (case ignored). *)
Theorem init_succeeds_iff (layer_sizes_ : list nat) (activations : list string)
    (wd : float) (weight_init : string) (log_each : bool)
    (uniform randn : nat -> nat -> nat -> float) :
  is_ok (__init__ layer_sizes_ activations wd weight_init log_each uniform randn)
    = true <->
  List.length layer_sizes_ = List.length activations + 1 /\
  (lower weight_init = "random"%string \/
   (lower weight_init = "xavier"%string /\
    forall i, i + 1 < List.length layer_sizes_ ->
      nth i layer_sizes_ 0 + nth (i + 1) layer_sizes_ 0 <> 0)).
Proof.
  unfold __init__.
  destruct (Nat.eqb_spec (List.length layer_sizes_) (List.length activations + 1))
    as [Hlen | Hlen]; simpl negb; cbv iota.
  2: { split; [discriminate | intros [H _]; contradiction]. }
  destruct (String.eqb_spec (lower weight_init) "random") as [Er | Er].
  { split; [intros _; auto | reflexivity]. }
  destruct (String.eqb_spec (lower weight_init) "xavier") as [Ex | Ex].
  2: { split; [discriminate | intros [_ [H | [H _]]]; contradiction]. }
  destruct (existsb (fun '(n, m) => n + m =? 0) (adjacent_sizes layer_sizes_))
    eqn:Ezero; simpl.
  - split; [discriminate |].
    intros [_ [H | [_ H]]]; [contradiction |].
    apply existsb_exists in Ezero. destruct Ezero as [[n m] [Hin Hz]].
    apply In_nth_error in Hin. destruct Hin as [i Hi].
    assert (Hlt : i < List.length layer_sizes_ - 1).
    { rewrite <- length_adjacent_sizes. apply nth_error_Some. rewrite Hi. discriminate. }
    rewrite nth_error_adjacent_sizes in Hi by exact Hlt.
    injection Hi as <- <-. apply Nat.eqb_eq in Hz.
    exfalso. apply (H i); lia.
  - split; [| reflexivity]. intros _. split; [exact Hlen | right].
    split; [exact Ex |]. intros i Hi Hz.
    assert (Hin : In (nth (i + 1) layer_sizes_ 0, nth i layer_sizes_ 0)
                    (adjacent_sizes layer_sizes_)).
    { apply (nth_error_In _ i). apply nth_error_adjacent_sizes. lia. }
    assert (Hex : existsb (fun '(n, m) => n + m =? 0) (adjacent_sizes layer_sizes_) = true).
    { apply existsb_exists. eexists. split; [exact Hin |]. simpl.
      apply Nat.eqb_eq. lia. }
    rewrite Hex in Ezero. discriminate.
Qed.

(* ================================================================== *)
(** ** Attaching an optimizer *)

Lemma with_optimizer_same (self : NeuralNetwork) :
  with_optimizer (optimizer self) self = self.
Proof. destruct self; reflexivity. Qed.

(** X3. [set_optimizer] touches nothing but [self.optimizer]: when it
    raises the network is exactly as before (an optimizer attached
    earlier stays), and when it returns the optimizer, attached before or
    not, is replaced by a new object of the class that the lower-cased
    name selects. *)
Theorem set_optimizer_effect (optimizer_dict : dict) (self : NeuralNetwork) :
  (forall e, run (set_optimizer optimizer_dict) self = Err e ->
     exec (set_optimizer optimizer_dict) self = self) /\
  (run (set_optimizer optimizer_dict) self = Ok tt ->
     exists name cls st,
       dict_get optimizer_dict "name" = Ok (PStr name) /\
       optimizer_map (lower name) = Some cls /\
       optimizer_init cls (W self) (B self)
         (dict_update optimizer_dict "LOG_EACH" (PBool (LOG_EACH self))) = Ok st /\
       exec (set_optimizer optimizer_dict) self
         = with_optimizer (Some (mk_optimizer cls st)) self).
Proof.
  unfold run, exec, set_optimizer, bind, lift, gets, modify, raise.
  destruct (dict_get optimizer_dict "name") as [name |]; simpl;
    [| split; [reflexivity | discriminate]].
  destruct name as [name | x | b]; simpl;
    try (split; [reflexivity | discriminate]).
  destruct (optimizer_map (lower name)) as [cls |] eqn:Emap; simpl;
    [| split; [reflexivity | discriminate]].
  destruct (optimizer_init cls (W self) (B self) _) as [st |] eqn:Einit; simpl.
  - split; [discriminate |]. intros _.
    exists name, cls, st. auto.
  - split; [reflexivity | discriminate].
Qed.

Lemma dict_get_update_other (d : dict) (k k' : string) (v : pyvalue) :
  k' <> k -> dict_get (dict_update d k v) k' = dict_get d k'.
Proof.
  intros Hne. induction d as [| [k0 v0] d IH]; simpl.
  - destruct (String.eqb_spec k k'); [congruence | reflexivity].
  - destruct (String.eqb_spec k0 k) as [-> | Hk0]; simpl.
    + destruct (String.eqb_spec k k'); [congruence | reflexivity].
    + destruct (String.eqb_spec k0 k'); [reflexivity | exact IH].
Qed.

Lemma dict_get_update_same (d : dict) (k : string) (v : pyvalue) :
  dict_get (dict_update d k v) k = Ok v.
Proof.
  induction d as [| [k0 v0] d IH]; simpl.
  - rewrite String.eqb_refl. reflexivity.
  - destruct (String.eqb_spec k0 k) as [-> | Hk0]; simpl.
    + rewrite String.eqb_refl. reflexivity.
    + destruct (String.eqb_spec k0 k); [contradiction | exact IH].
Qed.

Lemma dict_update_update (d : dict) (k : string) (v v' : pyvalue) :
  dict_update (dict_update d k v) k v' = dict_update d k v'.
Proof.
  induction d as [| [k0 v0] d IH]; simpl.
  - rewrite String.eqb_refl. reflexivity.
  - destruct (String.eqb_spec k0 k) as [-> | Hk0]; simpl.
    + rewrite String.eqb_refl. reflexivity.
    + destruct (String.eqb_spec k0 k); [contradiction |]. rewrite IH. reflexivity.
Qed.

(** X4. A [LOG_EACH] entry that the caller puts into the optimizer dict
    has no effect: [set_optimizer] overwrites it with the network's own
    flag before the optimizer is constructed, and every other entry
    reaches the constructor as given. *)
Theorem set_optimizer_overrides_log_each (optimizer_dict : dict) (v : pyvalue)
    (self : NeuralNetwork) :
  set_optimizer (dict_update optimizer_dict "LOG_EACH" v) self
    = set_optimizer optimizer_dict self /\
  let passed := dict_update optimizer_dict "LOG_EACH" (PBool (LOG_EACH self)) in
  dict_get passed "LOG_EACH" = Ok (PBool (LOG_EACH self)) /\
  forall k, k <> "LOG_EACH"%string -> dict_get passed k = dict_get optimizer_dict k.
Proof.
  split; [| split].
  - unfold set_optimizer, bind, lift, gets.
    rewrite dict_get_update_other by discriminate.
    destruct (dict_get optimizer_dict "name") as [name |]; [| reflexivity].
    destruct (pylower name) as [key |]; [| reflexivity].
    destruct (optimizer_map key); [| reflexivity].
    rewrite dict_update_update. reflexivity.
  - apply dict_get_update_same.
  - intros k Hk. apply dict_get_update_other. exact Hk.
Qed.

(* ================================================================== *)
(** ** Shapes *)

Lemma broadcast_dim_same (n : nat) : broadcast_dim n n = Ok n.
Proof. unfold broadcast_dim. rewrite Nat.eqb_refl. reflexivity. Qed.

Lemma broadcast_dim_one_r (n : nat) : broadcast_dim n 1 = Ok n.
Proof.
  unfold broadcast_dim.
  destruct (Nat.eqb_spec n 1) as [-> | Hn]; [reflexivity |].
  reflexivity.
Qed.

Lemma broadcast_dim_one_l (n : nat) : broadcast_dim 1 n = Ok n.
Proof.
  unfold broadcast_dim.
  destruct (Nat.eqb_spec 1 n) as [<- | Hn]; reflexivity.
Qed.

(** Operands of one shape. *)
Lemma broadcast_same_shape (f : float -> float -> float) (a b : ndarray) :
  same_shape a b ->
  broadcast f a b = Ok (tabulate (shape0 a) (shape1 a)
                          (fun i j => f (bitem a i j) (bitem b i j))).
Proof.
  intros [E0 E1]. unfold broadcast. rewrite <- E0, <- E1, !broadcast_dim_same.
  reflexivity.
Qed.

(** A column [(n, 1)] against an array [(n, m)]. *)
Lemma broadcast_column (f : float -> float -> float) (a b : ndarray) :
  shape0 b = shape0 a -> shape1 b = 1 ->
  broadcast f a b = Ok (tabulate (shape0 a) (shape1 a)
                          (fun i j => f (bitem a i j) (bitem b i j))).
Proof.
  intros E0 E1. unfold broadcast.
  rewrite E0, E1, broadcast_dim_same, broadcast_dim_one_r. reflexivity.
Qed.

(** A row [(1, m)] added to an array [(n, m)]. *)
Lemma broadcast_row (f : float -> float -> float) (a b : ndarray) :
  shape0 b = 1 -> shape1 b = shape1 a ->
  broadcast f a b = Ok (tabulate (shape0 a) (shape1 a)
                          (fun i j => f (bitem a i j) (bitem b i j))).
Proof.
  intros E0 E1. unfold broadcast.
  rewrite E0, E1, broadcast_dim_same, broadcast_dim_one_r. reflexivity.
Qed.

Lemma bitem_in_range (a : ndarray) (i j : nat) :
  i < shape0 a -> j < shape1 a -> bitem a i j = item a i j.
Proof.
  intros Hi Hj. unfold bitem, bidx.
  destruct (Nat.eqb_spec (shape0 a) 1); destruct (Nat.eqb_spec (shape1 a) 1);
    f_equal; lia.
Qed.

Lemma broadcast_shape (f : float -> float -> float) (a b r : ndarray) :
  broadcast f a b = Ok r ->
  broadcast_dim (shape0 a) (shape0 b) = Ok (shape0 r) /\
  broadcast_dim (shape1 a) (shape1 b) = Ok (shape1 r).
Proof.
  unfold broadcast.
  destruct (broadcast_dim (shape0 a) (shape0 b)) as [n |]; simpl; [| discriminate].
  destruct (broadcast_dim (shape1 a) (shape1 b)) as [m |]; simpl; [| discriminate].
  intros E. injection E as <-. auto.
Qed.

Lemma activate_supported_cases (activation : string) :
  supported_activation activation = true ->
  lower activation = "sigmoid"%string \/ lower activation = "relu"%string \/
  lower activation = "tanh"%string \/ lower activation = "softmax"%string \/
  lower activation = "identity"%string.
Proof.
  unfold supported_activation. simpl. intros Hs.
  repeat (apply orb_true_iff in Hs; destruct Hs as [Hs | Hs]);
    try (apply String.eqb_eq in Hs; rewrite Hs; tauto).
  discriminate.
Qed.

Lemma activate_softmax (A : ndarray) (activation : string) :
  lower activation = "softmax"%string ->
  activate A activation =
  (mx <~ max_axis1 A;
   shifted <~ broadcast PrimFloat.sub A mx;
   let exps := map_array np_exp shifted in
   broadcast PrimFloat.div exps (sum_axis1 exps))%result.
Proof. intros E. unfold activate. rewrite E. reflexivity. Qed.

(** Softmax on an array with at least one column. *)
Lemma softmax_runs (A : ndarray) :
  shape1 A <> 0 ->
  exists H, (mx <~ max_axis1 A;
             shifted <~ broadcast PrimFloat.sub A mx;
             let exps := map_array np_exp shifted in
             broadcast PrimFloat.div exps (sum_axis1 exps))%result = Ok H
            /\ same_shape H A.
Proof.
  intros Hc. unfold max_axis1.
  destruct (Nat.eqb_spec (shape1 A) 0); [contradiction |]. simpl.
  rewrite broadcast_column by reflexivity. simpl.
  rewrite broadcast_column by reflexivity.
  eexists. split; [reflexivity | split; reflexivity].
Qed.

(** A supported activation returns an array of the shape of its input. *)
Lemma activate_runs (A : ndarray) (activation : string) :
  supported_activation activation = true ->
  (lower activation = "softmax"%string -> shape1 A <> 0) ->
  exists H, activate A activation = Ok H /\ same_shape H A.
Proof.
  intros Hs Hc.
  destruct (activate_supported_cases _ Hs) as [E | [E | [E | [E | E]]]];
    [unfold activate; rewrite E; simpl ..
    | rewrite (activate_softmax A activation E)
    | unfold activate; rewrite E; simpl].
  1-3, 5: eexists; split; [reflexivity | split; reflexivity].
  apply softmax_runs. exact (Hc E).
Qed.

(** X5. [activate] returns exactly for the five supported names (case
    ignored), except that softmax needs at least one column; what it
    returns has the shape of its input. *)
Theorem activate_returns_iff (A : ndarray) (activation : string) :
  (is_ok (activate A activation) = true <->
   supported_activation activation = true /\
   (lower activation = "softmax"%string -> shape1 A <> 0)) /\
  (forall H, activate A activation = Ok H -> same_shape H A).
Proof.
  assert (Hneed : forall H, activate A activation = Ok H ->
            supported_activation activation = true /\
            (lower activation = "softmax"%string -> shape1 A <> 0)).
  { intros H EH. destruct (supported_activation activation) eqn:Hs.
    - split; [reflexivity |]. intros E Hz.
      rewrite (activate_softmax A activation E) in EH.
      unfold max_axis1 in EH. rewrite Hz in EH. discriminate.
    - rewrite (activate_unsupported A activation Hs) in EH. discriminate. }
  split; [split |].
  - destruct (activate A activation) as [H |] eqn:EH; [| discriminate].
    intros _. exact (Hneed H eq_refl).
  - intros [Hs Hc]. destruct (activate_runs A activation Hs Hc) as [H [EH _]].
    rewrite EH. reflexivity.
  - intros H EH. destruct (Hneed H EH) as [Hs Hc].
    destruct (activate_runs A activation Hs Hc) as [H' [EH' Hshape]].
    rewrite EH in EH'. injection EH' as <-. exact Hshape.
Qed.

(* ================================================================== *)
(** ** Forward propagation *)

Lemma index_app_last {A : Type} (l : list A) (a : A) :
  PyList.index (l ++ [a]) (List.length l) = Ok a.
Proof.
  unfold PyList.index. rewrite nth_error_app2 by lia.
  rewrite Nat.sub_diag. reflexivity.
Qed.

(** One pass of the layer loop, the lists having the lengths the loop
    gives them. *)
Lemma run_forward_layer (self : NeuralNetwork) (H A : list ndarray) :
  run (forward_layer (List.length A) (H, A)) self =
  (Hi <~ PyList.index H (List.length A);
   r <~ layer_output self (List.length A) Hi;
   Ok (H ++ [snd r], A ++ [fst r]))%result.
Proof.
  unfold forward_layer, layer_output, run, bind, gets, lift, ret, rbind. simpl.
  destruct (PyList.index H (List.length A)) as [Hi |]; simpl; [| reflexivity].
  destruct (PyList.index (W self) (List.length A)) as [Wi |]; simpl; [| reflexivity].
  destruct (np_dot Hi (transpose Wi)) as [z |]; simpl; [| reflexivity].
  destruct (PyList.index (B self) (List.length A)) as [Bi |]; simpl; [| reflexivity].
  destruct (broadcast PrimFloat.add z Bi) as [a |]; simpl; [| reflexivity].
  rewrite index_app_last. simpl.
  destruct (PyList.index (activation_functions self) (List.length A)) as [act |];
    simpl; [| reflexivity].
  destruct (activate a act) as [h |]; reflexivity.
Qed.

(** The layer loop over layers [s .. s + n - 1]. *)
Lemma forward_loop_spec (self : NeuralNetwork) :
  forall (n s : nat) (H A H' A' : list ndarray),
    List.length H = s + 1 -> List.length A = s ->
    run (for_each (seq s n) forward_layer (H, A)) self = Ok (H', A') ->
    List.length H' = s + n + 1 /\ List.length A' = s + n /\
    (forall i, i <= s -> nth_error H' i = nth_error H i) /\
    (forall i, i < s -> nth_error A' i = nth_error A i) /\
    (forall i, s <= i < s + n ->
       exists Hi Ai Hnext,
         nth_error H' i = Some Hi /\ nth_error A' i = Some Ai /\
         nth_error H' (i + 1) = Some Hnext /\
         layer_output self i Hi = Ok (Ai, Hnext)).
Proof.
  induction n as [| n IH]; intros s H A H' A' HlH HlA Hrun.
  - simpl in Hrun. injection Hrun as <- <-.
    repeat split; try lia; auto.
  - simpl seq in Hrun. rewrite for_each_cons in Hrun.
    rewrite run_bind_readonly in Hrun by apply readonly_forward_layer.
    rewrite <- HlA in Hrun at 1. rewrite run_forward_layer in Hrun. rewrite HlA in Hrun.
    destruct (PyList.index H s) as [Hs |] eqn:EHs; simpl in Hrun; [| discriminate].
    destruct (layer_output self s Hs) as [[a h] |] eqn:Elayer; simpl in Hrun;
      [| discriminate].
    apply index_ok in EHs.
    destruct (IH (S s) (H ++ [h]) (A ++ [a]) H' A') as [HlH' [HlA' [HpH [HpA Hrec]]]].
    + rewrite length_app. simpl. lia.
    + rewrite length_app. simpl. lia.
    + exact Hrun.
    + split; [lia | split; [lia | split; [| split]]].
      * intros i Hi. rewrite HpH by lia. apply nth_error_app1. lia.
      * intros i Hi. rewrite HpA by lia. apply nth_error_app1. lia.
      * intros i Hi. destruct (Nat.eq_dec i s) as [-> | Hne].
        -- exists Hs, a, h. repeat split.
           ++ rewrite HpH by lia. rewrite nth_error_app1 by lia. exact EHs.
           ++ rewrite HpA by lia. rewrite nth_error_app2 by lia.
              rewrite HlA, Nat.sub_diag. reflexivity.
           ++ rewrite HpH by lia. rewrite nth_error_app2 by lia.
              rewrite HlH. replace (s + 1 - (s + 1)) with 0 by lia. reflexivity.
           ++ exact Elayer.
        -- apply Hrec. lia.
Qed.

(** X6. What [forward_propagation] returns: [H] has [L + 1] entries and
    starts with the input, [A] has [L] entries, and layer by layer
    [A[i] = np.dot(H[i], W[i].T) + B[i]] and
    [H[i+1] = activate(A[i], kind_i)]; the lengths are the ones that
    [back_propagation] asserts. *)
Theorem forward_propagation_cache (self : NeuralNetwork) (X : ndarray)
    (H A : list ndarray) :
  run (forward_propagation X) self = Ok (H, A) ->
  List.length H = L self + 1 /\ List.length A = L self /\
  nth_error H 0 = Some X /\
  forall i, i < L self ->
    exists Hi Ai Hnext,
      nth_error H i = Some Hi /\ nth_error A i = Some Ai /\
      nth_error H (i + 1) = Some Hnext /\
      layer_output self i Hi = Ok (Ai, Hnext).
Proof.
  intros Hrun. unfold forward_propagation in Hrun.
  rewrite run_bind_readonly in Hrun by apply readonly_gets.
  change (run (gets L) self) with (Ok (L self)) in Hrun. simpl rbind in Hrun.
  destruct (forward_loop_spec self (L self) 0 [X] [] H A eq_refl eq_refl Hrun)
    as [HlH [HlA [HpH [_ Hrec]]]].
  split; [lia | split; [lia | split]].
  - rewrite HpH by lia. reflexivity.
  - intros i Hi. apply Hrec. lia.
Qed.

Lemma np_dot_shape (a b : ndarray) :
  shape1 a = shape0 b ->
  exists r, np_dot a b = Ok r /\ has_shape r (shape0 a) (shape1 b).
Proof.
  intros E. unfold np_dot. rewrite E, Nat.eqb_refl.
  eexists. split; [reflexivity | split; reflexivity].
Qed.

(** A layer of a well-shaped network applied to an input of its width. *)
Lemma layer_output_shapes (self : NeuralNetwork) (i N : nat) (Hi : ndarray) :
  well_shaped self -> activations_usable self -> i < L self ->
  has_shape Hi N (nth i (layer_sizes self) 0) ->
  exists a h,
    layer_output self i Hi = Ok (a, h) /\
    has_shape a N (nth (i + 1) (layer_sizes self) 0) /\
    has_shape h N (nth (i + 1) (layer_sizes self) 0).
Proof.
  intros [Hls [Hla [HlW [HlB Hshapes]]]] Hacts Hlt [EN Ec].
  destruct (Hshapes i Hlt) as [Wi [Bi [EW [EB [EW0 [EW1 [EB0 EB1]]]]]]].
  assert (Eact : exists act, nth_error (activation_functions self) i = Some act).
  { destruct (nth_error (activation_functions self) i) eqn:E; [eauto |].
    apply nth_error_None in E. lia. }
  destruct Eact as [act Eact].
  destruct (Hacts i act Eact) as [Hsup Hsoft].
  destruct (np_dot_shape Hi (transpose Wi)) as [z [Ez [Ez0 Ez1]]].
  { simpl. lia. }
  simpl in Ez1.
  assert (Ea : broadcast PrimFloat.add z Bi
               = Ok (tabulate (shape0 z) (shape1 z)
                       (fun r c => PrimFloat.add (bitem z r c) (bitem Bi r c)))).
  { apply broadcast_row; lia. }
  set (a := tabulate (shape0 z) (shape1 z)
              (fun r c => PrimFloat.add (bitem z r c) (bitem Bi r c))) in *.
  destruct (activate_runs a act Hsup) as [h [Eh [Eh0 Eh1]]].
  { intros Es. specialize (Hsoft Es). simpl. lia. }
  exists a, h. split; [| split].
  - unfold layer_output.
    apply index_ok in EW. apply index_ok in EB. apply index_ok in Eact.
    rewrite EW. simpl. rewrite Ez. simpl. rewrite EB. simpl. rewrite Ea. simpl.
    rewrite Eact. simpl. rewrite Eh. reflexivity.
  - split; simpl; lia.
  - split; simpl in *; lia.
Qed.

(** On a well-shaped network the layer loop runs through, and every
    array it appends has the batch size and the width of its layer. *)
Lemma forward_loop_runs (self : NeuralNetwork) (N : nat) :
  well_shaped self -> activations_usable self ->
  forall (n s : nat) (H A : list ndarray),
    s + n <= L self ->
    List.length H = s + 1 -> List.length A = s ->
    (exists Hs, nth_error H s = Some Hs /\
                has_shape Hs N (nth s (layer_sizes self) 0)) ->
    exists H' A',
      run (for_each (seq s n) forward_layer (H, A)) self = Ok (H', A') /\
      (forall i, s < i <= s + n ->
         exists Hi, nth_error H' i = Some Hi /\
                    has_shape Hi N (nth i (layer_sizes self) 0)) /\
      (forall i, s <= i < s + n ->
         exists Ai, nth_error A' i = Some Ai /\
                    has_shape Ai N (nth (i + 1) (layer_sizes self) 0)).
Proof.
  intros Hws Hacts.
  induction n as [| n IH]; intros s H A Hle HlH HlA [Hs [EHs HsS]].
  - exists H, A. split; [reflexivity | split; intros i Hi; lia].
  - destruct (layer_output_shapes self s N Hs Hws Hacts ltac:(lia) HsS)
      as [a [h [Elayer [Ha Hh]]]].
    destruct (IH (S s) (H ++ [h]) (A ++ [a])) as [H' [A' [Hrun [HH HA]]]].
    + lia.
    + rewrite length_app. simpl. lia.
    + rewrite length_app. simpl. lia.
    + exists h. split; [| replace (S s) with (s + 1) by lia; exact Hh].
      rewrite nth_error_app2 by lia. rewrite HlH.
      replace (S s - (s + 1)) with 0 by lia. reflexivity.
    + destruct (forward_loop_spec self n (S s) (H ++ [h]) (A ++ [a]) H' A')
        as [_ [_ [HpH [HpA _]]]].
      { rewrite length_app. simpl. lia. }
      { rewrite length_app. simpl. lia. }
      { exact Hrun. }
      exists H', A'. split; [| split].
      * simpl seq. rewrite for_each_cons.
        rewrite run_bind_readonly by apply readonly_forward_layer.
        rewrite <- HlA at 1. rewrite run_forward_layer. rewrite HlA.
        apply index_ok in EHs. rewrite EHs. simpl. rewrite Elayer. simpl.
        exact Hrun.
      * intros i Hi. destruct (Nat.eq_dec i (s + 1)) as [-> | Hne].
        -- exists h. split; [| exact Hh].
           rewrite HpH by lia. rewrite nth_error_app2 by lia.
           rewrite HlH, Nat.sub_diag. reflexivity.
        -- apply HH. lia.
      * intros i Hi. destruct (Nat.eq_dec i s) as [-> | Hne].
        -- exists a. split; [| exact Ha].
           rewrite HpA by lia. rewrite nth_error_app2 by lia.
           rewrite HlA, Nat.sub_diag. reflexivity.
        -- apply HA. lia.
Qed.

(** The forward pass of a well-shaped network on an input of its width. *)
Lemma forward_propagation_runs (self : NeuralNetwork) (X : ndarray) :
  well_shaped self -> activations_usable self ->
  shape1 X = nth 0 (layer_sizes self) 0 ->
  exists H A,
    run (forward_propagation X) self = Ok (H, A) /\
    List.length H = L self + 1 /\ List.length A = L self /\
    (forall i, i <= L self ->
       exists Hi, nth_error H i = Some Hi /\
                  has_shape Hi (shape0 X) (nth i (layer_sizes self) 0)) /\
    (forall i, i < L self ->
       exists Ai, nth_error A i = Some Ai /\
                  has_shape Ai (shape0 X) (nth (i + 1) (layer_sizes self) 0)).
Proof.
  intros Hws Hacts HX.
  destruct (forward_loop_runs self (shape0 X) Hws Hacts (L self) 0 [X] [])
    as [H [A [Hrun [HH HA]]]]; try reflexivity.
  { exists X. split; [reflexivity | split; [reflexivity | exact HX]]. }
  destruct (forward_loop_spec self (L self) 0 [X] [] H A eq_refl eq_refl Hrun)
    as [HlH [HlA [HpH _]]].
  exists H, A. split; [| split; [lia | split; [lia | split]]].
  - unfold forward_propagation.
    rewrite run_bind_readonly by apply readonly_gets. exact Hrun.
  - intros i Hi. destruct i as [| i].
    + exists X. split; [rewrite HpH by lia; reflexivity |].
      split; [reflexivity | exact HX].
    + apply HH. lia.
  - intros i Hi. apply HA. lia.
Qed.

Lemma index_from_end_last {T : Type} (l : list T) (a : T) :
  nth_error l (List.length l - 1) = Some a -> 1 <= List.length l ->
  PyList.index_from_end l 1 = Ok a.
Proof.
  intros E Hl. unfold PyList.index_from_end.
  destruct (Nat.leb_spec 1 (List.length l)); [| lia]. cbn [andb].
  simpl. apply index_ok. exact E.
Qed.

(** X7. On a network whose parameters have the shapes of its
    [layer_sizes], with supported activations (softmax only on a layer
    with at least one unit), the forward pass returns for every input of
    [layer_sizes[0]] columns: each [H[i]] is [N x layer_sizes[i]], each
    [A[i]] is [N x layer_sizes[i+1]], and [predict] returns [H[L]]. *)
Theorem forward_propagation_total (self : NeuralNetwork) (X : ndarray) :
  well_shaped self -> activations_usable self ->
  shape1 X = nth 0 (layer_sizes self) 0 ->
  exists H A P,
    run (forward_propagation X) self = Ok (H, A) /\
    run (predict X) self = Ok P /\
    nth_error H (L self) = Some P /\
    has_shape P (shape0 X) (nth (L self) (layer_sizes self) 0) /\
    (forall i, i <= L self ->
       exists Hi, nth_error H i = Some Hi /\
                  has_shape Hi (shape0 X) (nth i (layer_sizes self) 0)) /\
    (forall i, i < L self ->
       exists Ai, nth_error A i = Some Ai /\
                  has_shape Ai (shape0 X) (nth (i + 1) (layer_sizes self) 0)).
Proof.
  intros Hws Hacts HX.
  destruct (forward_propagation_runs self X Hws Hacts HX)
    as [H [A [Hrun [HlH [HlA [HH HA]]]]]].
  destruct (HH (L self) (le_n _)) as [P [EP HP]].
  exists H, A, P. repeat split; try assumption; try apply HP.
  unfold predict. rewrite run_bind_readonly by apply readonly_forward_propagation.
  rewrite Hrun. simpl. unfold run, lift. simpl.
  apply index_from_end_last; [| lia].
  rewrite HlH. replace (L self + 1 - 1) with (L self) by lia. exact EP.
Qed.

(* ================================================================== *)
(** ** Labels: [one_hot] *)

Lemma wrap_index_mod (C : nat) (z : Z) :
  (- Z.of_nat C <= z < Z.of_nat C)%Z ->
  Z.of_nat (wrap_index C z) = (z mod Z.of_nat C)%Z.
Proof.
  intros Hz. unfold wrap_index. destruct (Z.ltb_spec z 0).
  - rewrite Z2Nat.id by lia.
    rewrite <- (Z.mod_small (z + Z.of_nat C) (Z.of_nat C)) by lia.
    rewrite <- (Z.mul_1_l (Z.of_nat C)) at 1.
    rewrite Z.mod_add by lia. reflexivity.
  - rewrite Z2Nat.id by lia. rewrite Z.mod_small by lia. reflexivity.
Qed.

(** [one_hot] on integer labels, [C] being the width of the output layer. *)
Lemma run_one_hot (self : NeuralNetwork) (v : list Z) (C : nat) :
  PyList.index_from_end (layer_sizes self) 1 = Ok C ->
  run (one_hot (Indices v)) self =
  if forallb (fun z => (- Z.of_nat C <=? z)%Z && (z <? Z.of_nat C)%Z) v
  then Ok (tabulate (List.length v) C
             (fun i j => if j =? wrap_index C (nth i v 0%Z)
                         then 1%float else 0%float))
  else Err IndexError.
Proof.
  intros EC. unfold one_hot.
  rewrite run_bind_readonly by apply readonly_gets.
  change (run (gets layer_sizes) self) with (Ok (layer_sizes self)).
  cbn [rbind]. rewrite run_bind_readonly by apply readonly_lift.
  change (run (lift (PyList.index_from_end (layer_sizes self) 1)) self)
    with (PyList.index_from_end (layer_sizes self) 1).
  rewrite EC. cbn [rbind].
  destruct (forallb _ v); reflexivity.
Qed.

Lemma labels_in_range_forallb (C : nat) (v : list Z) :
  forallb (fun z => (- Z.of_nat C <=? z)%Z && (z <? Z.of_nat C)%Z) v = true <->
  labels_in_range C v.
Proof.
  unfold labels_in_range. rewrite forallb_forall, Forall_forall.
  split; intros Hall z Hz; specialize (Hall z Hz).
  - apply andb_true_iff in Hall. destruct Hall as [E1 E2].
    apply Z.leb_le in E1. apply Z.ltb_lt in E2. lia.
  - apply andb_true_iff. split; [apply Z.leb_le | apply Z.ltb_lt]; lia.
Qed.

(** X8. [one_hot] on integer labels, [C] being the width of the output
    layer: it returns exactly when every label lies in [-C, C), the
    result is [len(y) x C] and row [i] has its single 1 in column
    [y[i] mod C], so a negative label counts from the last class; any
    other label raises IndexError. *)
Theorem one_hot_wraps (self : NeuralNetwork) (v : list Z) (C : nat) :
  PyList.index_from_end (layer_sizes self) 1 = Ok C ->
  (labels_in_range C v ->
   exists Y,
     run (one_hot (Indices v)) self = Ok Y /\
     has_shape Y (List.length v) C /\
     forall i j, i < List.length v -> j < C ->
       item Y i j = if (Z.of_nat j =? nth i v 0%Z mod Z.of_nat C)%Z
                    then 1%float else 0%float) /\
  (~ labels_in_range C v ->
   run (one_hot (Indices v)) self = Err IndexError).
Proof.
  intros EC. rewrite (run_one_hot self v C EC).
  split.
  - intros Hall. rewrite (proj2 (labels_in_range_forallb C v) Hall).
    eexists. split; [reflexivity |].
    split; [split; reflexivity |].
    intros i j Hi Hj. rewrite item_tabulate by assumption.
    unfold labels_in_range in Hall. rewrite Forall_forall in Hall.
    assert (Hz := Hall (nth i v 0%Z) (nth_In v 0%Z Hi)).
    rewrite <- (wrap_index_mod C _ Hz).
    destruct (Nat.eqb_spec j (wrap_index C (nth i v 0%Z))) as [-> | Hne].
    + rewrite Z.eqb_refl. reflexivity.
    + destruct (Z.eqb_spec (Z.of_nat j) (Z.of_nat (wrap_index C (nth i v 0%Z))));
        [lia | reflexivity].
  - intros Hnot.
    destruct (forallb (fun z => (- Z.of_nat C <=? z)%Z && (z <? Z.of_nat C)%Z) v)
      eqn:E; [| reflexivity].
    exfalso. apply Hnot. apply labels_in_range_forallb. exact E.
Qed.

(* ================================================================== *)
(** ** Accuracy *)

Lemma argmax_from_range (l : list float) :
  forall (best_i : nat) (best : float) (i : nat),
    best_i < i ->
    argmax_from best_i best i l < i + List.length l.
Proof.
  induction l as [| x l IH]; intros best_i best i Hlt; simpl; [lia |].
  destruct (PrimFloat.is_nan best); [lia |].
  destruct (negb (PrimFloat.leb x best)).
  - specialize (IH i x (S i) ltac:(lia)). lia.
  - specialize (IH best_i best (S i) ltac:(lia)). lia.
Qed.

Lemma length_row (a : ndarray) (i : nat) : List.length (row a i) = shape1 a.
Proof. unfold row. rewrite length_map, length_seq. reflexivity. Qed.

(** X9. [np.argmax(a, axis=1)] as the accuracy methods use it: it
    returns exactly when the array has at least one column, with one
    class per row, each a column index of the array. *)
Theorem argmax_axis1_classes (a : ndarray) :
  (is_ok (argmax_axis1 a) = true <-> shape1 a <> 0) /\
  forall p, argmax_axis1 a = Ok p ->
    List.length p = shape0 a /\
    Forall (fun z => (0 <= z < Z.of_nat (shape1 a))%Z) p.
Proof.
  unfold argmax_axis1. destruct (Nat.eqb_spec (shape1 a) 0) as [Hz | Hnz].
  - split; [split; [discriminate | intros Hc; contradiction] | discriminate].
  - split; [split; [intros _; exact Hnz | reflexivity] |].
    intros p E. injection E as <-. split.
    + rewrite length_map, length_seq. reflexivity.
    + apply Forall_forall. intros z Hz. apply in_map_iff in Hz.
      destruct Hz as [i [<- _]].
      assert (Hr := argmax_from_range (tl (row a i)) 0 (item a i 0) 1 ltac:(lia)).
      assert (Hl : List.length (tl (row a i)) = shape1 a - 1).
      { rewrite <- (length_row a i). destruct (row a i); simpl; lia. }
      lia.
Qed.

Lemma filter_map_length {S T : Type} (g : T -> bool) (h : S -> T) (l : list S) :
  List.length (filter g (map h l)) = List.length (filter (fun x => g (h x)) l).
Proof.
  induction l as [| x l IH]; [reflexivity |].
  simpl. destruct (g (h x)); simpl; rewrite IH; reflexivity.
Qed.

(** [np.mean(p == y)] for as many predictions as labels. *)
Lemma mean_equal_matches (p v : list Z) :
  List.length p = List.length v ->
  mean_equal p (Indices v)
    = Ok (PrimFloat.div (float_of_nat (matches p v))
            (float_of_nat (List.length v))).
Proof.
  intros Hlen. unfold mean_equal.
  rewrite Hlen, broadcast_dim_same. cbn [rbind].
  unfold matches. do 4 f_equal. apply filter_ext_in. intros j Hj. apply in_seq in Hj.
  assert (Hb : bidx (List.length v) j = j).
  { unfold bidx. destruct (Nat.eqb_spec (List.length v) 1); [lia | reflexivity]. }
  rewrite Hb. reflexivity.
Qed.

Lemma argmax_axis1_length (a : ndarray) (p : list Z) :
  argmax_axis1 a = Ok p -> List.length p = shape0 a.
Proof.
  unfold argmax_axis1. destruct (shape1 a =? 0); [discriminate |].
  intros E. injection E as <-. rewrite length_map, length_seq. reflexivity.
Qed.

(** X10. The accuracy of integer labels is the fraction of matches:
    when [predict(X)] returns the scores [P] with row-wise argmax [p],
    and there is one label per row, [compute_accuracy(X, y)] and
    [compute_accuracy_from_predictions], given either [P] or [p], all
    return the number of positions where [p] equals [y] divided by the
    number of labels. *)
Theorem accuracy_is_fraction_of_matches (self : NeuralNetwork) (X P : ndarray)
    (p v : list Z) :
  run (predict X) self = Ok P -> argmax_axis1 P = Ok p ->
  List.length v = shape0 P ->
  let accuracy := PrimFloat.div (float_of_nat (matches p v))
                    (float_of_nat (List.length v)) in
  run (compute_accuracy X (Indices v)) self = Ok accuracy /\
  compute_accuracy_from_predictions (Scores P) (Indices v) = Ok accuracy /\
  compute_accuracy_from_predictions (Classes p) (Indices v) = Ok accuracy.
Proof.
  intros EP Ep Hlen accuracy.
  assert (Hmean : mean_equal p (Indices v) = Ok accuracy).
  { apply mean_equal_matches. rewrite (argmax_axis1_length P p Ep). auto. }
  split; [| split].
  - unfold compute_accuracy.
    rewrite run_bind_readonly by apply readonly_predict. rewrite EP. cbn [rbind].
    rewrite run_bind_readonly by apply readonly_lift.
    unfold run at 1, lift at 1. simpl fst. rewrite Ep. cbn [rbind].
    exact Hmean.
  - unfold compute_accuracy_from_predictions. rewrite Ep. exact Hmean.
  - exact Hmean.
Qed.

(* ================================================================== *)
(** ** Back-propagation: shapes *)

Lemma last_layer_size (self : NeuralNetwork) :
  well_shaped self ->
  PyList.index_from_end (layer_sizes self) 1
    = Ok (nth (L self) (layer_sizes self) 0).
Proof.
  intros [Hls _]. apply index_from_end_last; [| lia].
  rewrite Hls. replace (L self + 1 - 1) with (L self) by lia.
  apply nth_error_nth'. lia.
Qed.

Lemma one_hot_shape (self : NeuralNetwork) (v : list Z) :
  well_shaped self ->
  labels_in_range (nth (L self) (layer_sizes self) 0) v ->
  exists Y, run (one_hot (Indices v)) self = Ok Y /\
            has_shape Y (List.length v) (nth (L self) (layer_sizes self) 0).
Proof.
  intros Hws Hv. rewrite (run_one_hot self v _ (last_layer_size self Hws)).
  rewrite (proj2 (labels_in_range_forallb _ v) Hv).
  eexists. split; [reflexivity | split; reflexivity].
Qed.

(** The derivative of a supported activation multiplies an error of the
    layer's shape into one of the same shape. *)
Lemma mul_derivative_shape (A H a : ndarray) (activation : string) (n m : nat) :
  supported_activation activation = true ->
  has_shape A n m -> has_shape H n m -> has_shape a n m ->
  exists d r,
    _activate_derivative A H activation = Ok d /\
    mul_operand a d = Ok r /\ has_shape r n m.
Proof.
  intros Hs [HA0 HA1] [HH0 HH1] [Ha0 Ha1].
  destruct (activate_supported_cases _ Hs) as [E | [E | [E | [E | E]]]];
    unfold _activate_derivative; rewrite E; simpl;
    eexists; eexists; (split; [reflexivity |]).
  1-3: simpl; rewrite broadcast_same_shape by (split; simpl; lia);
       split; [reflexivity | split; simpl; assumption].
  all: simpl; split; [reflexivity | split; simpl; assumption].
Qed.

(** The output-layer error step by step. *)
Lemma run_output_error (self : NeuralNetwork) (y : labels) (H A : list ndarray)
    (loss_type : string) :
  run (output_error y H A loss_type) self =
  (shortcut <~ (if String.eqb (lower loss_type) "cross_entropy"
                then (act <~ PyList.index_from_end (activation_functions self) 1;
                      Ok (String.eqb (lower act) "softmax"))
                else Ok false);
   if shortcut : bool then
     (HL <~ PyList.index_from_end H 1;
      y' <~ run (one_hot y) self;
      broadcast PrimFloat.sub HL y')
   else
     (HL <~ PyList.index_from_end H 1;
      dH <~ run (_loss_derivative HL y loss_type) self;
      AL <~ PyList.index_from_end A 1;
      act <~ PyList.index_from_end (activation_functions self) 1;
      d <~ _activate_derivative AL HL act;
      mul_operand dH d))%result.
Proof.
  unfold output_error.
  assert (Hlast : forall (T : Type) (k : string -> M T),
            run (bind last_activation k) self
            = (act <~ PyList.index_from_end (activation_functions self) 1;
               run (k act) self)%result).
  { intros T k. unfold last_activation, run, bind, gets, lift.
    destruct (PyList.index_from_end (activation_functions self) 1); reflexivity. }
  assert (Hshort : readonly
            (if String.eqb (lower loss_type) "cross_entropy"
             then bind last_activation
                    (fun act => ret (String.eqb (lower act) "softmax"))
             else ret false)).
  { unfold last_activation. readonly_auto. }
  rewrite run_bind_readonly by exact Hshort.
  destruct (String.eqb (lower loss_type) "cross_entropy").
  - rewrite Hlast.
    destruct (PyList.index_from_end (activation_functions self) 1) as [act |];
      [| reflexivity].
    cbn [rbind]. change (run (ret (String.eqb (lower act) "softmax")) self)
      with (Ok (String.eqb (lower act) "softmax")). cbn [rbind].
    destruct (String.eqb (lower act) "softmax").
    + rewrite run_bind_readonly by apply readonly_lift.
      change (run (lift (PyList.index_from_end H 1)) self)
        with (PyList.index_from_end H 1).
      destruct (PyList.index_from_end H 1) as [HL |]; [| reflexivity]. cbn [rbind].
      rewrite run_bind_readonly by apply readonly_one_hot. reflexivity.
    + rewrite run_bind_readonly by apply readonly_lift.
      change (run (lift (PyList.index_from_end H 1)) self)
        with (PyList.index_from_end H 1).
      destruct (PyList.index_from_end H 1) as [HL |]; [| reflexivity]. cbn [rbind].
      rewrite run_bind_readonly by apply readonly_loss_derivative.
      destruct (run (_loss_derivative HL y loss_type) self) as [dH |]; [| reflexivity].
      cbn [rbind].
      rewrite run_bind_readonly by apply readonly_lift.
      change (run (lift (PyList.index_from_end A 1)) self)
        with (PyList.index_from_end A 1).
      destruct (PyList.index_from_end A 1) as [AL |]; [| reflexivity]. cbn [rbind].
      rewrite Hlast. cbn [rbind]. unfold run, bind, lift.
      destruct (_activate_derivative AL HL act); reflexivity.
  - change (run (ret false) self) with (@Ok bool false). cbn [rbind].
    rewrite run_bind_readonly by apply readonly_lift.
    change (run (lift (PyList.index_from_end H 1)) self)
      with (PyList.index_from_end H 1).
    destruct (PyList.index_from_end H 1) as [HL |]; [| reflexivity]. cbn [rbind].
    rewrite run_bind_readonly by apply readonly_loss_derivative.
    destruct (run (_loss_derivative HL y loss_type) self) as [dH |]; [| reflexivity].
    cbn [rbind].
    rewrite run_bind_readonly by apply readonly_lift.
    change (run (lift (PyList.index_from_end A 1)) self)
      with (PyList.index_from_end A 1).
    destruct (PyList.index_from_end A 1) as [AL |]; [| reflexivity]. cbn [rbind].
    rewrite Hlast.
    destruct (PyList.index_from_end (activation_functions self) 1) as [act |];
      [| reflexivity].
    cbn [rbind]. unfold run, bind, lift.
    destruct (_activate_derivative AL HL act); reflexivity.
Qed.

(** The squared-error gradient on integer labels, step by step. *)
Lemma run_loss_derivative_mse (self : NeuralNetwork) (y_pred : ndarray)
    (v : list Z) (loss_type : string) :
  lower loss_type = "mse"%string \/ lower loss_type = "mean_squared_error"%string ->
  run (_loss_derivative y_pred (Indices v) loss_type) self =
  (y' <~ run (one_hot (Indices v)) self;
   diff <~ broadcast PrimFloat.sub y_pred y';
   Ok (div_by_int diff (shape0 y')))%result.
Proof.
  intros Hloss. unfold _loss_derivative.
  assert (E : String.eqb (lower loss_type) "cross_entropy" = false /\
              String.eqb (lower loss_type) "mse"
              || String.eqb (lower loss_type) "mean_squared_error" = true).
  { destruct Hloss as [-> | ->]; split; reflexivity. }
  destruct E as [-> ->].
  rewrite run_bind_readonly by apply readonly_expand_labels.
  change (expand_labels (Indices v)) with (one_hot (Indices v)).
  destruct (run (one_hot (Indices v)) self) as [y' |]; [| reflexivity].
  cbn [rbind]. unfold run, bind, lift, ret.
  destruct (broadcast PrimFloat.sub y_pred y'); reflexivity.
Qed.

(** X11. The squared-error gradient on integer labels in [-C, C), for
    predictions of shape [N x C] with [N] labels: entry [(i, j)] is
    [(y_pred[i][j] - [j = y[i] mod C]) / N]. *)
Theorem mse_gradient_entries (self : NeuralNetwork) (y_pred : ndarray)
    (v : list Z) (C : nat) (loss_type : string) :
  lower loss_type = "mse"%string \/ lower loss_type = "mean_squared_error"%string ->
  PyList.index_from_end (layer_sizes self) 1 = Ok C ->
  labels_in_range C v ->
  has_shape y_pred (List.length v) C ->
  exists G,
    run (_loss_derivative y_pred (Indices v) loss_type) self = Ok G /\
    has_shape G (List.length v) C /\
    forall i j, i < List.length v -> j < C ->
      item G i j =
      PrimFloat.div
        (PrimFloat.sub (item y_pred i j)
           (if (Z.of_nat j =? nth i v 0%Z mod Z.of_nat C)%Z then 1%float else 0%float))
        (float_of_nat (List.length v)).
Proof.
  intros Hloss EC Hv [Hp0 Hp1].
  rewrite (run_loss_derivative_mse self y_pred v loss_type Hloss).
  rewrite (run_one_hot self v C EC).
  rewrite (proj2 (labels_in_range_forallb C v) Hv). cbn [rbind].
  rewrite broadcast_same_shape by (split; simpl; assumption). cbn [rbind].
  eexists. split; [reflexivity |].
  split; [split; simpl; assumption |].
  intros i j Hi Hj. unfold div_by_int, map_array. simpl shape0. simpl shape1.
  rewrite item_tabulate by lia. rewrite item_tabulate by lia.
  rewrite !bitem_in_range by (simpl; lia).
  rewrite item_tabulate by lia.
  unfold labels_in_range in Hv. rewrite Forall_forall in Hv.
  assert (Hz := Hv (nth i v 0%Z) (nth_In v 0%Z Hi)).
  rewrite <- (wrap_index_mod C _ Hz).
  f_equal. f_equal.
  destruct (Nat.eqb_spec j (wrap_index C (nth i v 0%Z))) as [-> | Hne].
  - rewrite Z.eqb_refl. reflexivity.
  - destruct (Z.eqb_spec (Z.of_nat j) (Z.of_nat (wrap_index C (nth i v 0%Z))));
      [lia | reflexivity].
Qed.

(** The last activation of a network with at least one layer. *)
Lemma last_activation_supported (self : NeuralNetwork) :
  well_shaped self -> activations_usable self -> 1 <= L self ->
  exists act,
    PyList.index_from_end (activation_functions self) 1 = Ok act /\
    supported_activation act = true.
Proof.
  intros [_ [Hla _]] Hacts Hn.
  destruct (nth_error (activation_functions self) (L self - 1)) as [act |] eqn:E.
  - exists act. split; [| apply (Hacts _ _ E)].
    apply index_from_end_last; [| lia]. rewrite Hla. exact E.
  - apply nth_error_None in E. lia.
Qed.

(** The output-layer error of a batch of [N] samples with integer
    labels has the shape of the output layer. *)
Lemma output_error_shape (self : NeuralNetwork) (v : list Z) (H A : list ndarray)
    (loss_type : string) (HL AL : ndarray) :
  well_shaped self -> activations_usable self -> 1 <= L self ->
  PyList.index_from_end H 1 = Ok HL ->
  PyList.index_from_end A 1 = Ok AL ->
  has_shape HL (List.length v) (nth (L self) (layer_sizes self) 0) ->
  has_shape AL (List.length v) (nth (L self) (layer_sizes self) 0) ->
  labels_in_range (nth (L self) (layer_sizes self) 0) v ->
  trainable_loss self loss_type ->
  exists dA,
    run (output_error (Indices v) H A loss_type) self = Ok dA /\
    has_shape dA (List.length v) (nth (L self) (layer_sizes self) 0).
Proof.
  intros Hws Hacts Hn EH EA HHL HAL Hv Hloss.
  rewrite run_output_error. rewrite EH, EA.
  destruct (last_activation_supported self Hws Hacts Hn) as [act [Eact Hsup]].
  rewrite Eact.
  destruct (one_hot_shape self v Hws Hv) as [Y [EY [HY0 HY1]]].
  destruct HHL as [HH0 HH1].
  assert (Hmse : lower loss_type = "mse"%string \/
                 lower loss_type = "mean_squared_error"%string ->
                 exists dA,
                   (HL' <~ Ok HL;
                    dH <~ run (_loss_derivative HL' (Indices v) loss_type) self;
                    AL' <~ Ok AL;
                    act' <~ Ok act;
                    d <~ _activate_derivative AL' HL' act';
                    mul_operand dH d)%result = Ok dA /\
                   has_shape dA (List.length v) (nth (L self) (layer_sizes self) 0)).
  { intros Hm. cbn [rbind].
    rewrite (run_loss_derivative_mse self HL v loss_type Hm).
    rewrite EY. cbn [rbind].
    rewrite broadcast_same_shape by (split; lia). cbn [rbind].
    destruct (mul_derivative_shape AL HL
                (div_by_int
                   (tabulate (shape0 HL) (shape1 HL)
                      (fun i j => PrimFloat.sub (bitem HL i j) (bitem Y i j)))
                   (shape0 Y))
                act (List.length v) (nth (L self) (layer_sizes self) 0) Hsup HAL
                (conj HH0 HH1))
      as [d [r [Ed [Er Hr]]]].
    { split; simpl; assumption. }
    rewrite Ed. cbn [rbind]. exists r. split; assumption. }
  destruct Hloss as [[Ece [act' [Eact' Esoft]]] | Hm].
  - rewrite Eact in Eact'. injection Eact' as <-.
    rewrite Ece. simpl String.eqb. cbn [rbind].
    rewrite Esoft. simpl String.eqb. cbn [rbind].
    rewrite EY. cbn [rbind].
    rewrite broadcast_same_shape by (split; lia).
    eexists. split; [reflexivity | split; simpl; assumption].
  - assert (E : String.eqb (lower loss_type) "cross_entropy" = false)
      by (destruct Hm as [-> | ->]; reflexivity).
    rewrite E. cbn [rbind]. apply Hmse. exact Hm.
Qed.

Lemma weight_gradient_shape (dA Hk : ndarray) (N n c p : nat) :
  has_shape dA n c -> has_shape Hk n p ->
  exists g, weight_gradient dA Hk N = Ok g /\ has_shape g c p.
Proof.
  intros [Hd0 Hd1] [Hh0 Hh1]. unfold weight_gradient.
  destruct (np_dot_shape (transpose dA) Hk) as [r [Er [Hr0 Hr1]]].
  { simpl. lia. }
  rewrite Er. cbn [rbind]. eexists. split; [reflexivity |].
  split; simpl in *; lia.
Qed.

(** The error of hidden layer [k] has the shape of that layer. *)
Lemma hidden_error_shape (self : NeuralNetwork) (H A : list ndarray) (N k : nat)
    (dA : ndarray) :
  well_shaped self -> activations_usable self -> k + 1 < L self ->
  (forall i, i <= L self ->
     exists Hi, nth_error H i = Some Hi /\
                has_shape Hi N (nth i (layer_sizes self) 0)) ->
  (forall i, i < L self ->
     exists Ai, nth_error A i = Some Ai /\
                has_shape Ai N (nth (i + 1) (layer_sizes self) 0)) ->
  has_shape dA N (nth (k + 2) (layer_sizes self) 0) ->
  exists dA',
    hidden_error self H A k dA = Ok dA' /\
    has_shape dA' N (nth (k + 1) (layer_sizes self) 0).
Proof.
  intros Hws Hacts Hk HH HA [Hd0 Hd1].
  assert (Hws' := Hws). destruct Hws' as [Hls [Hla [HlW [HlB Hshapes]]]].
  destruct (Hshapes (k + 1) Hk) as [Wn [_ [EW [_ [EW0 [EW1 _]]]]]].
  replace (k + 1 + 1) with (k + 2) in EW0 by lia.
  destruct (HA k ltac:(lia)) as [Ak [EA HAk]].
  destruct (HH (k + 1) ltac:(lia)) as [Hn [EH HHn]].
  assert (Eact : exists act, nth_error (activation_functions self) k = Some act).
  { destruct (nth_error (activation_functions self) k) eqn:E; [eauto |].
    apply nth_error_None in E. lia. }
  destruct Eact as [act Eact].
  destruct (Hacts k act Eact) as [Hsup _].
  destruct (np_dot_shape dA Wn) as [back [Eback [Hb0 Hb1]]]; [lia |].
  destruct (mul_derivative_shape Ak Hn back act N
              (nth (k + 1) (layer_sizes self) 0) Hsup HAk HHn)
    as [d [r [Ed [Er Hr]]]].
  { split; lia. }
  exists r. split; [| exact Hr].
  unfold hidden_error.
  apply index_ok in EW. apply index_ok in EA. apply index_ok in EH.
  apply index_ok in Eact.
  rewrite EW. cbn [rbind]. rewrite Eback. cbn [rbind]. rewrite EA. cbn [rbind].
  rewrite EH. cbn [rbind]. rewrite Eact. cbn [rbind]. rewrite Ed. cbn [rbind].
  exact Er.
Qed.

(** The hidden-layer loop on a well-shaped network: it runs through and
    fills the layers below [m] with gradients of the parameters' shapes. *)
Lemma hidden_loop_shapes (self : NeuralNetwork) (H A : list ndarray) (N : nat) :
  well_shaped self -> activations_usable self ->
  (forall i, i <= L self ->
     exists Hi, nth_error H i = Some Hi /\
                has_shape Hi N (nth i (layer_sizes self) 0)) ->
  (forall i, i < L self ->
     exists Ai, nth_error A i = Some Ai /\
                has_shape Ai N (nth (i + 1) (layer_sizes self) 0)) ->
  forall (m : nat) (dA : ndarray) (dW dB : grads),
    m + 1 <= L self ->
    has_shape dA N (nth (m + 1) (layer_sizes self) 0) ->
    List.length dW = L self -> List.length dB = L self ->
    exists (dA' : ndarray) (dW' dB' : grads),
      run (for_each (rev (seq 0 m)) (hidden_layer H A N) (dA, dW, dB)) self
        = Ok (dA', dW', dB') /\
      List.length dW' = L self /\ List.length dB' = L self /\
      (forall k, k < m ->
         exists gW gB,
           nth_error dW' k = Some (Some gW) /\ nth_error dB' k = Some (Some gB) /\
           has_shape gW (nth (k + 1) (layer_sizes self) 0)
                        (nth k (layer_sizes self) 0) /\
           has_shape gB 1 (nth (k + 1) (layer_sizes self) 0)) /\
      (forall k, m <= k ->
         nth_error dW' k = nth_error dW k /\ nth_error dB' k = nth_error dB k).
Proof.
  intros Hws Hacts HH HA.
  induction m as [| m IH]; intros dA dW dB Hm HdA HlW HlB.
  - exists dA, dW, dB. split; [reflexivity |].
    split; [exact HlW | split; [exact HlB | split]].
    + intros k Hk. lia.
    + intros k _. auto.
  - destruct (hidden_error_shape self H A N m dA Hws Hacts ltac:(lia) HH HA)
      as [dAm [Eerr HdAm]].
    { replace (m + 2) with (S m + 1) by lia. exact HdA. }
    destruct (HH m ltac:(lia)) as [Hm' [EHm HHm]].
    destruct (weight_gradient_shape dAm Hm' N N _ _ HdAm HHm) as [g [Eg Hg]].
    destruct (IH dAm (PyList.replace dW m (Some g))
                (PyList.replace dB m (Some (bias_gradient dAm N))))
      as [dA' [dW' [dB' [Hrun [HlW' [HlB' [Hbelow Habove]]]]]]].
    + lia.
    + exact HdAm.
    + rewrite length_replace. exact HlW.
    + rewrite length_replace. exact HlB.
    + exists dA', dW', dB'. split; [| split; [exact HlW' | split; [exact HlB' | split]]].
      * rewrite seq_S, rev_app_distr.
        change (rev [0 + m] ++ rev (seq 0 m)) with (m :: rev (seq 0 m)).
        rewrite for_each_cons.
        rewrite run_bind_readonly by apply readonly_hidden_layer.
        rewrite run_hidden_layer.
        apply index_ok in EHm. rewrite Eerr. cbn [rbind]. rewrite EHm. cbn [rbind].
        rewrite Eg. cbn [rbind]. unfold PyList.setitem.
        destruct (Nat.ltb_spec m (List.length dW)); [| lia].
        destruct (Nat.ltb_spec m (List.length dB)); [| lia].
        cbn [rbind]. exact Hrun.
      * intros k Hk. destruct (Nat.eq_dec k m) as [-> | Hne].
        -- destruct (Habove m (le_n _)) as [EW' EB'].
           exists g, (bias_gradient dAm N). split; [| split; [| split]].
           ++ rewrite EW'. apply nth_error_replace_eq. lia.
           ++ rewrite EB'. apply nth_error_replace_eq. lia.
           ++ exact Hg.
           ++ destruct HdAm as [_ Hd1]. split; simpl; [reflexivity | exact Hd1].
        -- apply Hbelow. lia.
      * intros k Hk. destruct (Habove k ltac:(lia)) as [EW' EB'].
        rewrite EW', EB'.
        split; apply nth_error_replace_neq; lia.
Qed.

(** [layer_gradients] from its parts. *)
Lemma layer_gradients_from_loop (self : NeuralNetwork) (X : ndarray) (y : labels)
    (H A : list ndarray) (loss_type : string)
    (dAL Hprev g dA' : ndarray) (dW dB : grads) :
  1 <= L self ->
  List.length H = L self + 1 -> List.length A = L self ->
  shape0 X = size y ->
  run (output_error y H A loss_type) self = Ok dAL ->
  nth_error H (L self - 1) = Some Hprev ->
  weight_gradient dAL Hprev (shape0 X) = Ok g ->
  run (for_each (rev (seq 0 (L self - 1))) (hidden_layer H A (shape0 X))
         (dAL,
          PyList.replace (repeat None (L self)) (L self - 1) (Some g),
          PyList.replace (repeat None (L self)) (L self - 1)
            (Some (bias_gradient dAL (shape0 X))))) self
    = Ok (dA', dW, dB) ->
  run (layer_gradients X y H A loss_type) self = Ok (dW, dB).
Proof.
  intros Hn HlH HlA HN Eout EHp Eg Eloop.
  unfold layer_gradients.
  rewrite run_bind_readonly by apply readonly_gets.
  change (run (gets L) self) with (Ok (L self)). simpl rbind.
  set (n := L self) in *.
  rewrite run_bind_readonly by apply readonly_py_assert.
  rewrite HlH, HlA, (proj2 (Nat.eqb_eq (shape0 X) (size y)) HN), !Nat.eqb_refl.
  simpl.
  rewrite run_bind_readonly by apply readonly_ret. simpl.
  rewrite run_bind_readonly by apply readonly_output_error.
  rewrite Eout. simpl rbind.
  rewrite run_bind_readonly by apply readonly_output_layer.
  rewrite run_output_layer.
  assert (EH2 : PyList.index_from_end H 2 = Ok Hprev).
  { unfold PyList.index_from_end. rewrite HlH.
    destruct (Nat.leb_spec 2 (n + 1)); [| lia]. simpl.
    replace (n + 1 - 2) with (n - 1) by lia.
    apply index_ok. exact EHp. }
  rewrite EH2. simpl. rewrite Eg. simpl.
  unfold PyList.setitem_from_end, PyList.setitem. rewrite repeat_length.
  destruct (Nat.leb_spec 1 n); [| lia]. simpl.
  destruct (Nat.ltb_spec (n - 1) n); [| lia]. simpl.
  rewrite run_bind_readonly
    by (apply readonly_for_each; intros; apply readonly_hidden_layer).
  match goal with
  | |- rbind ?r ?k = _ =>
      transitivity (rbind (Ok (dA', dW, dB)) k);
      [apply (f_equal (fun x => rbind x k)); exact Eloop | reflexivity]
  end.
Qed.

(** The gradient pass before weight decay, on the cache of a forward
    pass over a well-shaped network. *)
Lemma layer_gradients_shapes (self : NeuralNetwork) (X : ndarray) (v : list Z)
    (H A : list ndarray) (loss_type : string) :
  well_shaped self -> activations_usable self -> 1 <= L self ->
  List.length H = L self + 1 -> List.length A = L self ->
  (forall i, i <= L self ->
     exists Hi, nth_error H i = Some Hi /\
                has_shape Hi (shape0 X) (nth i (layer_sizes self) 0)) ->
  (forall i, i < L self ->
     exists Ai, nth_error A i = Some Ai /\
                has_shape Ai (shape0 X) (nth (i + 1) (layer_sizes self) 0)) ->
  List.length v = shape0 X ->
  labels_in_range (nth (L self) (layer_sizes self) 0) v ->
  trainable_loss self loss_type ->
  exists dW dB,
    run (layer_gradients X (Indices v) H A loss_type) self = Ok (dW, dB) /\
    gradients_shaped self dW dB.
Proof.
  intros Hws Hacts Hn HlH HlA HH HA Hv Hrange Hloss.
  set (n := L self) in *.
  destruct (HH n (le_n _)) as [HL [EHL HHL]].
  destruct (HA (n - 1) ltac:(lia)) as [AL [EAL HAL]].
  replace (n - 1 + 1) with n in HAL by lia.
  destruct (HH (n - 1) ltac:(lia)) as [Hprev [EHp HHp]].
  assert (EH1 : PyList.index_from_end H 1 = Ok HL).
  { apply index_from_end_last; [| lia]. rewrite HlH.
    replace (n + 1 - 1) with n by lia. exact EHL. }
  assert (EA1 : PyList.index_from_end A 1 = Ok AL).
  { apply index_from_end_last; [| lia]. rewrite HlA. exact EAL. }
  rewrite <- Hv in HHL, HAL.
  destruct (output_error_shape self v H A loss_type HL AL Hws Hacts Hn EH1 EA1
              HHL HAL Hrange Hloss) as [dAL [Eout HdAL]].
  rewrite Hv in HdAL.
  destruct (weight_gradient_shape dAL Hprev (shape0 X) _ _ _ HdAL HHp) as [g [Eg Hg]].
  destruct (hidden_loop_shapes self H A (shape0 X) Hws Hacts HH HA (n - 1) dAL
              (PyList.replace (repeat None n) (n - 1) (Some g))
              (PyList.replace (repeat None n) (n - 1)
                 (Some (bias_gradient dAL (shape0 X)))))
    as [dA' [dW [dB [Eloop [HlW [HlB [Hbelow Habove]]]]]]].
  { fold n. lia. }
  { replace (n - 1 + 1) with n by lia. exact HdAL. }
  { rewrite length_replace, repeat_length. reflexivity. }
  { rewrite length_replace, repeat_length. reflexivity. }
  exists dW, dB. split.
  - apply (layer_gradients_from_loop self X (Indices v) H A loss_type
             dAL Hprev g dA' dW dB); try assumption.
    simpl. symmetry. exact Hv.
  - split; [exact HlW | split; [exact HlB |]].
    intros k Hk.
    destruct Hws as [Hls [Hla [HlWs [HlBs Hshapes]]]].
    destruct (Hshapes k Hk) as [Wk [Bk [EW [EB [EW0 [EW1 [EB0 EB1]]]]]]].
    assert (Hfilled : exists gW gB,
              nth_error dW k = Some (Some gW) /\ nth_error dB k = Some (Some gB) /\
              has_shape gW (nth (k + 1) (layer_sizes self) 0)
                           (nth k (layer_sizes self) 0) /\
              has_shape gB 1 (nth (k + 1) (layer_sizes self) 0)).
    { destruct (Nat.eq_dec k (n - 1)) as [-> | Hne].
      - destruct (Habove (n - 1) (le_n _)) as [EW' EB'].
        exists g, (bias_gradient dAL (shape0 X)). split; [| split; [| split]].
        + rewrite EW'. apply nth_error_replace_eq. rewrite repeat_length. lia.
        + rewrite EB'. apply nth_error_replace_eq. rewrite repeat_length. lia.
        + replace (n - 1 + 1) with n by lia. exact Hg.
        + replace (n - 1 + 1) with n by lia.
          destruct HdAL as [_ Hd1]. split; simpl; [reflexivity | exact Hd1].
      - apply Hbelow. fold n in Hk. lia. }
    destruct Hfilled as [gW [gB [EgW [EgB [[HW0 HW1] [HB0 HB1]]]]]].
    exists gW, gB, Wk, Bk. repeat split; try assumption; lia.
Qed.

(** [back_propagation] as the gradient pass followed by the decay loop. *)
Lemma run_back_propagation (self : NeuralNetwork) (X : ndarray) (y : labels)
    (H A : list ndarray) (loss_type : string) :
  run (back_propagation X y H A loss_type) self =
  (p <~ run (layer_gradients X y H A loss_type) self;
   if PrimFloat.ltb 0%float (weight_decay self)
   then (dW' <~ run (for_each (seq 0 (List.length (W self))) decay_layer (fst p)) self;
         Ok (dW', snd p))
   else Ok p)%result.
Proof.
  unfold back_propagation.
  rewrite run_bind_readonly by apply readonly_layer_gradients.
  destruct (run (layer_gradients X y H A loss_type) self) as [[dW dB] |];
    [| reflexivity].
  cbn [rbind fst snd].
  rewrite run_bind_readonly by apply readonly_gets.
  change (run (gets weight_decay) self) with (Ok (weight_decay self)). cbn [rbind].
  destruct (PrimFloat.ltb 0%float (weight_decay self)); [| reflexivity].
  rewrite run_bind_readonly by apply readonly_gets.
  change (run (gets W) self) with (Ok (W self)). cbn [rbind].
  rewrite run_bind_readonly
    by (apply readonly_for_each; intros; apply readonly_decay_layer).
  destruct (run (for_each (seq 0 (List.length (W self))) decay_layer dW) self);
    reflexivity.
Qed.

(** [back_propagation] on a cache of the right shapes. *)
Lemma back_propagation_shapes (self : NeuralNetwork) (X : ndarray) (v : list Z)
    (H A : list ndarray) (loss_type : string) :
  well_shaped self -> activations_usable self -> 1 <= L self ->
  List.length H = L self + 1 -> List.length A = L self ->
  (forall i, i <= L self ->
     exists Hi, nth_error H i = Some Hi /\
                has_shape Hi (shape0 X) (nth i (layer_sizes self) 0)) ->
  (forall i, i < L self ->
     exists Ai, nth_error A i = Some Ai /\
                has_shape Ai (shape0 X) (nth (i + 1) (layer_sizes self) 0)) ->
  List.length v = shape0 X ->
  labels_in_range (nth (L self) (layer_sizes self) 0) v ->
  trainable_loss self loss_type ->
  exists dW dB,
    run (back_propagation X (Indices v) H A loss_type) self = Ok (dW, dB) /\
    gradients_shaped self dW dB.
Proof.
  intros Hws Hacts Hn HlH HlA HH HA Hv Hrange Hloss.
  destruct (layer_gradients_shapes self X v H A loss_type Hws Hacts Hn HlH HlA
              HH HA Hv Hrange Hloss) as [dW [dB [Egrad Hshaped]]].
  rewrite run_back_propagation, Egrad. cbn [rbind fst snd].
  destruct (PrimFloat.ltb 0%float (weight_decay self)).
  - destruct Hshaped as [HlW [HlB Hk]].
    destruct (decay_loop_spec self (List.length (W self)) 0 dW)
      as [dW' [Edecay [HlW' [Hin Hout]]]].
    { intros i Hi. destruct Hws as [_ [_ [HlWs _]]].
      destruct (Hk i ltac:(lia)) as [gW [gB [Wk [Bk [EgW [_ [EW [_ [[S0 S1] _]]]]]]]]].
      exists gW, Wk. repeat split; try assumption; lia. }
    rewrite Edecay. cbn [rbind].
    exists dW', dB. split; [reflexivity |].
    split; [lia | split; [exact HlB |]].
    intros k Hlt. destruct Hws as [_ [_ [HlWs _]]].
    destruct (Hk k Hlt) as [gW [gB [Wk [Bk [EgW [EgB [EW [EB [[S0 S1] SB]]]]]]]]].
    destruct (Hin k ltac:(lia)) as [g0 [Wi [Eg0 [EWi Edec]]]].
    rewrite EgW in Eg0. injection Eg0 as <-.
    rewrite EW in EWi. injection EWi as <-.
    exists (decayed (weight_decay self) gW Wk), gB, Wk, Bk.
    split; [exact Edec | split; [exact EgB | split; [exact EW | split; [exact EB |]]]].
    split; [split; simpl; assumption | exact SB].
  - exists dW, dB. split; [reflexivity | exact Hshaped].
Qed.

(** X12. One training step's gradients cannot fail on well-formed
    input: for a well-shaped network with at least one layer, supported
    activations, an input of [layer_sizes[0]] columns, one integer label
    in [-C, C) per row, and cross-entropy on a softmax output or the
    squared error, [back_propagation] on the cache of
    [forward_propagation] returns, with or without weight decay, and
    every [dW[k]], [dB[k]] has the shape of [W[k]], [B[k]]. *)
Theorem back_propagation_total (self : NeuralNetwork) (X : ndarray) (v : list Z)
    (loss_type : string) :
  well_shaped self -> activations_usable self -> 1 <= L self ->
  shape1 X = nth 0 (layer_sizes self) 0 ->
  List.length v = shape0 X ->
  labels_in_range (nth (L self) (layer_sizes self) 0) v ->
  trainable_loss self loss_type ->
  exists H A dW dB,
    run (forward_propagation X) self = Ok (H, A) /\
    run (back_propagation X (Indices v) H A loss_type) self = Ok (dW, dB) /\
    gradients_shaped self dW dB.
Proof.
  intros Hws Hacts Hn HX Hv Hrange Hloss.
  destruct (forward_propagation_runs self X Hws Hacts HX)
    as [H [A [Hrun [HlH [HlA [HH HA]]]]]].
  destruct (back_propagation_shapes self X v H A loss_type Hws Hacts Hn HlH HlA
              HH HA Hv Hrange Hloss) as [dW [dB [Eback Hshaped]]].
  exists H, A, dW, dB. split; [exact Hrun | split; [exact Eback | exact Hshaped]].
Qed.

(* ================================================================== *)
(** ** Back-propagation: what a call that returns went through *)

(** A decay loop that ran through kept the list's length and every
    filled entry filled. *)
Lemma decay_loop_keeps (self : NeuralNetwork) :
  forall (n s : nat) (dW dW' : grads),
    run (for_each (seq s n) decay_layer dW) self = Ok dW' ->
    List.length dW' = List.length dW /\
    forall i, (exists g, nth_error dW i = Some (Some g)) ->
              exists g', nth_error dW' i = Some (Some g').
Proof.
  induction n as [| n IH]; intros s dW dW' Hrun.
  - simpl in Hrun. injection Hrun as <-. auto.
  - simpl seq in Hrun. rewrite for_each_cons in Hrun.
    rewrite run_bind_readonly in Hrun by apply readonly_decay_layer.
    rewrite run_decay_layer in Hrun.
    destruct (PyList.index dW s) as [[g |] |]; simpl in Hrun; try discriminate.
    + destruct (PyList.index (W self) s) as [Wi |]; simpl in Hrun; [| discriminate].
      destruct (broadcast_inplace PrimFloat.add g
                  (map_array (PrimFloat.mul (weight_decay self)) Wi)) as [g' |];
        simpl in Hrun; [| discriminate].
      destruct (PyList.setitem dW s (Some g')) as [dW1 |] eqn:Eset;
        simpl in Hrun; [| discriminate].
      apply setitem_ok in Eset. destruct Eset as [Hs ->].
      destruct (IH (S s) _ dW' Hrun) as [Hlen Hkeep].
      rewrite length_replace in Hlen. split; [exact Hlen |].
      intros i [g0 Eg0]. apply Hkeep.
      destruct (Nat.eq_dec s i) as [<- | Hne].
      * exists g'. apply nth_error_replace_eq. exact Hs.
      * exists g0. rewrite nth_error_replace_neq by exact Hne. exact Eg0.
    + destruct (PyList.index (W self) s); simpl in Hrun; discriminate.
Qed.

(** X13. A call of [back_propagation] that returns had a network of at
    least one layer, caches of [L + 1] and [L] arrays and as many labels
    as rows of [X]; the lists it returns have [L] entries each and none
    of them is [None]. *)
Theorem back_propagation_returns_filled (self : NeuralNetwork) (X : ndarray)
    (y : labels) (H A : list ndarray) (loss_type : string) (dW dB : grads) :
  run (back_propagation X y H A loss_type) self = Ok (dW, dB) ->
  1 <= L self /\
  List.length H = L self + 1 /\ List.length A = L self /\
  shape0 X = size y /\
  List.length dW = L self /\ List.length dB = L self /\
  forall k, k < L self ->
    exists gW gB,
      nth_error dW k = Some (Some gW) /\ nth_error dB k = Some (Some gB).
Proof.
  intros Hrun. rewrite run_back_propagation in Hrun.
  destruct (run (layer_gradients X y H A loss_type) self) as [[G dB0] |] eqn:Egrad;
    [| discriminate].
  cbn [rbind fst snd] in Hrun.
  assert (Hn : 1 <= L self).
  { destruct (layer_gradients_inv _ _ _ _ _ _ _ _ Egrad)
      as [? [? [? [? [Hn _]]]]]. exact Hn. }
  destruct (proj1 (layer_gradients_chain _ _ _ _ _ _ _ _) Egrad)
    as [HlH [HlA [HN [ds [_ [HlG [HlB [_ [_ Hentries]]]]]]]]].
  assert (Hfilled : forall k, k < L self ->
            exists gW gB,
              nth_error G k = Some (Some gW) /\ nth_error dB0 k = Some (Some gB)).
  { intros k Hk.
    destruct (Hentries k Hk) as [dAk [_ [Hk' [g [_ [_ [EG EB]]]]]]].
    eauto. }
  destruct (PrimFloat.ltb 0%float (weight_decay self)).
  - destruct (run (for_each (seq 0 (List.length (W self))) decay_layer G) self)
      as [dW' |] eqn:Edecay; [| discriminate].
    cbn [rbind] in Hrun. injection Hrun as <- <-.
    destruct (decay_loop_keeps self _ _ _ _ Edecay) as [Hlen Hkeep].
    repeat split; try assumption; try lia.
    intros k Hk. destruct (Hfilled k Hk) as [gW [gB [EG EB]]].
    destruct (Hkeep k (ex_intro _ gW EG)) as [g' Eg'].
    exists g', gB. split; assumption.
  - injection Hrun as <- <-.
    repeat split; try assumption.
Qed.

(** The second assertion of [back_propagation]: [N == y.size]. *)
Lemma layer_gradients_size_assertion (self : NeuralNetwork) (X : ndarray)
    (y : labels) (H A : list ndarray) (loss_type : string) :
  shape0 X <> size y ->
  run (layer_gradients X y H A loss_type) self = Err (AssertionError "").
Proof.
  intros HN. unfold layer_gradients.
  rewrite run_bind_readonly by apply readonly_gets.
  change (run (gets L) self) with (Ok (L self)). cbn [rbind].
  rewrite run_bind_readonly by apply readonly_py_assert.
  destruct ((List.length H =? L self + 1) && (List.length A =? L self));
    [| reflexivity].
  cbn [py_assert]. change (run (ret tt) self) with (@Ok unit tt). cbn [rbind].
  rewrite run_bind_readonly by apply readonly_py_assert.
  apply Nat.eqb_neq in HN. rewrite HN. reflexivity.
Qed.

Lemma one_hot_size (X m : ndarray) :
  shape0 m = shape0 X -> 0 < shape0 X -> shape1 m <> 1 ->
  shape0 X <> size (OneHot m).
Proof. intros Hrows Hpos Hclasses. simpl. rewrite Hrows. nia. Qed.

(** X14. [back_propagation] compares the rows of [X] with [y.size], the
    number of all entries of [y], so one-hot labels, which [compute_loss]
    accepts, fail its assertion: with a one-hot [y] of one row per sample
    and a number of classes other than one, a non-empty batch raises
    AssertionError. *)
Theorem back_propagation_rejects_one_hot (self : NeuralNetwork) (X m : ndarray)
    (H A : list ndarray) (loss_type : string) :
  shape0 m = shape0 X -> 0 < shape0 X -> shape1 m <> 1 ->
  exists msg,
    run (back_propagation X (OneHot m) H A loss_type) self
      = Err (AssertionError msg).
Proof.
  intros Hrows Hpos Hclasses.
  rewrite run_back_propagation.
  rewrite (layer_gradients_size_assertion self X (OneHot m) H A loss_type
             (one_hot_size X m Hrows Hpos Hclasses)).
  exists ""%string. reflexivity.
Qed.

(* ================================================================== *)
(** ** Back-propagation: the documented formulas *)

Lemma tabulate_ext (n m : nat) (f g : nat -> nat -> float) :
  (forall i j, i < n -> j < m -> f i j = g i j) ->
  tabulate n m f = tabulate n m g.
Proof.
  intros E. unfold tabulate. f_equal.
  apply map_ext_in. intros i Hi. apply in_seq in Hi.
  apply map_ext_in. intros j Hj. apply in_seq in Hj.
  apply E; lia.
Qed.

(** Row [r] of [a.T] is column [r] of [a]. *)
Lemma row_transpose (a : ndarray) (r : nat) :
  r < shape1 a -> row (transpose a) r = col a r.
Proof.
  intros Hr. unfold row, col.
  change (shape1 (transpose a)) with (shape0 a).
  apply map_ext_in. intros i Hi. apply in_seq in Hi.
  unfold transpose. rewrite item_tabulate by lia. reflexivity.
Qed.

(** [np.dot(dA.T, Hk) / N], entry by entry. *)
Lemma weight_gradient_entries (dA Hk : ndarray) (N : nat) (g : ndarray) :
  weight_gradient dA Hk N = Ok g ->
  shape0 dA = shape0 Hk /\ g = spec_weight_gradient dA Hk N.
Proof.
  unfold weight_gradient, np_dot.
  change (shape1 (transpose dA)) with (shape0 dA).
  change (shape0 (transpose dA)) with (shape1 dA).
  destruct (Nat.eqb_spec (shape0 dA) (shape0 Hk)) as [E |]; [| discriminate].
  cbn [rbind]. intros Eg. injection Eg as <-. split; [exact E |].
  unfold div_by_int, map_array, spec_weight_gradient.
  simpl shape0. simpl shape1.
  apply tabulate_ext. intros r c Hr Hc.
  rewrite item_tabulate by lia. rewrite row_transpose by lia. reflexivity.
Qed.

(** [np.sum(dA, axis=0, keepdims=True) / N], entry by entry. *)
Lemma bias_gradient_entries (dA : ndarray) (N : nat) :
  bias_gradient dA N = spec_bias_gradient dA N.
Proof.
  unfold bias_gradient, div_by_int, map_array, sum_axis0, spec_bias_gradient.
  simpl shape0. simpl shape1.
  apply tabulate_ext. intros r c Hr Hc.
  rewrite item_tabulate by lia. reflexivity.
Qed.

(** An error [a] times the derivative of a layer of the same shape,
    entry by entry. *)
Lemma mul_derivative_entries (A H a : ndarray) (kind : string) (d : operand)
    (r : ndarray) :
  _activate_derivative A H kind = Ok d -> mul_operand a d = Ok r ->
  same_shape A a -> same_shape H a ->
  r = tabulate (shape0 a) (shape1 a)
        (fun i j =>
           PrimFloat.mul (item a i j)
             (spec_derivative kind (item A i j) (item H i j))).
Proof.
  intros Ed Er [HA0 HA1] [HH0 HH1].
  unfold _activate_derivative in Ed. unfold spec_derivative.
  revert Ed.
  destruct (String.eqb (lower kind) "sigmoid").
  { intros Ed. injection Ed as <-. cbn [mul_operand] in Er.
    rewrite broadcast_same_shape in Er by (split; simpl; lia).
    injection Er as <-. apply tabulate_ext. intros i j Hi Hj.
    rewrite !bitem_in_range by (simpl; lia).
    unfold map_array. rewrite item_tabulate by lia. reflexivity. }
  destruct (String.eqb (lower kind) "relu").
  { intros Ed. injection Ed as <-. cbn [mul_operand] in Er.
    rewrite broadcast_same_shape in Er by (split; simpl; lia).
    injection Er as <-. apply tabulate_ext. intros i j Hi Hj.
    rewrite !bitem_in_range by (simpl; lia).
    unfold map_array. rewrite item_tabulate by lia. reflexivity. }
  destruct (String.eqb (lower kind) "tanh").
  { intros Ed. injection Ed as <-. cbn [mul_operand] in Er.
    rewrite broadcast_same_shape in Er by (split; simpl; lia).
    injection Er as <-. apply tabulate_ext. intros i j Hi Hj.
    rewrite !bitem_in_range by (simpl; lia).
    unfold map_array. rewrite item_tabulate by lia. reflexivity. }
  destruct (String.eqb (lower kind) "identity").
  { intros Ed. injection Ed as <-. cbn [mul_operand] in Er.
    injection Er as <-. reflexivity. }
  destruct (String.eqb (lower kind) "softmax"); [| discriminate].
  intros Ed. injection Ed as <-. cbn [mul_operand] in Er.
  injection Er as <-. reflexivity.
Qed.

(** The error of a hidden layer, entry by entry, on a cache of the
    layer's shape. *)
Lemma hidden_error_entries (self : NeuralNetwork) (H A : list ndarray) (k : nat)
    (dAnext dAk Wnext Ak Hnext : ndarray) :
  hidden_error self H A k dAnext = Ok dAk ->
  nth_error (W self) (k + 1) = Some Wnext ->
  nth_error A k = Some Ak -> nth_error H (k + 1) = Some Hnext ->
  has_shape Ak (shape0 dAnext) (shape1 Wnext) ->
  has_shape Hnext (shape0 dAnext) (shape1 Wnext) ->
  exists kind,
    nth_error (activation_functions self) k = Some kind /\
    dAk = spec_hidden_error dAnext Wnext Ak Hnext kind.
Proof.
  intros Eh EW EA EH [SA0 SA1] [SH0 SH1]. unfold hidden_error in Eh.
  apply index_ok in EW. apply index_ok in EA. apply index_ok in EH.
  rewrite EW in Eh. cbn [rbind] in Eh.
  unfold np_dot in Eh.
  destruct (shape1 dAnext =? shape0 Wnext); [| discriminate].
  cbn [rbind] in Eh. rewrite EA in Eh. cbn [rbind] in Eh.
  rewrite EH in Eh. cbn [rbind] in Eh.
  destruct (PyList.index (activation_functions self) k) as [kind |] eqn:Ek;
    [| discriminate].
  cbn [rbind] in Eh.
  destruct (_activate_derivative Ak Hnext kind) as [d |] eqn:Ed; [| discriminate].
  cbn [rbind] in Eh.
  exists kind. split; [apply index_ok; exact Ek |].
  rewrite (mul_derivative_entries Ak Hnext _ kind d dAk Ed Eh)
    by (split; simpl; assumption).
  unfold spec_hidden_error. simpl shape0. simpl shape1.
  apply tabulate_ext. intros i j Hi Hj.
  rewrite item_tabulate by lia. reflexivity.
Qed.

(** A decay loop that ran through added [weight_decay * W[i]] to every
    entry it passed. *)
Lemma decay_loop_inv (self : NeuralNetwork) :
  forall (n s : nat) (dW dW' : grads),
    run (for_each (seq s n) decay_layer dW) self = Ok dW' ->
    (forall i, s <= i < s + n ->
       exists g0 Wi,
         nth_error dW i = Some (Some g0) /\
         nth_error (W self) i = Some Wi /\
         nth_error dW' i = Some (Some (decayed (weight_decay self) g0 Wi))) /\
    (forall i, ~ (s <= i < s + n) -> nth_error dW' i = nth_error dW i).
Proof.
  induction n as [| n IH]; intros s dW dW' Hrun.
  - simpl in Hrun. injection Hrun as <-. split; [intros i Hi; lia | auto].
  - simpl seq in Hrun. rewrite for_each_cons in Hrun.
    rewrite run_bind_readonly in Hrun by apply readonly_decay_layer.
    rewrite run_decay_layer in Hrun.
    destruct (PyList.index dW s) as [[g |] |] eqn:Eg; simpl in Hrun;
      try discriminate.
    + destruct (PyList.index (W self) s) as [Wi |] eqn:EW; simpl in Hrun;
        [| discriminate].
      destruct (broadcast_inplace PrimFloat.add g
                  (map_array (PrimFloat.mul (weight_decay self)) Wi))
        as [g' |] eqn:Eadd; simpl in Hrun; [| discriminate].
      assert (Eg' : g' = decayed (weight_decay self) g Wi).
      { unfold broadcast_inplace in Eadd.
        destruct (_ && _); [| discriminate].
        injection Eadd as <-. reflexivity. }
      subst g'.
      destruct (PyList.setitem dW s (Some (decayed (weight_decay self) g Wi)))
        as [dW1 |] eqn:Eset; simpl in Hrun; [| discriminate].
      apply setitem_ok in Eset. destruct Eset as [Hs ->].
      apply index_ok in Eg. apply index_ok in EW.
      destruct (IH (S s) _ dW' Hrun) as [Hin Hout].
      split.
      * intros i Hi. destruct (Nat.eq_dec i s) as [-> | Hne].
        -- exists g, Wi. split; [exact Eg | split; [exact EW |]].
           rewrite Hout by lia. apply nth_error_replace_eq. exact Hs.
        -- destruct (Hin i ltac:(lia)) as [g0 [Wj [Eg0 [EWj Eres]]]].
           exists g0, Wj. split; [| split; assumption].
           rewrite nth_error_replace_neq in Eg0 by lia. exact Eg0.
      * intros i Hi. rewrite Hout by lia.
        apply nth_error_replace_neq. lia.
    + destruct (PyList.index (W self) s); simpl in Hrun; discriminate.
Qed.

(** C1 (where the code departs from it). On integer labels in [-C, C)
    and a cache of the output layer's shape, the output-layer error is
    the documented one, entry by entry, for cross-entropy on a softmax
    output ([H[L] - one_hot(y)]) and for the squared error on any
    supported activation (the loss gradient [(H[L] - one_hot(y)) / N]
    times the derivative of the activation at [(A[L], H[L])]).  For
    cross-entropy on another activation it is not: the loss gradient the
    code multiplies by the derivative is taken on the label vector
    itself.  On the sigmoid network with [H[L]] all 0.5 and labels
    [1, 0], entry [(0, 0)] is negative where the documented error has a
    zero, and with three samples of two classes the call raises. *)
Theorem output_error_cases :
  (forall (self : NeuralNetwork) (v : list Z) (H A : list ndarray)
          (loss_type kind : string) (HL AL : ndarray) (C : nat),
     PyList.index_from_end H 1 = Ok HL ->
     PyList.index_from_end A 1 = Ok AL ->
     PyList.index_from_end (activation_functions self) 1 = Ok kind ->
     PyList.index_from_end (layer_sizes self) 1 = Ok C ->
     supported_activation kind = true ->
     labels_in_range C v ->
     has_shape HL (List.length v) C -> has_shape AL (List.length v) C ->
     (lower loss_type = "cross_entropy"%string /\ lower kind = "softmax"%string) \/
     lower loss_type = "mse"%string \/
     lower loss_type = "mean_squared_error"%string ->
     run (output_error (Indices v) H A loss_type) self
       = Ok (spec_output_error loss_type kind HL AL C v)) /\
  (exists dA : ndarray,
     run (output_error (Indices [1; 0]%Z) [Toy.X; Toy.half] [Toy.half]
            "cross_entropy") one_layer_network = Ok dA /\
     PrimFloat.ltb (item dA 0 0) 0%float = true /\
     PrimFloat.ltb
       (item (spec_output_error "cross_entropy" "sigmoid" Toy.half Toy.half 2
                [1; 0]%Z) 0 0) 0%float = false /\
     dA <> spec_output_error "cross_entropy" "sigmoid" Toy.half Toy.half 2
             [1; 0]%Z) /\
  run (output_error (Indices [0; 1; 1]%Z) [Toy.half3; Toy.half3] [Toy.half3]
         "cross_entropy") one_layer_network = Err broadcast_error.
Proof.
  split; [| split].
  - intros self v H A loss_type kind HL AL C EH EA Eact EC Hsup Hv HHL HAL Hloss.
    assert (EY : run (one_hot (Indices v)) self
                 = Ok (tabulate (List.length v) C
                         (fun i j => if j =? wrap_index C (nth i v 0%Z)
                                     then 1%float else 0%float))).
    { rewrite (run_one_hot self v C EC).
      rewrite (proj2 (labels_in_range_forallb C v) Hv). reflexivity. }
    assert (Hentry : forall i j, i < List.length v -> j < C ->
              (if j =? wrap_index C (nth i v 0%Z) then 1%float else 0%float)
              = spec_one_hot_entry C v i j).
    { intros i j Hi Hj. unfold spec_one_hot_entry.
      unfold labels_in_range in Hv. rewrite Forall_forall in Hv.
      assert (Hz := Hv (nth i v 0%Z) (nth_In v 0%Z Hi)).
      rewrite <- (wrap_index_mod C _ Hz).
      destruct (Nat.eqb_spec j (wrap_index C (nth i v 0%Z))) as [-> | Hne].
      - rewrite Z.eqb_refl. reflexivity.
      - destruct (Z.eqb_spec (Z.of_nat j) (Z.of_nat (wrap_index C (nth i v 0%Z))));
          [lia | reflexivity]. }
    destruct HHL as [HH0 HH1]. destruct HAL as [HA0 HA1].
    rewrite run_output_error. rewrite EH, EA, Eact.
    destruct Hloss as [[Ece Esoft] | Hmse].
    + rewrite Ece. simpl String.eqb. cbn [rbind].
      rewrite Esoft. simpl String.eqb. cbn [rbind].
      rewrite EY. cbn [rbind].
      rewrite broadcast_same_shape by (split; simpl; lia).
      f_equal. unfold spec_output_error. rewrite Ece, Esoft.
      apply tabulate_ext. intros i j Hi Hj.
      rewrite !bitem_in_range by (simpl; lia).
      rewrite item_tabulate by lia. rewrite Hentry by lia. reflexivity.
    + assert (Ece : String.eqb (lower loss_type) "cross_entropy" = false)
        by (destruct Hmse as [-> | ->]; reflexivity).
      rewrite Ece. cbn [rbind].
      rewrite (run_loss_derivative_mse self HL v loss_type Hmse).
      rewrite EY. cbn [rbind].
      rewrite broadcast_same_shape by (split; simpl; lia). cbn [rbind].
      set (dH := div_by_int _ _).
      destruct (mul_derivative_shape AL HL dH kind (List.length v) C Hsup
                  (conj HA0 HA1) (conj HH0 HH1)) as [d [r [Ed [Er _]]]].
      { split; simpl; assumption. }
      rewrite Ed. cbn [rbind]. rewrite Er. f_equal.
      rewrite (mul_derivative_entries AL HL dH kind d r Ed Er)
        by (split; simpl; lia).
      unfold spec_output_error, spec_loss_gradient. rewrite Ece.
      simpl andb. subst dH. simpl shape0. simpl shape1.
      apply tabulate_ext. intros i j Hi Hj.
      unfold div_by_int, map_array. simpl shape0. simpl shape1.
      rewrite item_tabulate by lia. rewrite item_tabulate by lia.
      rewrite !bitem_in_range by (simpl; lia).
      rewrite item_tabulate by lia. rewrite Hentry by lia. reflexivity.
  - eexists. split; [| split; [| split]].
    + vm_compute. reflexivity.
    + vm_compute. reflexivity.
    + vm_compute. reflexivity.
    + intros E.
      apply (f_equal (fun a => PrimFloat.ltb (item a 0 0) 0%float)) in E.
      vm_compute in E. discriminate E.
  - vm_compute. reflexivity.
Qed.

(** C2. On a network whose parameters have the shapes of its
    [layer_sizes] and a cache [(H, A)] of the shapes of a forward pass
    over the [N] rows of [X], a call of [back_propagation] that returns
    [(dW, dB)] went through layer errors [ds[0 .. L-1]]: [ds[L-1]] is
    the output-layer error; for every [k] below [L - 1], entry [(i, j)]
    of [ds[k]] is the inner product of row [i] of [ds[k+1]] and column
    [j] of [W[k+1]], times the derivative of the activation of layer [k]
    at [(A[k][i][j], H[k+1][i][j])]; and for every layer [k], entry
    [(r, c)] of the weight gradient [G[k]] is the inner product of
    column [r] of [ds[k]] and column [c] of [H[k]], over [N], and entry
    [c] of [dB[k]] is the sum of column [c] of [ds[k]], over [N].  [dW]
    is [G], with [weight_decay * W[k]] added to [G[k]] when the weight
    decay is positive.  The call does return when the network has a
    layer and supported activations, the cache has [L + 1] and [L]
    entries, the labels are one integer in [-C, C) per row, and the loss
    is cross-entropy on a softmax output or the squared error. *)
Theorem back_propagation_chain (self : NeuralNetwork) (X : ndarray) (y : labels)
    (H A : list ndarray) (loss_type : string) :
  well_shaped self -> cache_shaped self (shape0 X) H A ->
  let N := shape0 X in
  (forall dW dB : grads,
     run (back_propagation X y H A loss_type) self = Ok (dW, dB) ->
     exists (ds : list ndarray) (G : grads),
       List.length ds = L self /\ List.length G = L self /\
       List.length dB = L self /\
       (exists dAL,
          run (output_error y H A loss_type) self = Ok dAL /\
          nth_error ds (L self - 1) = Some dAL) /\
       (forall k, k + 1 < L self ->
          exists dAnext Wnext Ak Hnext kind,
            nth_error ds (k + 1) = Some dAnext /\
            nth_error (W self) (k + 1) = Some Wnext /\
            nth_error A k = Some Ak /\ nth_error H (k + 1) = Some Hnext /\
            nth_error (activation_functions self) k = Some kind /\
            nth_error ds k
              = Some (spec_hidden_error dAnext Wnext Ak Hnext kind)) /\
       (forall k, k < L self ->
          exists dAk Hk,
            nth_error ds k = Some dAk /\ nth_error H k = Some Hk /\
            nth_error G k = Some (Some (spec_weight_gradient dAk Hk N)) /\
            nth_error dB k = Some (Some (spec_bias_gradient dAk N))) /\
       (if PrimFloat.ltb 0%float (weight_decay self)
        then forall k, k < L self ->
               exists g Wk,
                 nth_error G k = Some (Some g) /\
                 nth_error (W self) k = Some Wk /\
                 nth_error dW k
                   = Some (Some (decayed (weight_decay self) g Wk))
        else dW = G)) /\
  (forall v : list Z,
     y = Indices v ->
     activations_usable self -> 1 <= L self ->
     List.length H = L self + 1 -> List.length A = L self ->
     List.length v = N ->
     labels_in_range (nth (L self) (layer_sizes self) 0) v ->
     trainable_loss self loss_type ->
     exists dW dB : grads,
       run (back_propagation X y H A loss_type) self = Ok (dW, dB)).
Proof.
  intros Hws [HH HA] N. split.
  2: { intros v -> Hacts Hn HlH HlA Hv Hrange Hloss.
       destruct (back_propagation_shapes self X v H A loss_type Hws Hacts Hn
                   HlH HlA HH HA Hv Hrange Hloss) as [dW [dB [Erun _]]].
       exists dW, dB. exact Erun. }
  intros dW dB Hrun.
  rewrite run_back_propagation in Hrun.
  destruct (run (layer_gradients X y H A loss_type) self) as [[G dB0] |] eqn:Egrad;
    [| discriminate].
  cbn [rbind fst snd] in Hrun.
  destruct (proj1 (layer_gradients_chain _ _ _ _ _ _ _ _) Egrad)
    as [HlH [HlA [HN [ds Hchain]]]].
  destruct Hchain as [Hlen [HlG [HlB [[dAL [Eout EdAL]] [Hhidden Hgrads]]]]].
  assert (HdB : dB0 = dB).
  { destruct (PrimFloat.ltb 0%float (weight_decay self)).
    - destruct (run (for_each (seq 0 (List.length (W self))) decay_layer G) self);
        [| discriminate].
      cbn [rbind] in Hrun. injection Hrun as _ <-. reflexivity.
    - injection Hrun as _ <-. reflexivity. }
  subst dB0.
  (* every layer error has one row per sample *)
  assert (Hrows : forall k dAk, k < L self -> nth_error ds k = Some dAk ->
                                shape0 dAk = N).
  { intros k dAk Hk Ek.
    destruct (Hgrads k Hk) as [dAk' [Ek' [Hk' [g [EHk [Eg _]]]]]].
    rewrite Ek in Ek'. injection Ek' as <-.
    destruct (weight_gradient_entries _ _ _ _ Eg) as [E0 _].
    destruct (HH k ltac:(lia)) as [Hk'' [EHk'' [S0 _]]].
    rewrite EHk in EHk''. injection EHk'' as <-.
    unfold N. rewrite E0. exact S0. }
  exists ds, G.
  split; [exact Hlen | split; [exact HlG | split; [exact HlB |]]].
  split; [exists dAL; split; assumption |].
  split; [| split].
  - intros k Hk.
    destruct (Hhidden k Hk) as [dAk [dAnext [Ek [Enext Eh]]]].
    assert (Hws' := Hws). destruct Hws' as [_ [_ [_ [_ Hshapes]]]].
    destruct (Hshapes (k + 1) Hk) as [Wnext [_ [EW [_ [_ [EW1 _]]]]]].
    destruct (HA k ltac:(lia)) as [Ak [EA [SA0 SA1]]].
    destruct (HH (k + 1) ltac:(lia)) as [Hnext [EH [SH0 SH1]]].
    assert (Hr := Hrows (k + 1) dAnext Hk Enext).
    destruct (hidden_error_entries self H A k dAnext dAk Wnext Ak Hnext Eh EW EA EH)
      as [kind [Ekind EdAk]].
    { split; [rewrite Hr; exact SA0 | rewrite EW1; exact SA1]. }
    { split; [rewrite Hr; exact SH0 | rewrite EW1; exact SH1]. }
    exists dAnext, Wnext, Ak, Hnext, kind.
    repeat (split; [assumption |]). rewrite Ek, EdAk. reflexivity.
  - intros k Hk.
    destruct (Hgrads k Hk) as [dAk [Ek [Hk' [g [EHk [Eg [EG EB]]]]]]].
    destruct (weight_gradient_entries _ _ _ _ Eg) as [_ Eg'].
    exists dAk, Hk'. split; [exact Ek | split; [exact EHk | split]].
    + rewrite EG, Eg'. reflexivity.
    + rewrite EB, bias_gradient_entries. reflexivity.
  - destruct (PrimFloat.ltb 0%float (weight_decay self)).
    + destruct (run (for_each (seq 0 (List.length (W self))) decay_layer G) self)
        as [dW' |] eqn:Edecay; [| discriminate].
      cbn [rbind] in Hrun. injection Hrun as <-.
      destruct (decay_loop_inv self _ 0 G dW' Edecay) as [Hin _].
      intros k Hk. destruct Hws as [_ [_ [HlW _]]].
      exact (Hin k ltac:(lia)).
    + injection Hrun as <-. reflexivity.
Qed.

(* ================================================================== *)
(** ** Training: what it leaves alone *)

Lemma same_architecture_refl (a : NeuralNetwork) : same_architecture a a.
Proof. repeat split. Qed.

Lemma same_architecture_trans (a b c : NeuralNetwork) :
  same_architecture a b -> same_architecture b c -> same_architecture a c.
Proof.
  intros [A1 [A2 [A3 [A4 A5]]]] [B1 [B2 [B3 [B4 B5]]]].
  repeat split; congruence.
Qed.

Lemma architecture_readonly {A : Type} (m : M A) :
  readonly m -> keeps_architecture m.
Proof. intros Hm self. rewrite Hm. apply same_architecture_refl. Qed.

Lemma architecture_bind {A C : Type} (m : M A) (k : A -> M C) :
  keeps_architecture m -> (forall a, keeps_architecture (k a)) ->
  keeps_architecture (bind m k).
Proof.
  intros Hm Hk self. specialize (Hm self). unfold exec, bind in *.
  destruct (m self) as [[a | e] self1]; simpl in *.
  - apply (same_architecture_trans _ self1); [apply Hk | exact Hm].
  - exact Hm.
Qed.

Lemma architecture_for_each {I S : Type} (xs : list I) (body : I -> S -> M S) :
  (forall x s, keeps_architecture (body x s)) ->
  forall s, keeps_architecture (for_each xs body s).
Proof.
  intros Hbody. induction xs as [| x xs IH]; intro s; simpl.
  - apply architecture_readonly, readonly_ret.
  - apply architecture_bind; [apply Hbody | exact IH].
Qed.

Lemma architecture_set_optimizer (d : dict) : keeps_architecture (set_optimizer d).
Proof.
  intros self. unfold set_optimizer, exec, bind, lift, gets, modify, raise.
  destruct (dict_get d "name") as [name |]; [| apply same_architecture_refl].
  destruct (pylower name) as [key |]; [| apply same_architecture_refl].
  destruct (optimizer_map key) as [cls |]; [| apply same_architecture_refl].
  destruct (optimizer_init cls (W self) (B self) _) as [st |];
    [| apply same_architecture_refl].
  repeat split.
Qed.

Lemma architecture_optimizer_step (dW dB : grads) (iteration : Z) :
  keeps_architecture (optimizer_step dW dB iteration).
Proof.
  intros self. unfold optimizer_step, exec, bind, gets, modify, lift, raise.
  destruct (optimizer self) as [o |]; [| apply same_architecture_refl].
  destruct (optimizer_update (opt_class o) (opt_state o) (W self) (B self)
              dW dB iteration) as [[[W' B'] | e] st]; repeat split.
Qed.

Section TrainKeepsArchitecture.

Variable X_val : option ndarray.
Variable y_val : option labels.
Variables batch_size num_epochs : Z.
Variable loss_type : string.
Variable log_every : Z.
Variable callback : option (float -> float -> float -> float -> result unit).
Variable np_random_permutation : Z -> list nat.

Lemma architecture_train_batch (num_datapoints : nat) (batch : Z) (v : locals) :
  keeps_architecture
    (train_batch X_val y_val batch_size loss_type log_every num_datapoints batch v).
Proof.
  unfold train_batch.
  apply architecture_bind;
    [apply architecture_readonly, readonly_forward_propagation |].
  intros [H A].
  apply architecture_bind;
    [apply architecture_readonly, readonly_back_propagation |].
  intros [dW dB].
  apply architecture_bind; [apply architecture_optimizer_step | intros _].
  apply architecture_bind; [| intros _; apply architecture_readonly, readonly_ret].
  apply architecture_readonly. readonly_auto.
Qed.

Lemma architecture_train_epoch (num_datapoints : nat) (num_batches epoch : Z)
    (v : locals) :
  keeps_architecture
    (train_epoch X_val y_val batch_size loss_type log_every callback
       np_random_permutation num_datapoints num_batches epoch v).
Proof.
  unfold train_epoch.
  apply architecture_bind; [apply architecture_readonly, readonly_lift |].
  intros [X' y'].
  apply architecture_bind.
  - apply architecture_for_each. intros. apply architecture_train_batch.
  - intros v'. apply architecture_readonly.
    destruct (loc_batch v') as [[[H Xb] yb] |]; [| apply readonly_raise].
    apply readonly_bind; [apply readonly_lift | intro HL].
    apply readonly_bind; [apply readonly_compute_loss | intro l].
    apply readonly_bind; [apply readonly_compute_accuracy | intro a].
    apply readonly_bind; [apply readonly_epoch_validation | intro h].
    apply readonly_ret.
Qed.

Lemma architecture_train_loop (X_train : ndarray) (y_train : labels) :
  keeps_architecture
    (train_loop X_train y_train X_val y_val batch_size num_epochs loss_type
       log_every callback np_random_permutation).
Proof.
  unfold train_loop.
  destruct (batch_size =? 0)%Z; [apply architecture_readonly, readonly_raise |].
  apply architecture_bind; [apply architecture_readonly, readonly_lift | intros _].
  apply architecture_bind; [apply architecture_readonly, readonly_lift | intros _].
  apply architecture_bind.
  - apply architecture_for_each. intros. apply architecture_train_epoch.
  - intros v. apply architecture_readonly, readonly_ret.
Qed.

End TrainKeepsArchitecture.

(** X15. Whatever its arguments and whether it returns or raises,
    [train] leaves [layer_sizes], [L], [activation_functions],
    [LOG_EACH] and [weight_decay] of the network as they were: it writes
    to [W], [B] and [optimizer] only. *)
Theorem train_keeps_architecture (self : NeuralNetwork)
    (X_train : ndarray) (y_train : labels)
    (X_val : option ndarray) (y_val : option labels)
    (batch_size num_epochs : Z) (loss_type : string) (log_every : Z)
    (callback : option (float -> float -> float -> float -> result unit))
    (np_random_permutation : Z -> list nat) :
  same_architecture
    (exec (train X_train y_train X_val y_val batch_size num_epochs loss_type
             log_every callback np_random_permutation) self)
    self.
Proof.
  revert self.
  change (keeps_architecture
            (train X_train y_train X_val y_val batch_size num_epochs loss_type
               log_every callback np_random_permutation)).
  unfold train.
  apply architecture_bind; [apply architecture_readonly, readonly_gets | intro o].
  apply architecture_bind.
  - destruct o; [apply architecture_readonly, readonly_ret
                | apply architecture_set_optimizer].
  - intros _. apply architecture_train_loop.
Qed.

(* ================================================================== *)
(** ** Training: arguments it rejects *)

Lemma train_with_optimizer (self : NeuralNetwork) (o : optimizer_obj)
    (X_train : ndarray) (y_train : labels)
    (X_val : option ndarray) (y_val : option labels)
    (batch_size num_epochs : Z) (loss_type : string) (log_every : Z)
    (callback : option (float -> float -> float -> float -> result unit))
    (np_random_permutation : Z -> list nat) :
  optimizer self = Some o ->
  train X_train y_train X_val y_val batch_size num_epochs loss_type log_every
    callback np_random_permutation self
  = train_loop X_train y_train X_val y_val batch_size num_epochs loss_type
      log_every callback np_random_permutation self.
Proof. intros Ho. unfold train, bind at 1 2, gets. rewrite Ho. reflexivity. Qed.

(** Rounding keeps the sign it is given. *)
Lemma binary_round_aux_sign (s : bool) (m e : Z) (l : location) :
  match binary_round_aux 53 1024 s m e l with
  | S754_zero s' | S754_infinity s' | S754_finite s' _ _ => s' = s
  | S754_nan => True
  end.
Proof.
  unfold binary_round_aux.
  destruct (shr_fexp 53 1024 m e l) as [mrs' e'].
  destruct (shr_fexp 53 1024 _ e' loc_Exact) as [mrs'' e''].
  destruct (shr_m mrs''); [reflexivity | | exact I].
  destruct (e'' <=? 1024 - 53)%Z; reflexivity.
Qed.

(** Only a positive finite number has a positive ceiling. *)
Lemma int_ceil_positive (x : spec_float) :
  (0 < int_ceil x)%Z -> exists m e, x = S754_finite false m e.
Proof.
  destruct x as [s | s | | s m e]; simpl; try lia.
  destruct s; [| eauto]. intros Hpos. exfalso.
  destruct (Z.leb_spec 0 e).
  - assert (0 < 2 ^ e)%Z by (apply Z.pow_pos_nonneg; lia). nia.
  - assert (0 < 2 ^ (- e))%Z by (apply Z.pow_pos_nonneg; lia).
    assert (0 <= Z.pos m / 2 ^ (- e))%Z by (apply Z.div_pos; lia).
    change (- Z.neg m)%Z with (Z.pos m) in Hpos. lia.
Qed.

(** A positive number of batches needs rows and a positive batch size. *)
Lemma batches_positive (a b : Z) :
  (0 <= a)%Z -> b <> 0%Z -> (0 < int_ceil (true_divide a b))%Z ->
  (0 < a /\ 0 < b)%Z.
Proof.
  intros Ha Hb Hpos.
  destruct (int_ceil_positive _ Hpos) as [m [e E]].
  unfold true_divide in E.
  destruct a as [| a | a]; [discriminate | | lia].
  split; [lia |].
  destruct (SFdiv_core_binary 53 1024 (Z.abs (Z.pos a)) 0 (Z.abs b) 0)
    as [[q e'] l].
  assert (Hs := binary_round_aux_sign (xorb (Z.pos a <? 0)%Z (b <? 0)%Z) q e' l).
  rewrite E in Hs. simpl in Hs.
  destruct (Z.ltb_spec b 0); [discriminate | lia].
Qed.

(** With rows and a positive batch size the number of batches is not
    negative. *)
Lemma batches_nonneg (a b : Z) :
  (0 <= a)%Z -> (0 < b)%Z -> (0 <= int_ceil (true_divide a b))%Z.
Proof.
  intros Ha Hb. unfold true_divide.
  destruct a as [| a | a]; [simpl; lia | | lia].
  destruct (SFdiv_core_binary 53 1024 (Z.abs (Z.pos a)) 0 (Z.abs b) 0)
    as [[q e'] l].
  assert (Hs := binary_round_aux_sign (xorb (Z.pos a <? 0)%Z (b <? 0)%Z) q e' l).
  destruct (binary_round_aux 53 1024 _ q e' l) as [s | s | | s m e];
    simpl; try lia.
  destruct (Z.ltb_spec b 0); [lia |]. simpl in Hs. subst s.
  destruct (Z.leb_spec 0 e).
  - assert (0 < 2 ^ e)%Z by (apply Z.pow_pos_nonneg; lia). nia.
  - assert (0 < 2 ^ (- e))%Z by (apply Z.pow_pos_nonneg; lia).
    assert (- Z.pos m / 2 ^ (- e) < 0)%Z by (apply Z.div_lt_upper_bound; lia).
    lia.
Qed.

Lemma spacer_positive (n : Z) : spacer n = Ok tt -> (0 < n)%Z.
Proof.
  unfold spacer.
  destruct (Z.eqb_spec n 0); [discriminate |].
  destruct (Z.ltb_spec n 0); [discriminate | lia].
Qed.


(* ================================================================== *)
(** ** Training: what a call that returns went through *)

Lemma bind_ok_inv {A C : Type} (m : M A) (k : A -> M C)
    (self self'' : NeuralNetwork) (c : C) :
  bind m k self = (Ok c, self'') ->
  exists a self', m self = (Ok a, self') /\ k a self' = (Ok c, self'').
Proof.
  unfold bind. destruct (m self) as [[a | e] self']; [| discriminate].
  intros E. exists a, self'. auto.
Qed.

Lemma length_range (n : Z) : List.length (PyList.range n) = Z.to_nat n.
Proof. unfold PyList.range. rewrite length_map, length_seq. reflexivity. Qed.

Section TrainReturns.

Variable X_val : option ndarray.
Variable y_val : option labels.
Variables batch_size num_epochs : Z.
Variable loss_type : string.
Variable log_every : Z.
Variable callback : option (float -> float -> float -> float -> result unit).
Variable np_random_permutation : Z -> list nat.
Variable num_datapoints : nat.
Variable num_batches : Z.

(** A batch that ran through: the history is untouched, the batch is
    remembered, and [log_every] is not zero. *)
Lemma train_batch_inv (batch : Z) (v v' : locals) (self self' : NeuralNetwork) :
  train_batch X_val y_val batch_size loss_type log_every num_datapoints batch v self
    = (Ok v', self') ->
  loc_history v' = loc_history v /\ log_every <> 0%Z.
Proof.
  unfold train_batch. intros E.
  apply bind_ok_inv in E. destruct E as [[H A] [s1 [_ E]]].
  apply bind_ok_inv in E. destruct E as [[dW dB] [s2 [_ E]]].
  apply bind_ok_inv in E. destruct E as [[] [s3 [_ E]]].
  apply bind_ok_inv in E. destruct E as [[] [s4 [Elog E]]].
  injection E as <- _. split; [reflexivity |].
  destruct (Z.eqb_spec log_every 0); [discriminate | assumption].
Qed.

Lemma train_batches_inv (batches : list Z) :
  forall (v v' : locals) (self self' : NeuralNetwork),
    for_each batches
      (train_batch X_val y_val batch_size loss_type log_every num_datapoints)
      v self = (Ok v', self') ->
    loc_history v' = loc_history v /\ (batches <> [] -> log_every <> 0%Z).
Proof.
  induction batches as [| b batches IH]; intros v v' self self' E.
  - injection E as <- _. split; [reflexivity | intros Hne; contradiction].
  - rewrite for_each_cons in E.
    apply bind_ok_inv in E. destruct E as [v1 [s1 [E1 E]]].
    apply train_batch_inv in E1. destruct E1 as [Eh Hlog].
    destruct (IH _ _ _ _ E) as [Eh' _].
    split; [congruence | intros _; exact Hlog].
Qed.

(** The end of an epoch returns only with validation inputs and labels,
    and then appends one entry to each validation list. *)
Lemma epoch_validation_inv (v : locals) (train_loss_ : float) (hist hist' : history)
    (self : NeuralNetwork) :
  run (epoch_validation X_val y_val loss_type callback v train_loss_ hist) self
    = Ok hist' ->
  (exists Xv yv, X_val = Some Xv /\ y_val = Some yv) /\
  exists losses accs vl va,
    val_loss hist = Some losses /\ val_acc hist = Some accs /\
    hist' = mk_history (train_loss hist) (train_acc hist)
              (Some (losses ++ [vl])) (Some (accs ++ [va])).
Proof.
  unfold epoch_validation.
  destruct X_val as [Xv |]; [destruct y_val as [yv |] |].
  - rewrite run_bind_readonly by apply readonly_predict.
    destruct (run (predict Xv) self) as [p |]; [| discriminate]. cbn [rbind].
    rewrite run_bind_readonly by apply readonly_compute_loss.
    destruct (run (compute_loss p yv loss_type) self) as [vl |]; [| discriminate].
    cbn [rbind].
    rewrite run_bind_readonly by apply readonly_compute_accuracy.
    destruct (run (compute_accuracy Xv yv) self) as [va |]; [| discriminate].
    cbn [rbind].
    destruct (val_loss hist) as [losses |]; [| discriminate].
    destruct (val_acc hist) as [accs |]; [| discriminate].
    intros E. split; [eauto |].
    exists losses, accs, vl, va. split; [reflexivity | split; [reflexivity |]].
    destruct callback as [on_epoch_end |].
    + rewrite run_bind_readonly in E by apply readonly_compute_accuracy.
      destruct (run (compute_accuracy _ _) self); [| discriminate]. cbn [rbind] in E.
      rewrite run_bind_readonly in E by apply readonly_predict.
      destruct (run (predict Xv) self) as [p' |]; [| discriminate]. cbn [rbind] in E.
      rewrite run_bind_readonly in E by apply readonly_compute_loss.
      destruct (run (compute_loss p' yv loss_type) self); [| discriminate].
      cbn [rbind] in E.
      rewrite run_bind_readonly in E by apply readonly_compute_accuracy.
      destruct (run (compute_accuracy Xv yv) self); [| discriminate].
      cbn [rbind] in E.
      rewrite run_bind_readonly in E by apply readonly_lift.
      unfold run at 1, lift at 1 in E. simpl fst in E.
      destruct (on_epoch_end _ _ _ _); [| discriminate].
      cbn [rbind] in E. injection E as <-. reflexivity.
    + injection E as <-. reflexivity.
  - rewrite run_bind_readonly by apply readonly_predict.
    destruct (run (predict Xv) self); discriminate.
  - intros E.
    destruct (raises_epoch_validation y_val loss_type callback v train_loss_ hist self)
      as [e He].
    unfold epoch_validation in He. rewrite He in E. discriminate.
Qed.

(** An epoch that ran through appended one entry to each list of the
    history. *)
Lemma train_epoch_inv (epoch : Z) (v v' : locals) (self self' : NeuralNetwork) :
  train_epoch X_val y_val batch_size loss_type log_every callback
    np_random_permutation num_datapoints num_batches epoch v self
    = (Ok v', self') ->
  (exists Xv yv, X_val = Some Xv /\ y_val = Some yv) /\
  ((0 < num_batches)%Z -> log_every <> 0%Z) /\
  forall n, history_lengths (loc_history v) n ->
            history_lengths (loc_history v') (S n).
Proof.
  unfold train_epoch. intros E.
  apply bind_ok_inv in E. destruct E as [[X' y'] [s1 [_ E]]].
  apply bind_ok_inv in E. destruct E as [v1 [s2 [Ebatches E]]].
  apply train_batches_inv in Ebatches. destruct Ebatches as [Eh Hlog].
  simpl loc_history in Eh.
  destruct (loc_batch v1) as [[[H Xb] yb] |]; [| discriminate].
  apply bind_ok_inv in E. destruct E as [HL [s3 [_ E]]].
  apply bind_ok_inv in E. destruct E as [tl_ [s4 [_ E]]].
  apply bind_ok_inv in E. destruct E as [ta_ [s5 [_ E]]].
  apply bind_ok_inv in E. destruct E as [hist' [s6 [Eval E]]].
  injection E as <- _. simpl loc_history.
  assert (Erun : run (epoch_validation X_val y_val loss_type callback v1 tl_
                        (mk_history (train_loss (loc_history v1) ++ [tl_])
                           (train_acc (loc_history v1) ++ [ta_])
                           (val_loss (loc_history v1)) (val_acc (loc_history v1))))
                   s5 = Ok hist').
  { unfold run. rewrite Eval. reflexivity. }
  apply epoch_validation_inv in Erun.
  destruct Erun as [Hval [losses [accs [vl [va [El [Ea ->]]]]]]].
  simpl in El, Ea.
  split; [exact Hval | split].
  - intros Hnb. apply Hlog. unfold PyList.range.
    destruct (Z.to_nat num_batches) eqn:En; [lia | discriminate].
  - intros n [H1 [H2 [vl0 [va0 [E1 [E2 [H3 H4]]]]]]].
    rewrite Eh in El, Ea. rewrite E1 in El. rewrite E2 in Ea.
    injection El as <-. injection Ea as <-.
    unfold history_lengths. simpl. rewrite Eh.
    rewrite !length_app. simpl.
    split; [lia | split; [lia |]].
    exists (vl0 ++ [vl]), (va0 ++ [va]).
    rewrite !length_app. simpl.
    repeat split; lia.
Qed.

Lemma train_epochs_inv (epochs : list Z) :
  forall (v v' : locals) (self self' : NeuralNetwork),
    for_each epochs
      (train_epoch X_val y_val batch_size loss_type log_every callback
         np_random_permutation num_datapoints num_batches)
      v self = (Ok v', self') ->
    (epochs <> [] ->
     (exists Xv yv, X_val = Some Xv /\ y_val = Some yv) /\
     ((0 < num_batches)%Z -> log_every <> 0%Z)) /\
    forall n, history_lengths (loc_history v) n ->
              history_lengths (loc_history v') (n + List.length epochs).
Proof.
  induction epochs as [| e epochs IH]; intros v v' self self' E.
  - injection E as <- _. split; [intros Hne; contradiction |].
    intros n Hn. simpl. rewrite Nat.add_0_r. exact Hn.
  - rewrite for_each_cons in E.
    apply bind_ok_inv in E. destruct E as [v1 [s1 [E1 E]]].
    apply train_epoch_inv in E1. destruct E1 as [Hval [Hlog Hstep]].
    destruct (IH _ _ _ _ E) as [_ Hrest].
    split; [intros _; split; assumption |].
    intros n Hn. simpl List.length.
    replace (n + S (List.length epochs)) with (S n + List.length epochs) by lia.
    apply Hrest, Hstep, Hn.
Qed.

End TrainReturns.

(** X17. A call of [train] that returns a history was given validation
    inputs and labels, a positive [batch_size], a positive [num_epochs],
    a non-empty training set and a [log_every] other than zero; the
    history then has exactly [num_epochs] entries in each of
    [train_loss], [train_acc], [val_loss] and [val_acc]. *)
Theorem train_returns_full_history (self : NeuralNetwork)
    (X_train : ndarray) (y_train : labels)
    (X_val : option ndarray) (y_val : option labels)
    (batch_size num_epochs : Z) (loss_type : string) (log_every : Z)
    (callback : option (float -> float -> float -> float -> result unit))
    (np_random_permutation : Z -> list nat) (hist : history) :
  run (train X_train y_train X_val y_val batch_size num_epochs loss_type
         log_every callback np_random_permutation) self = Ok hist ->
  (exists Xv yv, X_val = Some Xv /\ y_val = Some yv) /\
  (0 < batch_size)%Z /\ (0 < num_epochs)%Z /\ 0 < shape0 X_train /\
  log_every <> 0%Z /\
  history_lengths hist (Z.to_nat num_epochs).
Proof.
  intros Hrun. unfold run in Hrun.
  destruct (train X_train y_train X_val y_val batch_size num_epochs loss_type
              log_every callback np_random_permutation self)
    as [r self'] eqn:E.
  simpl in Hrun. subst r. unfold train in E.
  apply bind_ok_inv in E. destruct E as [o [s1 [_ E]]].
  apply bind_ok_inv in E. destruct E as [[] [s2 [_ E]]].
  unfold train_loop in E.
  destruct (Z.eqb_spec batch_size 0) as [| Hb]; [discriminate |].
  apply bind_ok_inv in E. destruct E as [[] [s3 [Ee E]]].
  apply bind_ok_inv in E. destruct E as [[] [s4 [Eb E]]].
  apply bind_ok_inv in E. destruct E as [v [s5 [Eloop E]]].
  injection E as <- _.
  unfold lift in Ee, Eb. injection Ee as Ee _. injection Eb as Eb _.
  assert (Hne : (0 < num_epochs)%Z) by (apply spacer_positive; exact Ee).
  assert (Hnb := spacer_positive _ Eb).
  destruct (batches_positive _ _ (Nat2Z.is_nonneg _) Hb Hnb) as [HN Hbs].
  apply train_epochs_inv in Eloop. destruct Eloop as [Hfirst Hlen].
  destruct Hfirst as [Hval Hlog].
  { destruct (range_positive _ Ee) as [xs ->]. discriminate. }
  destruct Hval as [Xv [yv [-> ->]]].
  split; [eauto |].
  split; [exact Hbs | split; [exact Hne | split; [lia | split; [auto |]]]].
  specialize (Hlen 0). rewrite length_range in Hlen. simpl in Hlen.
  apply Hlen. unfold history_lengths. simpl.
  repeat split. exists [], []. repeat split.
Qed.

(* ================================================================== *)
(** ** Training: the batches of an epoch *)

Lemma map_seq_shift {T : Type} (g : nat -> T) (s k : nat) :
  map (fun i => g (s + i)) (seq 0 k) = map g (seq s k).
Proof.
  revert s. induction k as [| k IH]; intro s; [reflexivity |].
  simpl. rewrite Nat.add_0_r. f_equal.
  rewrite <- seq_shift, map_map. rewrite <- (IH (S s)).
  apply map_ext. intro i. f_equal. lia.
Qed.

Lemma clamp_nonneg (n : nat) (i : Z) :
  (0 <= i)%Z -> PyList.clamp n i = Nat.min (Z.to_nat i) n.
Proof.
  intros Hi. unfold PyList.clamp. destruct (Z.ltb_spec i 0); [lia | reflexivity].
Qed.

(** The rows of a slice are the rows of the array between its bounds. *)
Lemma rows_slice_rows (a : ndarray) (start stop : Z) :
  rows (slice_rows a start stop) =
  map (row a) (seq (PyList.clamp (shape0 a) start)
                 (PyList.clamp (shape0 a) stop - PyList.clamp (shape0 a) start)).
Proof.
  unfold slice_rows.
  set (s := PyList.clamp (shape0 a) start).
  set (e := PyList.clamp (shape0 a) stop).
  unfold rows. simpl shape0.
  rewrite <- (map_seq_shift (row a) s (e - s)).
  apply map_ext_in. intros i Hi. apply in_seq in Hi.
  unfold row. simpl shape1.
  apply map_ext_in. intros j Hj. apply in_seq in Hj.
  rewrite item_tabulate by lia. reflexivity.
Qed.

(** A slice of a list, entry by entry. *)
Lemma firstn_skipn_seq {T : Type} (d : T) (l : list T) (s k : nat) :
  s + k <= List.length l ->
  firstn k (skipn s l) = map (fun i => nth i l d) (seq s k).
Proof.
  revert l s. induction k as [| k IH]; intros l s Hle; [reflexivity |].
  simpl seq. simpl map.
  destruct (skipn s l) as [| x t] eqn:Esk.
  - assert (Hlen := length_skipn s l). rewrite Esk in Hlen. simpl in Hlen. lia.
  - simpl. f_equal.
    + rewrite <- (firstn_skipn s l) at 1. rewrite Esk.
      rewrite app_nth2 by (rewrite length_firstn; lia).
      rewrite length_firstn. replace (s - Nat.min s (List.length l)) with 0 by lia.
      reflexivity.
    + rewrite <- (IH l (S s)) by lia. f_equal.
      replace (S s) with (1 + s) by lia. rewrite <- skipn_skipn, Esk. reflexivity.
Qed.

(** Consecutive segments of width [bs], cut off at [N], make up an
    initial segment. *)
Lemma concat_segments (bs N k : nat) :
  concat (map (fun b => seq (Nat.min (b * bs) N)
                          (Nat.min ((b + 1) * bs) N - Nat.min (b * bs) N))
            (seq 0 k))
  = seq 0 (Nat.min (k * bs) N).
Proof.
  induction k as [| k IH]; [reflexivity |].
  rewrite seq_S, map_app, concat_app, IH. simpl.
  rewrite app_nil_r.
  replace (Nat.min ((k + 1) * bs) N) with
    (Nat.min (k * bs) N + (Nat.min ((k + 1) * bs) N - Nat.min (k * bs) N)) at 2 by nia.
  replace (Nat.min (bs + k * bs) N) with
    (Nat.min (k * bs) N + (Nat.min ((k + 1) * bs) N - Nat.min (k * bs) N)) by nia.
  rewrite seq_app. reflexivity.
Qed.

Lemma ceil_div_covers (a b : Z) :
  (0 < b)%Z -> (a <= ceil_div a b * b)%Z.
Proof.
  intros Hb. unfold ceil_div.
  assert (H := Z.div_mod (- a) b ltac:(lia)).
  assert (H' := Z.mod_pos_bound (- a) b Hb). nia.
Qed.

Lemma clamp_batch_bounds (n : nat) (batch_size : Z) (i : nat) :
  (0 < batch_size)%Z ->
  PyList.clamp n (Z.of_nat i * batch_size)
    = Nat.min (i * Z.to_nat batch_size) n /\
  PyList.clamp n (Z.min ((Z.of_nat i + 1) * batch_size) (Z.of_nat n))
    = Nat.min ((i + 1) * Z.to_nat batch_size) n.
Proof.
  intros Hb. rewrite !clamp_nonneg by nia. split.
  - f_equal. rewrite Z2Nat.inj_mul by lia. rewrite Nat2Z.id. reflexivity.
  - rewrite Z2Nat.inj_min, Nat2Z.id.
    rewrite Z2Nat.inj_mul by lia.
    rewrite Z2Nat.inj_add by lia. rewrite Nat2Z.id. simpl Z.to_nat.
    change (Pos.to_nat 1) with 1. lia.
Qed.

(** X18. The batches of one epoch partition the training data: with a
    positive [batch_size], the slices [start_idx:end_idx] over
    [range(num_batches)], put end to end, are the rows of [X_train] and
    the labels [y_train], each once and in order; nothing is dropped
    when the last batch is short. *)
Theorem batches_partition (X_train : ndarray) (v : list Z) (batch_size : Z) :
  (0 < batch_size)%Z -> List.length v = shape0 X_train ->
  let num_datapoints := Z.of_nat (shape0 X_train) in
  let num_batches := ceil_div num_datapoints batch_size in
  concat (map (fun batch =>
                 rows (slice_rows X_train (batch * batch_size)
                         (Z.min ((batch + 1) * batch_size) num_datapoints)))
            (PyList.range num_batches))
    = rows X_train /\
  concat (map (fun batch =>
                 PyList.slice v (batch * batch_size)
                   (Z.min ((batch + 1) * batch_size) num_datapoints))
            (PyList.range num_batches))
    = v.
Proof.
  intros Hb Hv num_datapoints num_batches.
  subst num_batches num_datapoints.
  remember (shape0 X_train) as N eqn:EN.
  remember (Z.to_nat batch_size) as bs eqn:Ebs.
  remember (Z.to_nat (ceil_div (Z.of_nat N) batch_size)) as k eqn:Ek.
  assert (Hcover : N <= k * bs).
  { assert (H := ceil_div_covers (Z.of_nat N) batch_size Hb).
    assert (Hk : (0 <= ceil_div (Z.of_nat N) batch_size)%Z) by nia.
    subst k bs. nia. }
  unfold PyList.range. rewrite <- Ek. rewrite !map_map.
  split.
  - transitivity (concat (map (fun b => map (row X_train)
                                  (seq (Nat.min (b * bs) N)
                                     (Nat.min ((b + 1) * bs) N - Nat.min (b * bs) N)))
                            (seq 0 k))).
    + f_equal. apply map_ext. intro i. rewrite rows_slice_rows. rewrite <- EN.
      destruct (clamp_batch_bounds N batch_size i Hb) as [E1 E2].
      rewrite E1, E2, <- Ebs. reflexivity.
    + rewrite <- (map_map (fun b => seq (Nat.min (b * bs) N)
                                     (Nat.min ((b + 1) * bs) N - Nat.min (b * bs) N))
                    (map (row X_train))).
      rewrite <- concat_map, concat_segments.
      rewrite Nat.min_r by exact Hcover. rewrite EN. reflexivity.
  - transitivity (concat (map (fun b => map (fun i => nth i v 0%Z)
                                  (seq (Nat.min (b * bs) N)
                                     (Nat.min ((b + 1) * bs) N - Nat.min (b * bs) N)))
                            (seq 0 k))).
    + f_equal. apply map_ext. intro i. unfold PyList.slice. rewrite Hv.
      destruct (clamp_batch_bounds N batch_size i Hb) as [E1 E2].
      rewrite E1, E2, <- Ebs.
      apply firstn_skipn_seq. rewrite Hv. lia.
    + rewrite <- (map_map (fun b => seq (Nat.min (b * bs) N)
                                     (Nat.min ((b + 1) * bs) N - Nat.min (b * bs) N))
                    (map (fun i => nth i v 0%Z))).
      rewrite <- concat_map, concat_segments.
      rewrite Nat.min_r by exact Hcover.
      rewrite <- Hv. apply map_nth_seq.
Qed.


(* ================================================================== *)
(** ** [nn_from_config] *)

(** X19. The network that [nn_from_config] returns has 784 inputs,
    [num_layers] hidden layers of [hidden_size] units with the
    configured activation (none when [num_layers] is not positive), ten
    softmax outputs, the configured weight decay, logging off and an
    optimizer attached; the length assertion of [__init__] cannot fail
    for the lists it builds. *)
Theorem nn_from_config_network (get_optimizer : string -> float -> result dict)
    (config : Config.t)
    (wandb_callback : option (float -> float -> float -> float -> result unit))
    (X_train : ndarray) (y_train : labels)
    (X_val : option ndarray) (y_val : option labels)
    (uniform randn : nat -> nat -> nat -> float)
    (np_random_permutation : Z -> list nat)
    (nn : NeuralNetwork) (history_ : history) :
  nn_from_config get_optimizer config wandb_callback X_train y_train X_val y_val
    uniform randn np_random_permutation = Ok (nn, history_) ->
  let n := Z.to_nat (Config.num_layers config) in
  layer_sizes nn = 784 :: repeat (Config.hidden_size config) n ++ [10] /\
  L nn = n + 1 /\
  activation_functions nn = repeat (Config.activation config) n ++ ["softmax"%string] /\
  PyList.index_from_end (activation_functions nn) 1 = Ok "softmax"%string /\
  weight_decay nn = Config.weight_decay config /\
  LOG_EACH nn = false /\
  exists o, optimizer nn = Some o.
Proof.
  intros Hrun n. unfold nn_from_config in Hrun. fold n in Hrun.
  destruct (__init__ _ _ _ _ _ _ _) as [nn0 |] eqn:Einit; [| discriminate].
  cbn [rbind] in Hrun.
  destruct (get_optimizer _ _) as [d |]; [| discriminate].
  cbn [rbind] in Hrun.
  destruct (set_optimizer d nn0) as [[[] | e] nn1] eqn:Eset; [| discriminate].
  cbn [rbind] in Hrun.
  destruct (train X_train y_train X_val y_val (Config.batch_size config)
              (Config.epochs config) (Config.loss config) 1000 wandb_callback
              np_random_permutation nn1) as [[h | e] nn2] eqn:Etrain;
    [| discriminate].
  cbn [rbind] in Hrun. injection Hrun as <- <-.
  destruct (init_ok_fields _ _ _ _ _ _ _ _ Einit)
    as [Hlen [Els [Eacts [EL [Elog [Ewd _]]]]]].
  assert (H01 : same_architecture nn1 nn0).
  { assert (H := architecture_set_optimizer d nn0).
    unfold exec in H. rewrite Eset in H. exact H. }
  destruct (set_optimizer_attaches _ _ _ Eset) as [o1 Ho1].
  rewrite (train_with_optimizer nn1 o1 _ _ _ _ _ _ _ _ _ _ Ho1) in Etrain.
  assert (H12 : same_architecture nn2 nn1).
  { assert (H := architecture_train_loop X_val y_val
                   (Config.batch_size config) (Config.epochs config)
                   (Config.loss config) 1000 wandb_callback
                   np_random_permutation X_train y_train nn1).
    unfold exec in H. rewrite Etrain in H. exact H. }
  destruct (same_architecture_trans _ _ _ H12 H01) as [A1 [A2 [A3 [A4 A5]]]].
  rewrite A1, A2, A3, A4, A5, Els, Eacts, EL, Elog, Ewd.
  split; [reflexivity |].
  split; [simpl; rewrite length_app, repeat_length; simpl; lia |].
  split; [reflexivity |].
  split.
  { apply index_from_end_last.
    - rewrite length_app, repeat_length. simpl.
      replace (n + 1 - 1) with n by lia.
      rewrite nth_error_app2 by (rewrite repeat_length; lia).
      rewrite repeat_length, Nat.sub_diag. reflexivity.
    - rewrite length_app. simpl. lia. }
  split; [reflexivity | split; [reflexivity |]].
  destruct (keeps_train_loop X_val y_val (Config.batch_size config)
              (Config.epochs config) (Config.loss config) 1000 wandb_callback
              np_random_permutation X_train y_train nn1 o1 Ho1) as [st' [Ho' _]].
  unfold exec in Ho'. rewrite Etrain in Ho'. eauto.
Qed.

(* ================================================================== *)
(** ** Loss and accuracy on well-formed input *)

Lemma predict_runs (self : NeuralNetwork) (X : ndarray) :
  well_shaped self -> activations_usable self ->
  shape1 X = nth 0 (layer_sizes self) 0 ->
  exists P, run (predict X) self = Ok P /\
            has_shape P (shape0 X) (nth (L self) (layer_sizes self) 0).
Proof.
  intros Hws Hacts HX.
  destruct (forward_propagation_runs self X Hws Hacts HX)
    as [H [A [Hrun [HlH [HlA [HH HA]]]]]].
  destruct (HH (L self) (le_n _)) as [P [EP HP]].
  exists P. split; [| exact HP].
  unfold predict. rewrite run_bind_readonly by apply readonly_forward_propagation.
  rewrite Hrun. simpl. unfold run, lift. simpl.
  apply index_from_end_last; [| lia].
  rewrite HlH. replace (L self + 1 - 1) with (L self) by lia. exact EP.
Qed.

Lemma supported_loss_cases (loss_type : string) :
  supported_loss loss_type = true ->
  lower loss_type = "cross_entropy"%string \/ lower loss_type = "mse"%string \/
  lower loss_type = "mean_squared_error"%string.
Proof.
  unfold supported_loss. simpl. intros Hs.
  repeat (apply orb_true_iff in Hs; destruct Hs as [Hs | Hs]);
    try (apply String.eqb_eq in Hs; rewrite Hs; tauto).
  discriminate.
Qed.

Lemma compute_loss_runs (self : NeuralNetwork) (P : ndarray) (v : list Z)
    (loss_type : string) :
  well_shaped self ->
  has_shape P (List.length v) (nth (L self) (layer_sizes self) 0) ->
  labels_in_range (nth (L self) (layer_sizes self) 0) v ->
  supported_loss loss_type = true ->
  exists l, run (compute_loss P (Indices v) loss_type) self = Ok l.
Proof.
  intros Hws [HP0 HP1] Hv Hloss.
  destruct (one_hot_shape self v Hws Hv) as [Y [EY [HY0 HY1]]].
  unfold compute_loss.
  rewrite run_bind_readonly by apply readonly_expand_labels.
  change (expand_labels (Indices v)) with (one_hot (Indices v)).
  rewrite EY. cbn [rbind].
  destruct (supported_loss_cases _ Hloss) as [E | E].
  - rewrite E. simpl String.eqb. cbv iota.
    unfold run, bind, lift, ret.
    rewrite broadcast_same_shape by (split; simpl; lia).
    eexists. reflexivity.
  - assert (E' : String.eqb (lower loss_type) "cross_entropy" = false /\
                 String.eqb (lower loss_type) "mse"
                 || String.eqb (lower loss_type) "mean_squared_error" = true).
    { destruct E as [-> | ->]; split; reflexivity. }
    destruct E' as [-> ->].
    unfold run, bind, lift, ret.
    rewrite broadcast_same_shape by (split; simpl; lia).
    eexists. reflexivity.
Qed.

Lemma compute_accuracy_runs (self : NeuralNetwork) (X : ndarray) (v : list Z) :
  well_shaped self -> activations_usable self ->
  shape1 X = nth 0 (layer_sizes self) 0 ->
  nth (L self) (layer_sizes self) 0 <> 0 ->
  List.length v = shape0 X ->
  exists acc, run (compute_accuracy X (Indices v)) self = Ok acc.
Proof.
  intros Hws Hacts HX HC Hv.
  destruct (predict_runs self X Hws Hacts HX) as [P [EP [HP0 HP1]]].
  unfold compute_accuracy.
  rewrite run_bind_readonly by apply readonly_predict.
  rewrite EP. cbn [rbind].
  unfold run, bind, lift. unfold argmax_axis1.
  destruct (Nat.eqb_spec (shape1 P) 0) as [Hz | _]; [lia |].
  cbn [fst]. rewrite mean_equal_matches by (rewrite length_map, length_seq; lia).
  eexists. reflexivity.
Qed.

(** X20. On a well-shaped network with supported activations and at
    least one output unit, the metrics cannot fail on well-formed data:
    for an input of [layer_sizes[0]] columns with one integer label in
    [-C, C) per row and a supported loss name, [predict],
    [compute_loss] on its result and [compute_accuracy] all return. *)
Theorem metrics_total (self : NeuralNetwork) (X : ndarray) (v : list Z)
    (loss_type : string) :
  well_shaped self -> activations_usable self ->
  shape1 X = nth 0 (layer_sizes self) 0 ->
  nth (L self) (layer_sizes self) 0 <> 0 ->
  List.length v = shape0 X ->
  labels_in_range (nth (L self) (layer_sizes self) 0) v ->
  supported_loss loss_type = true ->
  exists P l acc,
    run (predict X) self = Ok P /\
    has_shape P (shape0 X) (nth (L self) (layer_sizes self) 0) /\
    run (compute_loss P (Indices v) loss_type) self = Ok l /\
    run (compute_accuracy X (Indices v)) self = Ok acc.
Proof.
  intros Hws Hacts HX HC Hv Hrange Hloss.
  destruct (predict_runs self X Hws Hacts HX) as [P [EP HP]].
  assert (HP' := HP). rewrite <- Hv in HP'.
  destruct (compute_loss_runs self P v loss_type Hws HP' Hrange Hloss) as [l El].
  destruct (compute_accuracy_runs self X v Hws Hacts HX HC Hv) as [acc Eacc].
  exists P, l, acc. auto.
Qed.

(* ================================================================== *)
(** ** Training: a run on well-formed input *)

Lemma bind_step {A C : Type} (m : M A) (k : A -> M C) (s s' : NeuralNetwork)
    (a : A) :
  m s = (Ok a, s') -> bind m k s = k a s'.
Proof. intros E. unfold bind. rewrite E. reflexivity. Qed.

Lemma bind_readonly_step {A C : Type} (m : M A) (k : A -> M C)
    (s : NeuralNetwork) (a : A) :
  readonly m -> run m s = Ok a -> bind m k s = k a s.
Proof.
  intros Hm E. apply bind_step. rewrite (readonly_state m s Hm), E. reflexivity.
Qed.

Lemma activations_usable_architecture (a b : NeuralNetwork) :
  same_architecture a b -> activations_usable b -> activations_usable a.
Proof.
  intros [E1 [_ [E3 _]]] Hb i act E. rewrite E1. rewrite E3 in E.
  exact (Hb i act E).
Qed.

Lemma trainable_loss_architecture (a b : NeuralNetwork) (loss_type : string) :
  same_architecture a b -> trainable_loss b loss_type -> trainable_loss a loss_type.
Proof.
  intros [_ [_ [E3 _]]] Hb. unfold trainable_loss in *. rewrite E3. exact Hb.
Qed.

Lemma trainable_loss_supported (self : NeuralNetwork) (loss_type : string) :
  trainable_loss self loss_type -> supported_loss loss_type = true.
Proof.
  intros [[E _] | [E | E]]; unfold supported_loss; rewrite E; reflexivity.
Qed.

Lemma clamp_le (n : nat) (i : Z) : PyList.clamp n i <= n.
Proof. unfold PyList.clamp. destruct (Z.ltb_spec i 0); lia. Qed.

Lemma labels_in_range_nth (C : nat) (v : list Z) (idx : list nat) :
  labels_in_range C v ->
  Forall (fun i => i < List.length v) idx ->
  labels_in_range C (map (fun i => nth i v 0%Z) idx).
Proof.
  unfold labels_in_range. intros Hv Hidx. apply Forall_map.
  rewrite Forall_forall in *. intros i Hi.
  apply Hv. apply nth_In. apply Hidx. exact Hi.
Qed.

(** A slice of labelled data is labelled data. *)
Lemma labelled_slice (self0 : NeuralNetwork) (X : ndarray) (y : labels)
    (start stop : Z) :
  labelled self0 X y ->
  labelled self0 (slice_rows X start stop) (slice_labels y start stop).
Proof.
  intros [v [-> [Hlen [Hcols Hrange]]]].
  assert (Hs := clamp_le (List.length v) start).
  assert (He := clamp_le (List.length v) stop).
  exists (PyList.slice v start stop). split; [reflexivity |].
  unfold PyList.slice, slice_rows. simpl shape0. simpl shape1. rewrite <- Hlen.
  split; [| split; [exact Hcols |]].
  - rewrite length_firstn, length_skipn. lia.
  - rewrite (firstn_skipn_seq 0%Z) by lia.
    apply labels_in_range_nth; [exact Hrange |].
    apply Forall_forall. intros i Hi. apply in_seq in Hi. lia.
Qed.

(** A permutation step on labelled data. *)
Lemma labelled_shuffle (self0 : NeuralNetwork) (X : ndarray) (y : labels)
    (permutation : list nat) :
  labelled self0 X y ->
  Forall (fun i => i < shape0 X) permutation ->
  exists X' y',
    shuffle permutation X y = Ok (X', y') /\
    labelled self0 X' y' /\ shape0 X' = List.length permutation.
Proof.
  intros [v [-> [Hlen [Hcols Hrange]]]] Hperm.
  assert (Hb : forall n, n = shape0 X ->
            forallb (fun i => i <? n) permutation = true).
  { intros n ->. apply forallb_forall. rewrite Forall_forall in Hperm.
    intros i Hi. apply Nat.ltb_lt. apply Hperm. exact Hi. }
  unfold shuffle, take_rows, take_labels.
  rewrite (Hb (shape0 X) eq_refl), (Hb (List.length v) Hlen). cbn [rbind].
  eexists. eexists. split; [reflexivity |]. split; [| reflexivity].
  exists (map (fun i => nth i v 0%Z) permutation).
  split; [reflexivity | split; [| split; [exact Hcols |]]].
  - rewrite length_map. reflexivity.
  - apply labels_in_range_nth; [exact Hrange |]. rewrite Hlen. exact Hperm.
Qed.

Section TrainRuns.

Variable self0 : NeuralNetwork.
Variable good : optimizer_obj -> Prop.
Variable Xv : ndarray.
Variable yv : list Z.
Variable batch_size : Z.
Variable loss_type : string.
Variable log_every : Z.
Variable callback : option (float -> float -> float -> float -> result unit).
Variable np_random_permutation : Z -> list nat.
Variable num_datapoints : nat.
Variable num_batches : Z.

Hypothesis usable0 : activations_usable self0.
Hypothesis layers0 : 1 <= L self0.
Hypothesis classes0 : nth (L self0) (layer_sizes self0) 0 <> 0.
Hypothesis loss0 : trainable_loss self0 loss_type.
Hypothesis optimizer0 : optimizer_keeps_shapes good self0.
Hypothesis log0 : log_every <> 0%Z.
Hypothesis batches0 : (0 < num_batches)%Z.
Hypothesis permutation0 :
  forall epoch,
    List.length (np_random_permutation epoch) = num_datapoints /\
    Forall (fun i => i < num_datapoints) (np_random_permutation epoch).
Hypothesis validation0 : labelled self0 Xv (Indices yv).
Hypothesis callback0 :
  forall on_epoch_end, callback = Some on_epoch_end ->
  forall a b c d, on_epoch_end a b c d = Ok tt.

(** The optimizer step on gradients of the parameters' shapes. *)
Lemma optimizer_step_runs (s : NeuralNetwork) (dW dB : grads) (iteration : Z) :
  trainable_state good self0 s -> gradients_shaped s dW dB ->
  exists s',
    optimizer_step dW dB iteration s = (Ok tt, s') /\
    trainable_state good self0 s'.
Proof.
  intros [Hws [Harch [o [Ho Hgood]]]] Hgrads.
  destruct (optimizer0 s o dW dB iteration Hgood Hws Harch Hgrads)
    as [W' [B' [st' [Eupd [Hws' Hgood']]]]].
  unfold optimizer_step, bind, gets, modify, lift. rewrite Ho, Eupd.
  eexists. split; [reflexivity |].
  split; [exact Hws' | split].
  - destruct Harch as [A1 [A2 [A3 [A4 A5]]]]. repeat split; assumption.
  - eexists. split; [reflexivity | exact Hgood'].
Qed.

(** The metrics on labelled data, in a trainable state. *)
Lemma predict_runs_in (s : NeuralNetwork) (X : ndarray) (y : labels) :
  trainable_state good self0 s -> labelled self0 X y ->
  exists P, run (predict X) s = Ok P /\
            has_shape P (shape0 X) (nth (L self0) (layer_sizes self0) 0).
Proof.
  intros [Hws [Harch _]] [v [_ [_ [Hcols _]]]].
  assert (Hacts := activations_usable_architecture s self0 Harch usable0).
  destruct Harch as [A1 [A2 _]]. rewrite <- A1, <- A2 in *.
  apply predict_runs; assumption.
Qed.

Lemma compute_loss_runs_in (s : NeuralNetwork) (P X : ndarray) (y : labels) :
  trainable_state good self0 s -> labelled self0 X y ->
  has_shape P (shape0 X) (nth (L self0) (layer_sizes self0) 0) ->
  exists l, run (compute_loss P y loss_type) s = Ok l.
Proof.
  intros [Hws [Harch _]] [v [-> [Hlen [_ Hrange]]]] HP.
  assert (Hloss := trainable_loss_supported self0 loss_type loss0).
  destruct Harch as [A1 [A2 _]]. rewrite <- A1, <- A2 in *. rewrite <- Hlen in HP.
  apply compute_loss_runs; assumption.
Qed.

Lemma compute_accuracy_runs_in (s : NeuralNetwork) (X : ndarray) (y : labels) :
  trainable_state good self0 s -> labelled self0 X y ->
  exists acc, run (compute_accuracy X y) s = Ok acc.
Proof.
  intros [Hws [Harch _]] [v [-> [Hlen [Hcols _]]]].
  assert (Hacts := activations_usable_architecture s self0 Harch usable0).
  assert (HC := classes0).
  destruct Harch as [A1 [A2 _]]. rewrite <- A1, <- A2 in *.
  apply compute_accuracy_runs; assumption.
Qed.

(** The logging block of a batch. *)
Lemma batch_logging_runs (s : NeuralNetwork) (iteration : Z) (H : list ndarray)
    (X_batch : ndarray) (y_batch : labels) :
  trainable_state good self0 s ->
  cached_batch self0 (H, X_batch, y_batch) ->
  run (if (log_every =? 0)%Z then raise ZeroDivisionError
       else if (iteration mod log_every =? 0)%Z then
         HL <- lift (PyList.index_from_end H 1) ;;
         _ <- compute_loss HL y_batch loss_type ;;
         match Some Xv, Some (Indices yv) with
         | Some Xv', Some yv' =>
             p <- predict Xv' ;;
             _ <- compute_loss p yv' loss_type ;;
             ret tt
         | _, _ => ret tt
         end
       else ret tt) s = Ok tt.
Proof.
  intros Hs [Hlab [HL [EHL HHL]]].
  destruct (Z.eqb_spec log_every 0) as [| _]; [contradiction |].
  destruct (iteration mod log_every =? 0)%Z; [| reflexivity].
  rewrite run_bind_readonly by apply readonly_lift.
  change (run (lift (PyList.index_from_end H 1)) s)
    with (PyList.index_from_end H 1).
  rewrite EHL. cbn [rbind].
  rewrite run_bind_readonly by apply readonly_compute_loss.
  destruct (compute_loss_runs_in s HL X_batch y_batch Hs Hlab HHL) as [l ->].
  cbn [rbind].
  rewrite run_bind_readonly by apply readonly_predict.
  destruct (predict_runs_in s Xv (Indices yv) Hs validation0) as [P [-> HP]].
  cbn [rbind].
  rewrite run_bind_readonly by apply readonly_compute_loss.
  destruct (compute_loss_runs_in s P Xv (Indices yv) Hs validation0 HP) as [l' ->].
  reflexivity.
Qed.

(** One batch. *)
Lemma train_batch_runs (batch : Z) (v : locals) (s : NeuralNetwork) :
  trainable_state good self0 s ->
  labelled self0 (loc_X_train v) (loc_y_train v) ->
  exists v' s',
    train_batch (Some Xv) (Some (Indices yv)) batch_size loss_type log_every
      num_datapoints batch v s = (Ok v', s') /\
    trainable_state good self0 s' /\
    loc_X_train v' = loc_X_train v /\ loc_y_train v' = loc_y_train v /\
    loc_history v' = loc_history v /\
    exists b, loc_batch v' = Some b /\ cached_batch self0 b.
Proof.
  intros Hs Hdata. unfold train_batch. cbv zeta.
  set (start_idx := (batch * batch_size)%Z).
  set (end_idx := Z.min ((batch + 1) * batch_size) (Z.of_nat num_datapoints)).
  set (X_batch := slice_rows (loc_X_train v) start_idx end_idx).
  set (y_batch := slice_labels (loc_y_train v) start_idx end_idx).
  assert (Hbatch : labelled self0 X_batch y_batch)
    by (apply labelled_slice; exact Hdata).
  assert (Hs' := Hs). destruct Hs' as [Hws [Harch _]].
  assert (Hacts := activations_usable_architecture s self0 Harch usable0).
  assert (Hloss := trainable_loss_architecture s self0 loss_type Harch loss0).
  assert (Harch' := Harch). destruct Harch' as [A1 [A2 _]].
  destruct Hbatch as [vb [Eyb [Hlen [Hcols Hrange]]]].
  rewrite <- A1 in Hcols. rewrite <- A1, <- A2 in Hrange.
  destruct (forward_propagation_runs s X_batch Hws Hacts Hcols)
    as [H [A [Efwd [HlH [HlA [HH HA]]]]]].
  rewrite (bind_readonly_step _ _ s (H, A) (readonly_forward_propagation X_batch) Efwd).
  cbv beta iota.
  destruct (back_propagation_shapes s X_batch vb H A loss_type Hws Hacts
              ltac:(lia) HlH HlA HH HA Hlen Hrange Hloss) as [dW [dB [Eback Hgrads]]].
  rewrite Eyb.
  rewrite (bind_readonly_step _ _ s (dW, dB)
             (readonly_back_propagation X_batch (Indices vb) H A loss_type) Eback).
  cbv beta iota.
  destruct (optimizer_step_runs s dW dB (loc_iteration v) Hs Hgrads)
    as [s' [Estep Hs']].
  rewrite (bind_step _ _ s s' tt Estep).
  assert (Hcached : cached_batch self0 (H, X_batch, Indices vb)).
  { split.
    - exists vb. rewrite A1 in Hcols. rewrite A1, A2 in Hrange. auto.
    - destruct (HH (L s) (le_n _)) as [HL [EHL HHL]].
      exists HL. split.
      + apply index_from_end_last; [| lia]. rewrite HlH.
        replace (L s + 1 - 1) with (L s) by lia. exact EHL.
      + rewrite A1, A2 in HHL. exact HHL. }
  assert (Elog := batch_logging_runs s' (loc_iteration v) H X_batch (Indices vb)
                    Hs' Hcached).
  match goal with
  | |- exists v' s'', bind ?m ?k s' = _ /\ _ =>
      assert (Hm : readonly m) by readonly_auto;
      rewrite (bind_readonly_step m k s' tt Hm Elog)
  end.
  eexists. eexists. split; [reflexivity |].
  split; [exact Hs' |]. simpl.
  split; [reflexivity | split; [reflexivity | split; [reflexivity |]]].
  eexists. split; [reflexivity | exact Hcached].
Qed.

(** The batches of an epoch. *)
Lemma train_batches_run (batches : list Z) :
  forall (v : locals) (s : NeuralNetwork),
    trainable_state good self0 s ->
    labelled self0 (loc_X_train v) (loc_y_train v) ->
    exists v' s',
      for_each batches
        (train_batch (Some Xv) (Some (Indices yv)) batch_size loss_type log_every
           num_datapoints) v s = (Ok v', s') /\
      trainable_state good self0 s' /\
      loc_X_train v' = loc_X_train v /\ loc_y_train v' = loc_y_train v /\
      loc_history v' = loc_history v /\
      (batches <> [] \/ (exists b, loc_batch v = Some b /\ cached_batch self0 b) ->
       exists b, loc_batch v' = Some b /\ cached_batch self0 b).
Proof.
  induction batches as [| batch batches IH]; intros v s Hs Hdata.
  - exists v, s. split; [reflexivity |].
    split; [exact Hs | split; [reflexivity | split; [reflexivity |
      split; [reflexivity |]]]].
    intros [Hne | Hb]; [contradiction | exact Hb].
  - destruct (train_batch_runs batch v s Hs Hdata)
      as [v1 [s1 [E1 [Hs1 [EX1 [Ey1 [Eh1 Hb1]]]]]]].
    assert (Hdata1 : labelled self0 (loc_X_train v1) (loc_y_train v1))
      by (rewrite EX1, Ey1; exact Hdata).
    destruct (IH v1 s1 Hs1 Hdata1) as [v' [s' [E' [Hs' [EX' [Ey' [Eh' Hb']]]]]]].
    exists v', s'. split.
    + rewrite for_each_cons. rewrite (bind_step _ _ s s1 v1 E1). exact E'.
    + split; [exact Hs' |].
      split; [congruence | split; [congruence | split; [congruence |]]].
      intros _. apply Hb'. right. exact Hb1.
Qed.

(** The end of an epoch, with validation data. *)
Lemma epoch_validation_runs (v : locals) (train_loss_ : float) (hist : history)
    (s : NeuralNetwork) :
  trainable_state good self0 s ->
  labelled self0 (loc_X_train v) (loc_y_train v) ->
  validated hist ->
  exists hist',
    run (epoch_validation (Some Xv) (Some (Indices yv)) loss_type callback v
           train_loss_ hist) s = Ok hist' /\
    validated hist'.
Proof.
  intros Hs Hdata [vl [va [Evl Eva]]]. unfold epoch_validation.
  destruct (predict_runs_in s Xv (Indices yv) Hs validation0) as [P [EP HP]].
  destruct (compute_loss_runs_in s P Xv (Indices yv) Hs validation0 HP) as [l El].
  destruct (compute_accuracy_runs_in s Xv (Indices yv) Hs validation0) as [a Ea].
  rewrite run_bind_readonly by apply readonly_predict. rewrite EP. cbn [rbind].
  rewrite run_bind_readonly by apply readonly_compute_loss. rewrite El. cbn [rbind].
  rewrite run_bind_readonly by apply readonly_compute_accuracy. rewrite Ea.
  cbn [rbind]. rewrite Evl, Eva.
  destruct callback as [on_epoch_end |] eqn:Ecb.
  - destruct (compute_accuracy_runs_in s (loc_X_train v) (loc_y_train v) Hs Hdata)
      as [a' Ea'].
    rewrite run_bind_readonly by apply readonly_compute_accuracy.
    rewrite Ea'. cbn [rbind].
    rewrite run_bind_readonly by apply readonly_predict. rewrite EP. cbn [rbind].
    rewrite run_bind_readonly by apply readonly_compute_loss. rewrite El.
    cbn [rbind].
    rewrite run_bind_readonly by apply readonly_compute_accuracy. rewrite Ea.
    cbn [rbind].
    rewrite run_bind_readonly by apply readonly_lift.
    unfold run at 1, lift at 1. simpl fst.
    rewrite (callback0 on_epoch_end eq_refl). cbn [rbind].
    eexists. split; [reflexivity |]. eexists. eexists. split; reflexivity.
  - eexists. split; [reflexivity |]. eexists. eexists. split; reflexivity.
Qed.

(** One epoch. *)
Lemma train_epoch_runs (epoch : Z) (v : locals) (s : NeuralNetwork) :
  trainable_state good self0 s ->
  labelled self0 (loc_X_train v) (loc_y_train v) ->
  shape0 (loc_X_train v) = num_datapoints ->
  validated (loc_history v) ->
  exists v' s',
    train_epoch (Some Xv) (Some (Indices yv)) batch_size loss_type log_every
      callback np_random_permutation num_datapoints num_batches epoch v s
      = (Ok v', s') /\
    trainable_state good self0 s' /\
    labelled self0 (loc_X_train v') (loc_y_train v') /\
    shape0 (loc_X_train v') = num_datapoints /\
    validated (loc_history v').
Proof.
  intros Hs Hdata HN Hval. unfold train_epoch.
  destruct (permutation0 epoch) as [Hplen Hperm]. rewrite <- HN in Hperm.
  destruct (labelled_shuffle self0 _ _ _ Hdata Hperm) as [X' [y' [Eshuf [Hdata' HN']]]].
  rewrite (bind_readonly_step _ _ s (X', y') (readonly_lift _) Eshuf).
  cbv beta iota.
  destruct (train_batches_run (PyList.range num_batches)
              (mk_locals X' y' (loc_iteration v) (loc_history v) (loc_batch v))
              s Hs Hdata')
    as [v1 [s1 [Ebatches [Hs1 [EX1 [Ey1 [Eh1 Hb1]]]]]]].
  simpl in EX1, Ey1, Eh1.
  rewrite (bind_step _ _ s s1 v1 Ebatches).
  destruct Hb1 as [[[H Xb] yb] [Eb Hcached]].
  { left. unfold PyList.range.
    destruct (Z.to_nat num_batches) eqn:En; [lia | discriminate]. }
  rewrite Eb.
  assert (Hc := Hcached). destruct Hc as [Hlab [HL [EHL HHL]]].
  rewrite (bind_readonly_step _ _ s1 HL (readonly_lift _) EHL).
  destruct (compute_loss_runs_in s1 HL Xb yb Hs1 Hlab HHL) as [l El].
  rewrite (bind_readonly_step _ _ s1 l (readonly_compute_loss HL yb loss_type) El).
  destruct (compute_accuracy_runs_in s1 Xb yb Hs1 Hlab) as [a Ea].
  rewrite (bind_readonly_step _ _ s1 a (readonly_compute_accuracy Xb yb) Ea).
  assert (Hdata1 : labelled self0 (loc_X_train v1) (loc_y_train v1))
    by (rewrite EX1, Ey1; exact Hdata').
  destruct (epoch_validation_runs v1 l
              (mk_history (train_loss (loc_history v1) ++ [l])
                 (train_acc (loc_history v1) ++ [a])
                 (val_loss (loc_history v1)) (val_acc (loc_history v1)))
              s1 Hs1 Hdata1) as [hist' [Ehist Hval']].
  { rewrite Eh1. exact Hval. }
  cbv zeta.
  rewrite (bind_readonly_step _ _ s1 hist'
             (readonly_epoch_validation _ _ _ _ _ _ _) Ehist).
  eexists. eexists. split; [reflexivity |]. simpl.
  split; [exact Hs1 | split; [exact Hdata1 | split; [| exact Hval']]].
  rewrite EX1, HN'. exact Hplen.
Qed.

(** The epochs. *)
Lemma train_epochs_run (epochs : list Z) :
  forall (v : locals) (s : NeuralNetwork),
    trainable_state good self0 s ->
    labelled self0 (loc_X_train v) (loc_y_train v) ->
    shape0 (loc_X_train v) = num_datapoints ->
    validated (loc_history v) ->
    exists v' s',
      for_each epochs
        (train_epoch (Some Xv) (Some (Indices yv)) batch_size loss_type log_every
           callback np_random_permutation num_datapoints num_batches) v s
        = (Ok v', s') /\
      trainable_state good self0 s'.
Proof.
  induction epochs as [| epoch epochs IH]; intros v s Hs Hdata HN Hval.
  - exists v, s. split; [reflexivity | exact Hs].
  - destruct (train_epoch_runs epoch v s Hs Hdata HN Hval)
      as [v1 [s1 [E1 [Hs1 [Hdata1 [HN1 Hval1]]]]]].
    destruct (IH v1 s1 Hs1 Hdata1 HN1 Hval1) as [v' [s' [E' Hs']]].
    exists v', s'. split; [| exact Hs'].
    rewrite for_each_cons. rewrite (bind_step _ _ s s1 v1 E1). exact E'.
Qed.

End TrainRuns.

Lemma labels_in_range_classes (C : nat) (v : list Z) :
  labels_in_range C v -> 0 < List.length v -> C <> 0.
Proof.
  intros Hv Hlen. destruct v as [| z v]; [simpl in Hlen; lia |].
  inversion Hv as [| ? ? Hz _]. lia.
Qed.


(* ================================================================== *)
(** ** Training on one-hot labels *)

Lemma raises_bind_lift {A C : Type} (r : result A) (k : A -> M C) :
  (forall a, r = Ok a -> raises (k a)) -> raises (bind (lift r) k).
Proof.
  intros Hk self. unfold run, bind, lift.
  destruct r as [a | e]; [apply (Hk a eq_refl) | exists e; reflexivity].
Qed.

Lemma bind_raise_step {A C : Type} (m : M A) (k : A -> M C)
    (s s' : NeuralNetwork) (e : exception) :
  m s = (Err e, s') -> bind m k s = (Err e, s').
Proof. intros E. unfold bind. rewrite E. reflexivity. Qed.

(** The second assertion of [back_propagation] fails, and the network
    is as it was. *)
Lemma back_propagation_size_assertion (self : NeuralNetwork) (X : ndarray)
    (y : labels) (H A : list ndarray) (loss_type : string) :
  shape0 X <> size y ->
  back_propagation X y H A loss_type self = (Err (AssertionError ""), self).
Proof.
  intros HN.
  rewrite (readonly_state _ self (readonly_back_propagation X y H A loss_type)).
  rewrite run_back_propagation.
  rewrite (layer_gradients_size_assertion self X y H A loss_type HN).
  reflexivity.
Qed.

(** The first batch of shuffled one-hot data has as many label rows as
    input rows, so its labels do not have one entry per row. *)
Lemma one_hot_first_batch (X_train m X' : ndarray) (y' : labels)
    (permutation : list nat) (batch_size : Z) :
  shape1 m <> 1 -> permutation <> [] ->
  0 < shape0 X_train -> (0 < batch_size)%Z ->
  shuffle permutation X_train (OneHot m) = Ok (X', y') ->
  shape0 (slice_rows X' (0 * batch_size)
            (Z.min ((0 + 1) * batch_size) (Z.of_nat (shape0 X_train))))
  <> size (slice_labels y' (0 * batch_size)
             (Z.min ((0 + 1) * batch_size) (Z.of_nat (shape0 X_train)))).
Proof.
  intros Hclasses Hperm HN Hbs Eshuffle.
  unfold shuffle, take_labels, take_rows in Eshuffle.
  destruct (forallb (fun i => i <? shape0 X_train) permutation); [| discriminate].
  destruct (forallb (fun i => i <? shape0 m) permutation); [| discriminate].
  cbn [rbind] in Eshuffle. injection Eshuffle as <- <-.
  assert (Hlen : 0 < List.length permutation).
  { destruct permutation; [contradiction | simpl; lia]. }
  cbn [slice_labels]. apply one_hot_size.
  - reflexivity.
  - unfold slice_rows. cbn [shape0 tabulate]. rewrite !clamp_nonneg by lia. lia.
  - exact Hclasses.
Qed.

(** [train] once an optimizer is there: the one attached, or the
    default one that [set_optimizer] attaches. *)
Lemma train_after_attach (self self1 : NeuralNetwork)
    (X_train : ndarray) (y_train : labels)
    (X_val : option ndarray) (y_val : option labels)
    (batch_size num_epochs : Z) (loss_type : string) (log_every : Z)
    (callback : option (float -> float -> float -> float -> result unit))
    (np_random_permutation : Z -> list nat) :
  match optimizer self with
  | None => set_optimizer default_optimizer self
  | Some _ => (Ok tt, self)
  end = (Ok tt, self1) ->
  train X_train y_train X_val y_val batch_size num_epochs loss_type log_every
    callback np_random_permutation self
  = train_loop X_train y_train X_val y_val batch_size num_epochs loss_type
      log_every callback np_random_permutation self1.
Proof.
  intros E. unfold train. unfold bind at 1, gets at 1.
  destruct (optimizer self) as [o |].
  - injection E as <-. reflexivity.
  - rewrite (bind_step _ _ self self1 tt E). reflexivity.
Qed.


(* ================================================================== *)
(** ** Inputs of the wrong width *)

(** X23. An input whose number of columns is not [layer_sizes[0]] is
    rejected at the first layer: on a network with at least one layer
    and parameters of the shapes of its [layer_sizes],
    [forward_propagation] and [predict] raise the ValueError of
    [np.dot]. *)
Theorem forward_propagation_rejects_width (self : NeuralNetwork) (X : ndarray) :
  well_shaped self -> 1 <= L self ->
  shape1 X <> nth 0 (layer_sizes self) 0 ->
  run (forward_propagation X) self = Err (ValueError "shapes not aligned") /\
  run (predict X) self = Err (ValueError "shapes not aligned").
Proof.
  intros [_ [_ [_ [_ Hshapes]]]] Hn HX.
  destruct (Hshapes 0 ltac:(lia)) as [W0 [B0 [EW [_ [_ [EW1 _]]]]]].
  assert (Efwd : run (forward_propagation X) self
                 = Err (ValueError "shapes not aligned")).
  { unfold forward_propagation.
    rewrite run_bind_readonly by apply readonly_gets.
    change (run (gets L) self) with (Ok (L self)). cbn [rbind].
    destruct (L self) as [| n]; [lia |].
    simpl seq. rewrite for_each_cons.
    rewrite run_bind_readonly by apply readonly_forward_layer.
    change (forward_layer 0 ([X], []))
      with (forward_layer (List.length (@nil ndarray)) ([X], [])).
    rewrite (run_forward_layer self [X] []). simpl List.length.
    change (PyList.index [X] 0) with (Ok X). cbn [rbind].
    unfold layer_output. apply index_ok in EW. rewrite EW. cbn [rbind].
    unfold np_dot. cbn [shape0 transpose tabulate].
    rewrite EW1. destruct (Nat.eqb_spec (shape1 X) (nth 0 (layer_sizes self) 0));
      [contradiction | reflexivity]. }
  split; [exact Efwd |].
  unfold predict. rewrite run_bind_readonly by apply readonly_forward_propagation.
  rewrite Efwd. reflexivity.
Qed.
End Network.

(* ================================================================== *)
(** ** Training: the number of batches

    [int(np.ceil(num_datapoints / batch_size))] goes through float64.
    The quotient of two integers is rounded to 53 bits; the lemmas
    below follow the rounding of [SpecFloat] and show that rounding up
    afterwards still gives the ceiling of the exact quotient. *)

Section NumBatches.
Local Open Scope Z_scope.

Lemma digits2_pos_size (p : positive) : digits2_pos p = Pos.size p.
Proof. induction p; simpl; congruence. Qed.

Lemma Zdigits2_bounds (p : positive) :
  2 ^ (Zdigits2 (Zpos p) - 1) <= Zpos p < 2 ^ Zdigits2 (Zpos p).
Proof.
  change (Zdigits2 (Z.pos p)) with (Z.pos (digits2_pos p)).
  rewrite digits2_pos_size.
  assert (H1 := Pos.size_gt p). assert (H2 := Pos.size_le p).
  apply Pos2Z.pos_lt_pos in H1. apply Pos2Z.pos_le_pos in H2.
  rewrite Pos2Z.inj_pow in H1, H2.
  replace (Z.pos (Pos.size p)) with (Z.succ (Z.pos (Pos.size p) - 1)) in H2 by lia.
  rewrite Z.pow_succ_r in H2 by lia.
  change (Z.pos p~0) with (2 * Z.pos p) in H2.
  change (Z.pos 2) with 2 in *.
  split; [lia | exact H1].
Qed.

Lemma Zdigits2_unique (x d : Z) :
  2 ^ (d - 1) <= x < 2 ^ d -> 1 <= d -> Zdigits2 x = d.
Proof.
  intros [Hlo Hhi] Hd.
  assert (Hx : 0 < x) by (assert (0 < 2 ^ (d - 1)) by (apply Z.pow_pos_nonneg; lia); lia).
  destruct x as [| p | p]; try lia.
  destruct (Zdigits2_bounds p) as [Blo Bhi].
  set (d' := Zdigits2 (Z.pos p)) in *.
  assert (Hd' : 1 <= d') by (unfold d'; change (Zdigits2 (Z.pos p)) with (Z.pos (digits2_pos p)); lia).
  destruct (Z.lt_trichotomy d' d) as [Hlt | [Heq | Hgt]]; [| exact Heq |]; exfalso.
  - assert (2 ^ d' <= 2 ^ (d - 1)) by (apply Z.pow_le_mono_r; lia). lia.
  - assert (2 ^ d <= 2 ^ (d' - 1)) by (apply Z.pow_le_mono_r; lia). lia.
Qed.

Lemma new_location_exact (b r : Z) : new_location b r = loc_Exact <-> r = 0.
Proof.
  unfold new_location, new_location_even, new_location_odd.
  destruct (Z.even b); destruct (Z.eqb_spec r 0); split; intros E;
    try reflexivity; try assumption; try discriminate; contradiction.
Qed.

Lemma shr_fexp_53 (m e : Z) (l : location) :
  2 ^ 52 <= m < 2 ^ 53 -> -1074 <= e ->
  shr_fexp 53 1024 m e l = (shr_record_of_loc m l, e).
Proof.
  intros Hm He. unfold shr_fexp. rewrite (Zdigits2_unique m 53) by lia.
  unfold fexp, emin.
  replace (Z.max (53 + e - 53) (3 - 1024 - 53) - e) with 0 by lia.
  reflexivity.
Qed.

Lemma shr_fexp_54 (m e : Z) (l : location) :
  2 ^ 53 <= m < 2 ^ 54 -> -1075 <= e ->
  shr_fexp 53 1024 m e l = (shr_1 (shr_record_of_loc m l), e + 1).
Proof.
  intros Hm He. unfold shr_fexp. rewrite (Zdigits2_unique m 54) by lia.
  unfold fexp, emin.
  replace (Z.max (54 + e - 53) (3 - 1024 - 53) - e) with 1 by lia.
  reflexivity.
Qed.

Lemma binary_round_aux_tail (q e : Z) (l : location) :
  binary_round_aux 53 1024 false q e l =
  let '(mrs', e1) := shr_fexp 53 1024 q e l in
  round_tail (round_nearest_even (shr_m mrs') (loc_of_shr_record mrs')) e1.
Proof. reflexivity. Qed.

Lemma round_tail_ceil (m1 e1 : Z) :
  2 ^ 52 <= m1 <= 2 ^ 53 -> -1074 <= e1 <= 0 ->
  int_ceil (round_tail m1 e1) = ceil_div m1 (2 ^ (- e1)).
Proof.
  intros Hm He. unfold round_tail, ceil_div.
  destruct (Z.eq_dec m1 (2 ^ 53)) as [-> | Hne].
  - rewrite shr_fexp_54 by lia.
    change (shr_m (shr_1 (shr_record_of_loc (2 ^ 53) loc_Exact))) with (2 ^ 52).
    change (2 ^ 52) with (Z.pos (2 ^ 52)%positive).
    destruct (Z.leb_spec (e1 + 1) (1024 - 53)); [| lia].
    cbn [int_ceil].
    destruct (Z.leb_spec 0 (e1 + 1)).
    + assert (e1 = 0 \/ e1 = -1) as [-> | ->] by lia; reflexivity.
    + replace (- e1) with (Z.succ (- (e1 + 1))) by lia.
      rewrite Z.pow_succ_r by lia.
      change (- Z.pos (2 ^ 53)%positive) with (2 * (- Z.pos (2 ^ 52)%positive)).
      change (Z.pos (2 ^ 53)%positive) with (2 ^ 53).
      change (- 2 ^ 53) with (2 * - Z.pos (2 ^ 52)%positive).
      rewrite Z.div_mul_cancel_l; [reflexivity | | lia].
      assert (0 < 2 ^ (- (e1 + 1))) by (apply Z.pow_pos_nonneg; lia). lia.
  - rewrite shr_fexp_53 by lia.
    change (shr_m (shr_record_of_loc m1 loc_Exact)) with m1.
    destruct m1 as [| p | p]; try lia.
    destruct (Z.leb_spec e1 (1024 - 53)); [| lia].
    cbn [int_ceil].
    destruct (Z.leb_spec 0 e1).
    + assert (e1 = 0) as -> by lia. simpl Z.pow.
      rewrite Z.mul_1_r. change (- 0) with 0. simpl Z.pow.
      rewrite Z.div_1_r. lia.
    + reflexivity.
Qed.

Lemma round_cases (m : Z) (l : location) :
  round_nearest_even m l = m \/ round_nearest_even m l = m + 1.
Proof. destruct l as [| []]; simpl; try destruct (Z.even m); auto. Qed.

(** One bit shifted out, then rounding: an even mantissa is halved, an
    odd one rounds up unless it sits exactly half way. *)
Lemma shift_round_cases (q : Z) (l : location) :
  0 < q ->
  let mrs := shr_1 (shr_record_of_loc q l) in
  let m0 := shr_m mrs in
  let m1 := round_nearest_even m0 (loc_of_shr_record mrs) in
  (q = 2 * m0 /\ m1 = m0) \/
  (q = 2 * m0 + 1 /\ (m1 = m0 + 1 \/ (m1 = m0 /\ l = loc_Exact))).
Proof.
  intros Hq. destruct q as [| [p | p |] |]; try lia;
    destruct l as [| []]; cbn -[Z.mul Z.add Z.even];
    try (left; split; [reflexivity | reflexivity]);
    try (right; split; [reflexivity |]);
    try (left; reflexivity);
    try (destruct (Z.even _); [right; split; reflexivity | left; reflexivity]).
Qed.

Lemma ceil_div_unique (a b c : Z) :
  0 < b -> (c - 1) * b < a <= c * b -> ceil_div a b = c.
Proof.
  intros Hb [Hlo Hhi]. unfold ceil_div.
  assert (E : - a / b = - c); [| lia].
  symmetry. apply (Z.div_unique (- a) b (- c) (c * b - a)); lia.
Qed.

Lemma ceil_div_bounds (a b : Z) :
  0 < b -> (ceil_div a b - 1) * b < a <= ceil_div a b * b.
Proof.
  intros Hb. unfold ceil_div.
  assert (H := Z.div_mod (- a) b ltac:(lia)).
  assert (H' := Z.mod_pos_bound (- a) b Hb). nia.
Qed.

(** The ceiling of [a / b] read off the quotient [q] of [a * P] by [b],
    for a scale [P] above [b]. *)
Lemma ceil_div_scaled (a b P q r : Z) :
  0 < b < P -> 0 <= r < b -> a * P = q * b + r ->
  ceil_div a b = ceil_div q P.
Proof.
  intros Hb Hr E.
  assert (HP : 0 < P) by lia.
  assert (B := ceil_div_bounds q P HP).
  set (c := ceil_div q P) in *.
  apply ceil_div_unique; [lia |]. split; nia.
Qed.

Lemma ceil_div_round_up (a b P q r : Z) :
  0 < b < P -> 0 < r < b -> a * P = q * b + r ->
  ceil_div (q + 1) P = ceil_div q P.
Proof.
  intros Hb Hr E.
  assert (HP : 0 < P) by lia.
  assert (B := ceil_div_bounds q P HP).
  set (c := ceil_div q P) in *.
  apply ceil_div_unique; [lia |]. split; [lia |].
  clearbody c.
  assert (q <> c * P); [| lia].
  intros ->. assert (P * (a - c * b) = r) by lia.
  assert (0 < a - c * b) by nia. nia.
Qed.

Lemma ceil_div_halved (m0 P' : Z) :
  0 < P' -> ceil_div m0 P' = ceil_div (2 * m0) (2 * P').
Proof.
  intros HP. assert (B := ceil_div_bounds (2 * m0) (2 * P') ltac:(lia)).
  apply ceil_div_unique; [lia |]. lia.
Qed.

Lemma ceil_div_halved_up (m0 P' : Z) :
  0 < P' -> ceil_div (m0 + 1) P' = ceil_div (2 * m0 + 1) (2 * P').
Proof.
  intros HP. assert (B := ceil_div_bounds (2 * m0 + 1) (2 * P') ltac:(lia)).
  apply ceil_div_unique; [lia |]. lia.
Qed.

Lemma ceil_div_halved_tie (a b m0 P' : Z) :
  0 < P' -> 0 < b < 2 * P' -> a * (2 * P') = (2 * m0 + 1) * b ->
  ceil_div m0 P' = ceil_div (2 * m0 + 1) (2 * P').
Proof.
  intros HP Hb E.
  assert (B := ceil_div_bounds (2 * m0 + 1) (2 * P') ltac:(lia)).
  set (c := ceil_div (2 * m0 + 1) (2 * P')) in *.
  apply ceil_div_unique; [lia |]. split; [| lia].
  clearbody c.
  assert (m0 <> (c - 1) * P'); [| lia].
  intros ->.
  assert (2 * P' * (a - (c - 1) * b) = b) by lia.
  assert (0 < a - (c - 1) * b) by nia. nia.
Qed.

(** The float64 quotient, rounded up, is the exact ceiling of the
    quotient when the dividend is a positive integer that a float64
    holds exactly and the divisor a positive integer below [2^1000]. *)
Lemma true_divide_ceil (a b : Z) :
  0 < a < 2 ^ 53 -> 0 < b < 2 ^ 1000 ->
  int_ceil (true_divide a b) = ceil_div a b.
Proof.
  intros Ha Hb.
  destruct a as [| pa | pa]; try lia. destruct b as [| pb | pb]; try lia.
  unfold true_divide.
  change (Z.abs (Z.pos pa)) with (Z.pos pa).
  change (Z.abs (Z.pos pb)) with (Z.pos pb).
  change (xorb (Z.pos pa <? 0) (Z.pos pb <? 0)) with false.
  unfold SFdiv_core_binary.
  destruct (Zdigits2_bounds pa) as [A1 A2]. destruct (Zdigits2_bounds pb) as [B1 B2].
  set (d1 := Zdigits2 (Z.pos pa)) in *. set (d2 := Zdigits2 (Z.pos pb)) in *.
  assert (Hd1 : 1 <= d1 <= 53).
  { split; [unfold d1; change (Zdigits2 (Z.pos pa)) with (Z.pos (digits2_pos pa)); lia |].
    destruct (Z.le_gt_cases d1 53) as [| Hgt]; [assumption | exfalso].
    assert (2 ^ 53 <= 2 ^ (d1 - 1)) by (apply Z.pow_le_mono_r; lia). lia. }
  assert (Hd2 : 1 <= d2 <= 1000).
  { split; [unfold d2; change (Zdigits2 (Z.pos pb)) with (Z.pos (digits2_pos pb)); lia |].
    destruct (Z.le_gt_cases d2 1000) as [| Hgt]; [assumption | exfalso].
    assert (2 ^ 1000 <= 2 ^ (d2 - 1)) by (apply Z.pow_le_mono_r; lia). lia. }
  set (t := 53 + d2 - d1).
  assert (Ht : 1 <= t) by (unfold t; lia).
  replace (Z.min (fexp 53 1024 (d1 + 0 - (d2 + 0))) (0 - 0)) with (- t)
    by (unfold fexp, emin, t; lia).
  replace (0 - 0 - - t) with t by lia.
  assert (HP : 2 ^ d2 <= 2 ^ t) by (apply Z.pow_le_mono_r; unfold t; lia).
  set (P := 2 ^ t) in *.
  assert (Em : match t with
               | 0 => Z.pos pa
               | Z.pos _ => Z.shiftl (Z.pos pa) t
               | Z.neg _ => 0
               end = Z.pos pa * P).
  { destruct t eqn:Et; try lia. rewrite Z.shiftl_mul_pow2 by lia. reflexivity. }
  rewrite Em. clear Em.
  assert (Hdiv := Z_div_mod (Z.pos pa * P) (Z.pos pb) ltac:(lia)).
  destruct (Z.div_eucl (Z.pos pa * P) (Z.pos pb)) as [q r].
  destruct Hdiv as [Eq Hr].
  set (a := Z.pos pa) in *. set (b := Z.pos pb) in *.
  (* the quotient has 53 or 54 bits *)
  assert (Hq : 2 ^ 52 <= q < 2 ^ 54).
  { assert (E1 : 2 ^ (d1 - 1) * P = 2 ^ 52 * 2 ^ d2).
    { unfold P. rewrite <- !Z.pow_add_r by lia. f_equal. unfold t. lia. }
    assert (E2 : 2 ^ d1 * P = 2 ^ 54 * 2 ^ (d2 - 1)).
    { unfold P. rewrite <- !Z.pow_add_r by lia. f_equal. unfold t. lia. }
    assert (0 < 2 ^ (d2 - 1)) by (apply Z.pow_pos_nonneg; lia).
    assert (0 < 2 ^ d2) by (apply Z.pow_pos_nonneg; lia).
    assert (0 < P) by lia.
    split; nia. }
  rewrite binary_round_aux_tail.
  rewrite (ceil_div_scaled a b P q r) by lia.
  destruct (Z.lt_ge_cases q (2 ^ 53)) as [Hq53 | Hq54].
  - (* 53 bits: rounding in place *)
    rewrite shr_fexp_53 by (unfold t in *; lia).
    replace (shr_m (shr_record_of_loc q (new_location b r))) with q
      by (destruct (new_location b r) as [| []]; reflexivity).
    replace (loc_of_shr_record (shr_record_of_loc q (new_location b r)))
      with (new_location b r)
      by (destruct (new_location b r) as [| []]; reflexivity).
    set (m1 := round_nearest_even q (new_location b r)).
    assert (Hm1 : m1 = q \/ (m1 = q + 1 /\ 0 < r)).
    { destruct (Z.eq_dec r 0) as [-> | Hne].
      - left. unfold m1. rewrite (proj2 (new_location_exact b 0) eq_refl). reflexivity.
      - destruct (round_cases q (new_location b r)) as [E | E]; [left | right];
          unfold m1; [exact E | split; [exact E | lia]]. }
    rewrite round_tail_ceil by (unfold t in *; lia).
    replace (- - t) with t by lia. fold P.
    destruct Hm1 as [-> | [-> Hr0]]; [reflexivity |].
    apply (ceil_div_round_up a b P q r); lia.
  - (* 54 bits: one bit is shifted out first *)
    rewrite shr_fexp_54 by (unfold t in *; lia).
    assert (Hcases := shift_round_cases q (new_location b r) ltac:(lia)).
    cbv zeta in Hcases.
    set (mrs := shr_1 (shr_record_of_loc q (new_location b r))) in *.
    set (m0 := shr_m mrs) in *.
    set (m1 := round_nearest_even m0 (loc_of_shr_record mrs)) in *.
    assert (EP : P = 2 * 2 ^ (t - 1)).
    { unfold P. replace t with (Z.succ (t - 1)) at 1 by lia.
      rewrite Z.pow_succ_r by lia. reflexivity. }
    assert (HP' : 0 < 2 ^ (t - 1)) by (apply Z.pow_pos_nonneg; lia).
    rewrite round_tail_ceil.
    + replace (- (- t + 1)) with (t - 1) by lia. rewrite EP.
      destruct Hcases as [[E2 ->] | [E2 [-> | [-> El]]]]; rewrite E2.
      * apply ceil_div_halved. exact HP'.
      * apply ceil_div_halved_up. exact HP'.
      * apply (ceil_div_halved_tie a b); [exact HP' | lia |].
        apply new_location_exact in El. subst r. rewrite <- EP. lia.
    + destruct Hcases as [[E2 E1] | [E2 [E1 | [E1 _]]]]; lia.
    + unfold t in *. lia.
Qed.

End NumBatches.

(** X24. For a data set of realistic size the number of batches is the
    exact one: with at least one and fewer than [2^53] rows and a
    positive [batch_size] below [2^1000],
    [int(np.ceil(num_datapoints / batch_size))], computed in float64, is
    the ceiling of the exact quotient; it is positive, the batches
    reach the last row, and the last batch is not empty. *)
Theorem num_batches_exact (X_train : ndarray) (batch_size : Z) :
  (0 < Z.of_nat (shape0 X_train) < 2 ^ 53)%Z ->
  (0 < batch_size < 2 ^ 1000)%Z ->
  let num_datapoints := Z.of_nat (shape0 X_train) in
  let num_batches := int_ceil (true_divide num_datapoints batch_size) in
  num_batches = ceil_div num_datapoints batch_size /\
  (0 < num_batches)%Z /\
  ((num_batches - 1) * batch_size < num_datapoints <= num_batches * batch_size)%Z.
Proof.
  intros HN Hb num_datapoints num_batches.
  assert (E : num_batches = ceil_div num_datapoints batch_size)
    by (apply true_divide_ceil; assumption).
  assert (Hbounds := ceil_div_bounds num_datapoints batch_size ltac:(lia)).
  rewrite <- E in Hbounds.
  split; [exact E | split; [| exact Hbounds]].
  destruct (Z.lt_ge_cases 0 num_batches) as [| Hle]; [assumption | exfalso].
  assert (num_batches * batch_size <= 0)%Z by nia. subst num_datapoints. lia.
Qed.

(* ================================================================== *)
(** ** The properties at sample inputs

    The numpy reductions are taken from left to right, and the optimizer
    is one without state whose [update] returns the parameters it was
    given. *)

Local Open Scope string_scope.

Lemma two_layer_network_well_shaped (wd : float) :
  well_shaped (two_layer_network unit wd).
Proof.
  unfold well_shaped. simpl.
  split; [reflexivity | split; [reflexivity | split; [reflexivity |
    split; [reflexivity |]]]].
  intros i Hi. destruct i as [| [| i]]; [| | lia];
    exists Toy.W0, Toy.B0; repeat split.
Qed.

Lemma two_layer_network_usable (wd : float) :
  activations_usable (two_layer_network unit wd).
Proof.
  intros i act E. destruct i as [| [| i]]; simpl in E.
  - injection E as <-. split; [reflexivity | discriminate].
  - injection E as <-. split; [reflexivity | intros _; discriminate].
  - destruct i; discriminate E.
Qed.

Lemma labels_in_range_sample : labels_in_range 2 [1; -1; 0]%Z.
Proof. repeat constructor; simpl; lia. Qed.

(** C1 at the two-layer network with a softmax output and cross-entropy
    loss, and at the sigmoid network with the squared error. *)
Lemma output_error_cases_witness :
  let v := [0; 1]%Z in
  labels_in_range 2 v /\
  has_shape Toy.half (List.length v) 2 /\ has_shape Toy.X (List.length v) 2 /\
  run (output_error (Indices v) [Toy.X; Toy.half; Toy.half] [Toy.X; Toy.X]
         "cross_entropy") (two_layer_network unit 0%float)
    = Ok (spec_output_error "cross_entropy" "softmax" Toy.half Toy.X 2 v) /\
  run (output_error (Indices v) [Toy.X; Toy.half] [Toy.X] "MSE")
    (one_layer_network unit)
    = Ok (spec_output_error "MSE" "sigmoid" Toy.half Toy.X 2 v).
Proof.
  intros v.
  assert (Hv : labels_in_range 2 v) by (repeat constructor; simpl; lia).
  assert (Hhalf : has_shape Toy.half (List.length v) 2) by (split; reflexivity).
  assert (HX : has_shape Toy.X (List.length v) 2) by (split; reflexivity).
  split; [exact Hv | split; [exact Hhalf | split; [exact HX |]]].
  destruct (output_error_cases unit) as [Hagrees _].
  split.
  - exact (Hagrees (two_layer_network unit 0%float) v
             [Toy.X; Toy.half; Toy.half] [Toy.X; Toy.X] "cross_entropy" "softmax"
             Toy.half Toy.X 2 eq_refl eq_refl eq_refl eq_refl eq_refl Hv Hhalf HX
             (or_introl (conj eq_refl eq_refl))).
  - exact (Hagrees (one_layer_network unit) v
             [Toy.X; Toy.half] [Toy.X] "MSE" "sigmoid"
             Toy.half Toy.X 2 eq_refl eq_refl eq_refl eq_refl eq_refl Hv Hhalf HX
             (or_intror (or_introl eq_refl))).
Defined.

(** C2 at the two-layer network. *)
Lemma back_propagation_chain_witness :
  let self := two_layer_network unit 0%float in
  let H := [Toy.X; Toy.half; Toy.half] in
  let A := [Toy.X; Toy.X] in
  let y := Indices [0; 1]%Z in
  let r := from_ok ([], [])
             (run (back_propagation sum_left inner_left Toy.X y H A "cross_entropy")
                self) in
  well_shaped self /\ cache_shaped self (shape0 Toy.X) H A /\
  run (back_propagation sum_left inner_left Toy.X y H A "cross_entropy") self
    = Ok (fst r, snd r) /\
  exists ds : list ndarray,
    List.length ds = 2 /\
    (exists dAL,
       run (output_error y H A "cross_entropy") self = Ok dAL /\
       nth_error ds 1 = Some dAL) /\
    (exists dAnext,
       nth_error ds 1 = Some dAnext /\
       nth_error ds 0
         = Some (spec_hidden_error inner_left dAnext Toy.W0 Toy.X Toy.half "relu")) /\
    forall k, k < 2 ->
      exists dAk Hk,
        nth_error ds k = Some dAk /\ nth_error H k = Some Hk /\
        nth_error (fst r) k
          = Some (Some (spec_weight_gradient inner_left dAk Hk 2)) /\
        nth_error (snd r) k = Some (Some (spec_bias_gradient sum_left dAk 2)).
Proof.
  intros self H A y r.
  assert (Hws : well_shaped self) by apply two_layer_network_well_shaped.
  assert (Hcache : cache_shaped self (shape0 Toy.X) H A).
  { split.
    - intros i Hi. destruct i as [| [| [| i]]]; [| | | simpl in Hi; lia];
        eexists; (split; [reflexivity | split; reflexivity]).
    - intros i Hi. destruct i as [| [| i]]; [| | simpl in Hi; lia];
        eexists; (split; [reflexivity | split; reflexivity]). }
  assert (Hrun : run (back_propagation sum_left inner_left Toy.X y H A "cross_entropy")
                   self = Ok (fst r, snd r)) by (vm_compute; reflexivity).
  split; [exact Hws | split; [exact Hcache | split; [exact Hrun |]]].
  destruct (back_propagation_chain sum_left inner_left unit self Toy.X y H A
              "cross_entropy" Hws Hcache) as [Hentries _].
  destruct (Hentries (fst r) (snd r) Hrun)
    as [ds [G [Hlen [_ [_ [Hout [Hhidden [Hgrads Hdecay]]]]]]]].
  change (fst r = G) in Hdecay. 
  exists ds. split; [exact Hlen | split; [exact Hout | split]].
  - destruct (Hhidden 0 (le_n 2))
      as [dAnext [Wnext [Ak [Hnext [kind [E1 [EW [EA [EH [Ek E0]]]]]]]]]].
    injection EW as <-. injection EA as <-. injection EH as <-. injection Ek as <-.
    exists dAnext. split; assumption.
  - intros k Hk. rewrite Hdecay. exact (Hgrads k Hk).
Defined.

(** C4 at the two-layer network with weight decay 0.5. *)
Lemma weight_decay_adds_penalty_witness :
  let self := two_layer_network unit 0.5%float in
  let H := [Toy.X; Toy.half; Toy.half] in
  let A := [Toy.X; Toy.X] in
  let y := Indices [0; 1]%Z in
  let r := from_ok ([], [])
             (run (back_propagation sum_left inner_left Toy.X y H A "cross_entropy")
                (with_weight_decay 0%float self)) in
  PrimFloat.ltb 0%float (weight_decay self) = true /\
  run (back_propagation sum_left inner_left Toy.X y H A "cross_entropy")
    (with_weight_decay 0%float self) = Ok (fst r, snd r) /\
  List.length (W self) = L self /\
  exists dW : grads,
    run (back_propagation sum_left inner_left Toy.X y H A "cross_entropy") self
      = Ok (dW, snd r) /\
    List.length dW = List.length (fst r) /\
    forall i, i < L self ->
      exists g g0 Wi,
        nth_error dW i = Some (Some g) /\
        nth_error (fst r) i = Some (Some g0) /\
        nth_error (W self) i = Some Wi /\
        same_shape g g0 /\
        forall row_ col_, row_ < shape0 g0 -> col_ < shape1 g0 ->
          item g row_ col_
            = (item g0 row_ col_ + weight_decay self * item Wi row_ col_)%float.
Proof.
  intros self H A y r.
  assert (Hrun : run (back_propagation sum_left inner_left Toy.X y H A
                        "cross_entropy") (with_weight_decay 0%float self)
                 = Ok (fst r, snd r)) by (vm_compute; reflexivity).
  assert (Hshapes : forall i g0 Wi,
            nth_error (fst r) i = Some (Some g0) ->
            nth_error (W self) i = Some Wi -> same_shape Wi g0).
  { intros i g0 Wi Eg EW.
    destruct i as [| [| i]].
    - vm_compute in Eg, EW. injection Eg as <-. injection EW as <-.
      split; reflexivity.
    - vm_compute in Eg, EW. injection Eg as <-. injection EW as <-.
      split; reflexivity.
    - destruct i; discriminate EW. }
  split; [reflexivity | split; [exact Hrun | split; [reflexivity |]]].
  exact (weight_decay_adds_penalty sum_left inner_left unit self Toy.X y H A
           "cross_entropy" (fst r) (snd r) eq_refl Hrun eq_refl Hshapes).
Defined.

(** C8 at labels [1, 0, 1] and two classes. *)
Lemma argmax_one_hot_roundtrip_witness :
  let self := two_layer_network unit 0%float in
  let y := [1; 0; 1]%Z in
  PyList.index_from_end (layer_sizes self) 1 = Ok 2 /\
  0 < 2 /\
  Forall (fun z => (0 <= z < Z.of_nat 2)%Z) y /\
  exists m : ndarray,
    run (one_hot (Indices y)) self = Ok m /\
    shape0 m = List.length y /\ shape1 m = 2 /\
    (forall i j, i < List.length y -> j < 2 ->
       item m i j = if (Z.of_nat j =? nth i y 0%Z)%Z then 1%float else 0%float) /\
    argmax_axis1 m = Ok y.
Proof.
  intros self y.
  assert (Hy : Forall (fun z => (0 <= z < Z.of_nat 2)%Z) y)
    by (repeat constructor; simpl; lia).
  split; [reflexivity | split; [lia | split; [exact Hy |]]].
  exact (argmax_one_hot_roundtrip unit self y 2 eq_refl (le_S 1 1 (le_n 1)) Hy).
Defined.

(** C9 at a data set of two samples, swapped. *)
Lemma shuffle_keeps_pairs_witness :
  let y := Indices [0; 1]%Z in
  let permutation := [1; 0] in
  Permutation permutation (seq 0 (shape0 Toy.X)) /\
  labels_shape0 y = shape0 Toy.X /\
  exists (X' : ndarray) (y' : labels),
    shuffle permutation Toy.X y = Ok (X', y') /\
    shape0 X' = shape0 Toy.X /\
    (forall i, i < shape0 Toy.X ->
       row X' i = row Toy.X (nth i permutation 0) /\
       label_at y' i = label_at y (nth i permutation 0)) /\
    Permutation (samples X' y') (samples Toy.X y).
Proof.
  intros y permutation.
  split; [exact (perm_swap 0 1 []) | split; [reflexivity |]].
  exact (shuffle_keeps_pairs Toy.X y permutation (perm_swap 0 1 []) eq_refl).
Defined.

(** C7 at the sigmoid network, without an optimizer and with an Adam
    object attached beforehand. *)
Lemma train_default_optimizer_witness :
  let init := fun (_ : optimizer_class) (_ _ : list ndarray) (_ : dict) =>
                @Ok unit tt in
  let update := fun (_ : optimizer_class) (st : unit) (W_ B_ : list ndarray)
                    (_ _ : grads) (_ : Z) =>
                  (@Ok (list ndarray * list ndarray) (W_, B_), st) in
  let train_ := train (fun x => x) (fun x => x) (fun x => x) sum_left inner_left
                  init update Toy.X (Indices [0; 1]%Z)
                  (Some Toy.X) (Some (Indices [0; 1]%Z))
                  2 1 "cross_entropy" 100 None (fun _ => [1; 0]) in
  let fresh := one_layer_network unit in
  let attached := with_optimizer (Some (mk_optimizer AdamOptimizer tt)) fresh in
  is_ok (run train_ fresh) = true /\
  (optimizer fresh = None /\
   train_ fresh = bind (set_optimizer init default_optimizer) (fun _ => train_) fresh /\
   exists st', optimizer (exec train_ fresh) = Some (mk_optimizer SGDOptimizer st')) /\
  (optimizer attached = Some (mk_optimizer AdamOptimizer tt) /\
   exists st', optimizer (exec train_ attached) = Some (mk_optimizer AdamOptimizer st')).
Proof.
  intros init update train_ fresh attached.
  split; [vm_compute; reflexivity |]. split.
  - destruct (train_default_optimizer (fun x => x) (fun x => x) (fun x => x)
                sum_left inner_left unit init update fresh Toy.X (Indices [0; 1]%Z)
                (Some Toy.X) (Some (Indices [0; 1]%Z))
                2 1 "cross_entropy" 100 None (fun _ => [1; 0])) as [Hnone _].
    destruct (Hnone eq_refl) as [Heq Hst].
    destruct (Hst tt eq_refl) as [st' [Ho _]].
    split; [reflexivity | split; [exact Heq | exists st'; exact Ho]].
  - destruct (train_default_optimizer (fun x => x) (fun x => x) (fun x => x)
                sum_left inner_left unit init update attached Toy.X (Indices [0; 1]%Z)
                (Some Toy.X) (Some (Indices [0; 1]%Z))
                2 1 "cross_entropy" 100 None (fun _ => [1; 0])) as [_ Hsome].
    destruct (Hsome (mk_optimizer AdamOptimizer tt) eq_refl) as [st' [Ho _]].
    split; [reflexivity | exists st'; exact Ho].
Defined.

(** C6 (as the code behaves) at sample names. *)
Lemma invalid_configuration_raises_witness :
  let init := fun (_ : optimizer_class) (_ _ : list ndarray) (_ : dict) =>
                @Ok unit tt in
  let zero := fun _ _ _ : nat => 0%float in
  __init__ unit [2; 2] [] 0%float "random" false zero zero
    = Err (AssertionError
             "Number of layers (excluding input layer) and activations must match") /\
  __init__ unit [2; 2] ["relu"] 0%float "he" false zero zero
    = Err (ValueError "Unsupported weight initialization: he") /\
  set_optimizer init [("name", PStr "lion")] (one_layer_network unit)
    = (Err (ValueError "Unsupported optimizer: lion"), one_layer_network unit) /\
  activate (fun x => x) (fun x => x) sum_left Toy.X "swish"
    = Err (ValueError "Unsupported activation function: swish") /\
  run (_loss_derivative Toy.half (Indices [1; 0]%Z) "hinge") (one_layer_network unit)
    = Err (ValueError "Unsupported loss function: hinge").
Proof.
  intros init zero.
  destruct (invalid_configuration_raises (fun x => x) (fun x => x) (fun x => x)
              sum_left unit init)
    as [Hlen [Hinit [_ [Hopt [Hact Hloss]]]]].
  split; [| split; [| split; [| split]]].
  - apply Hlen. simpl. lia.
  - apply Hinit; reflexivity.
  - apply (Hopt (one_layer_network unit) [("name", PStr "lion")] "lion"); reflexivity.
  - apply (Hact Toy.X Toy.X "swish"). reflexivity.
  - apply (Hloss (one_layer_network unit) Toy.half (Indices [1; 0]%Z) "hinge").
    reflexivity.
Defined.

(** C6 as stated fails: a network with the unsupported activation name
    "swish" is constructed and an optimizer is attached to it without any
    error; the name is only rejected when forward propagation reaches
    [activate]. *)
Lemma unsupported_activation_passes_construction :
  let init := fun (_ : optimizer_class) (_ _ : list ndarray) (_ : dict) =>
                @Ok unit tt in
  let zero := fun _ _ _ : nat => 0%float in
  supported_activation "swish" = false /\
  exists nn : NeuralNetwork unit,
    __init__ unit [2; 2] ["swish"] 0%float "random" false zero zero = Ok nn /\
    activation_functions nn = ["swish"] /\
    run (set_optimizer init default_optimizer) nn = Ok tt /\
    run (forward_propagation (fun x => x) (fun x => x) sum_left inner_left Toy.X) nn
      = Err (ValueError "Unsupported activation function: swish").
Proof.
  intros init zero. split; [reflexivity |].
  eexists. split; [vm_compute; reflexivity |].
  split; [reflexivity | split; vm_compute; reflexivity].
Qed.

(** C5 at the sigmoid network: training two samples without validation
    data ends in [TypeError] at the end of the first epoch. *)
Lemma train_without_validation_example :
  let init := fun (_ : optimizer_class) (_ _ : list ndarray) (_ : dict) =>
                @Ok unit tt in
  let update := fun (_ : optimizer_class) (st : unit) (W_ B_ : list ndarray)
                    (_ _ : grads) (_ : Z) =>
                  (@Ok (list ndarray * list ndarray) (W_, B_), st) in
  run (train (fun x => x) (fun x => x) (fun x => x) sum_left inner_left
         init update Toy.X (Indices [0; 1]%Z) None None
         64 10 "cross_entropy" 100 None (fun _ => [1; 0]))
    (one_layer_network unit)
  = Err TypeError.
Proof. vm_compute. reflexivity. Qed.

(* ================================================================== *)
(** ** Further properties at sample inputs *)

(** X1 at layers [3, 2] with a relu layer. *)
Lemma init_builds_well_shaped_network_witness :
  let zero := fun _ _ _ : nat => 0%float in
  let nn := from_ok (one_layer_network unit)
              (__init__ unit [3; 2] ["relu"] 0%float "Random" false zero zero) in
  __init__ unit [3; 2] ["relu"] 0%float "Random" false zero zero = Ok nn /\
  well_shaped nn /\ L nn = 1 /\ optimizer nn = None.
Proof.
  intros zero nn.
  assert (Hinit : __init__ unit [3; 2] ["relu"] 0%float "Random" false zero zero
                  = Ok nn) by (vm_compute; reflexivity).
  split; [exact Hinit |].
  destruct (init_builds_well_shaped_network unit [3; 2] ["relu"] 0%float "Random"
              false zero zero nn Hinit) as [Hws [_ [_ [HL [_ [_ [Ho _]]]]]]].
  split; [exact Hws | split; [exact HL | exact Ho]].
Defined.

(** X6 at the two-layer network. *)
Lemma forward_propagation_cache_witness :
  let self := two_layer_network unit 0%float in
  let forward := forward_propagation (fun x => x) (fun x => x) sum_left inner_left
                   Toy.X in
  let r := from_ok ([], []) (run forward self) in
  run forward self = Ok (fst r, snd r) /\
  List.length (fst r) = 3 /\ List.length (snd r) = 2 /\
  nth_error (fst r) 0 = Some Toy.X.
Proof.
  intros self forward r.
  assert (Hrun : run forward self = Ok (fst r, snd r)) by (vm_compute; reflexivity).
  split; [exact Hrun |].
  destruct (forward_propagation_cache (fun x => x) (fun x => x) sum_left inner_left
              unit self Toy.X (fst r) (snd r) Hrun) as [HlH [HlA [H0 _]]].
  split; [exact HlH | split; [exact HlA | exact H0]].
Defined.

(** X7 at the two-layer network. *)
Lemma forward_propagation_total_witness :
  let self := two_layer_network unit 0%float in
  well_shaped self /\ activations_usable self /\
  shape1 Toy.X = nth 0 (layer_sizes self) 0 /\
  exists P,
    run (predict (fun x => x) (fun x => x) sum_left inner_left Toy.X) self = Ok P /\
    has_shape P 2 2.
Proof.
  intros self.
  split; [apply two_layer_network_well_shaped |].
  split; [apply two_layer_network_usable |].
  split; [reflexivity |].
  destruct (forward_propagation_total (fun x => x) (fun x => x) sum_left inner_left
              unit self Toy.X (two_layer_network_well_shaped 0%float)
              (two_layer_network_usable 0%float) eq_refl)
    as [H [A [P [_ [EP [_ [HP _]]]]]]].
  exists P. split; [exact EP | exact HP].
Defined.

(** X8 at labels [1, -1, 0] and two classes. *)
Lemma one_hot_wraps_witness :
  let self := two_layer_network unit 0%float in
  PyList.index_from_end (layer_sizes self) 1 = Ok 2 /\
  labels_in_range 2 [1; -1; 0]%Z /\
  exists Y,
    run (one_hot (Indices [1; -1; 0]%Z)) self = Ok Y /\
    has_shape Y 3 2 /\
    item Y 1 1 = 1%float.
Proof.
  intros self.
  split; [reflexivity | split; [exact labels_in_range_sample |]].
  destruct (one_hot_wraps unit self [1; -1; 0]%Z 2 eq_refl) as [Hin _].
  destruct (Hin labels_in_range_sample) as [Y [EY [HY Hitem]]].
  exists Y. split; [exact EY | split; [exact HY |]].
  exact (Hitem 1 1 (le_n_S 1 2 (le_S 1 1 (le_n 1))) (le_n 2)).
Defined.

(** X11 at three predictions of [0.5, 0.5]. *)
Lemma mse_gradient_entries_witness :
  let self := two_layer_network unit 0%float in
  (lower "MSE" = "mse" \/ lower "MSE" = "mean_squared_error") /\
  PyList.index_from_end (layer_sizes self) 1 = Ok 2 /\
  labels_in_range 2 [1; -1; 0]%Z /\
  has_shape Toy.half3 3 2 /\
  exists G,
    run (_loss_derivative Toy.half3 (Indices [1; -1; 0]%Z) "MSE") self = Ok G /\
    has_shape G 3 2.
Proof.
  intros self.
  assert (Hshape : has_shape Toy.half3 3 2) by (split; reflexivity).
  split; [left; reflexivity | split; [reflexivity |
    split; [exact labels_in_range_sample | split; [exact Hshape |]]]].
  destruct (mse_gradient_entries unit self Toy.half3 [1; -1; 0]%Z 2 "MSE"
              (or_introl eq_refl) eq_refl labels_in_range_sample Hshape)
    as [G [EG [HG _]]].
  exists G. split; [exact EG | exact HG].
Defined.

(** X12 at the two-layer network with weight decay 0.5. *)
Lemma back_propagation_total_witness :
  let self := two_layer_network unit 0.5%float in
  well_shaped self /\ activations_usable self /\ 1 <= L self /\
  shape1 Toy.X = nth 0 (layer_sizes self) 0 /\
  List.length [0; 1]%Z = shape0 Toy.X /\
  labels_in_range (nth (L self) (layer_sizes self) 0) [0; 1]%Z /\
  trainable_loss self "cross_entropy" /\
  exists H A dW dB,
    run (forward_propagation (fun x => x) (fun x => x) sum_left inner_left Toy.X)
      self = Ok (H, A) /\
    run (back_propagation sum_left inner_left Toy.X (Indices [0; 1]%Z) H A
           "cross_entropy") self = Ok (dW, dB) /\
    gradients_shaped self dW dB.
Proof.
  intros self.
  assert (Hrange : labels_in_range (nth (L self) (layer_sizes self) 0) [0; 1]%Z)
    by (repeat constructor; simpl; lia).
  assert (Hloss : trainable_loss self "cross_entropy").
  { left. split; [reflexivity |]. exists "softmax". split; reflexivity. }
  split; [apply two_layer_network_well_shaped |].
  split; [apply two_layer_network_usable |].
  split; [exact (le_S 1 1 (le_n 1)) |].
  split; [reflexivity | split; [reflexivity | split; [exact Hrange |
    split; [exact Hloss |]]]].
  exact (back_propagation_total (fun x => x) (fun x => x) sum_left inner_left unit
           self Toy.X [0; 1]%Z "cross_entropy"
           (two_layer_network_well_shaped 0.5%float)
           (two_layer_network_usable 0.5%float)
           (le_S 1 1 (le_n 1)) eq_refl eq_refl Hrange Hloss).
Defined.

(** X13 at the two-layer network. *)
Lemma back_propagation_returns_filled_witness :
  let self := two_layer_network unit 0.5%float in
  let H := [Toy.X; Toy.half; Toy.half] in
  let A := [Toy.X; Toy.X] in
  let y := Indices [0; 1]%Z in
  let r := from_ok ([], [])
             (run (back_propagation sum_left inner_left Toy.X y H A "mse") self) in
  run (back_propagation sum_left inner_left Toy.X y H A "mse") self
    = Ok (fst r, snd r) /\
  List.length (fst r) = 2 /\ List.length (snd r) = 2.
Proof.
  intros self H A y r.
  assert (Hrun : run (back_propagation sum_left inner_left Toy.X y H A "mse") self
                 = Ok (fst r, snd r)) by (vm_compute; reflexivity).
  split; [exact Hrun |].
  destruct (back_propagation_returns_filled sum_left inner_left unit self Toy.X y
              H A "mse" (fst r) (snd r) Hrun) as [_ [_ [_ [_ [HlW [HlB _]]]]]].
  split; [exact HlW | exact HlB].
Defined.

(** X14 at two samples with one-hot labels over two classes. *)
Lemma back_propagation_rejects_one_hot_witness :
  let self := two_layer_network unit 0%float in
  let H := [Toy.X; Toy.half; Toy.half] in
  let A := [Toy.X; Toy.X] in
  shape0 Toy.half = shape0 Toy.X /\ 0 < shape0 Toy.X /\ shape1 Toy.half <> 1 /\
  exists msg,
    run (back_propagation sum_left inner_left Toy.X (OneHot Toy.half) H A
           "cross_entropy") self = Err (AssertionError msg).
Proof.
  intros self H A.
  assert (Hpos : 0 < shape0 Toy.X) by (simpl; lia).
  assert (Hne : shape1 Toy.half <> 1) by (simpl; lia).
  split; [reflexivity | split; [exact Hpos | split; [exact Hne |]]].
  exact (back_propagation_rejects_one_hot sum_left inner_left unit self Toy.X
           Toy.half H A "cross_entropy" eq_refl Hpos Hne).
Defined.


(** X17 at the sigmoid network: two epochs over two samples. *)
Lemma train_returns_full_history_witness :
  let init := fun (_ : optimizer_class) (_ _ : list ndarray) (_ : dict) =>
                @Ok unit tt in
  let update := fun (_ : optimizer_class) (st : unit) (W_ B_ : list ndarray)
                    (_ _ : grads) (_ : Z) =>
                  (@Ok (list ndarray * list ndarray) (W_, B_), st) in
  let train_ := train (fun x => x) (fun x => x) (fun x => x) sum_left inner_left
                  init update Toy.X (Indices [0; 1]%Z)
                  (Some Toy.X) (Some (Indices [0; 1]%Z))
                  1 2 "cross_entropy" 100 None (fun _ => [1; 0]) in
  let hist := from_ok (mk_history [] [] None None)
                (run train_ (one_layer_network unit)) in
  run train_ (one_layer_network unit) = Ok hist /\
  history_lengths hist 2.
Proof.
  intros init update train_ hist.
  assert (Hrun : run train_ (one_layer_network unit) = Ok hist)
    by (vm_compute; reflexivity).
  split; [exact Hrun |].
  destruct (train_returns_full_history (fun x => x) (fun x => x) (fun x => x)
              sum_left inner_left unit init update (one_layer_network unit)
              Toy.X (Indices [0; 1]%Z) (Some Toy.X) (Some (Indices [0; 1]%Z))
              1 2 "cross_entropy" 100 None (fun _ => [1; 0]) hist Hrun)
    as [_ [_ [_ [_ [_ Hlen]]]]].
  exact Hlen.
Defined.

(** X18 at three samples in batches of two. *)
Lemma batches_partition_witness :
  (0 < 2)%Z /\ List.length [0; 1; 0]%Z = shape0 Toy.half3 /\
  concat (map (fun batch =>
                 rows (slice_rows Toy.half3 (batch * 2)
                         (Z.min ((batch + 1) * 2) 3)))
            (PyList.range (ceil_div 3 2)))
    = rows Toy.half3 /\
  concat (map (fun batch => PyList.slice [0; 1; 0]%Z (batch * 2)
                              (Z.min ((batch + 1) * 2) 3))
            (PyList.range (ceil_div 3 2)))
    = [0; 1; 0]%Z.
Proof.
  split; [reflexivity | split; [reflexivity |]].
  exact (batches_partition Toy.half3 [0; 1; 0]%Z 2 eq_refl eq_refl).
Defined.

(** X20 at the two-layer network. *)
Lemma metrics_total_witness :
  let self := two_layer_network unit 0%float in
  well_shaped self /\ activations_usable self /\
  shape1 Toy.X = nth 0 (layer_sizes self) 0 /\
  nth (L self) (layer_sizes self) 0 <> 0 /\
  List.length [0; -1]%Z = shape0 Toy.X /\
  labels_in_range (nth (L self) (layer_sizes self) 0) [0; -1]%Z /\
  supported_loss "Cross_Entropy" = true /\
  exists P l acc,
    run (predict (fun x => x) (fun x => x) sum_left inner_left Toy.X) self = Ok P /\
    has_shape P (shape0 Toy.X) (nth (L self) (layer_sizes self) 0) /\
    run (compute_loss (fun x => x) sum_left P (Indices [0; -1]%Z) "Cross_Entropy")
      self = Ok l /\
    run (compute_accuracy (fun x => x) (fun x => x) sum_left inner_left Toy.X
           (Indices [0; -1]%Z)) self = Ok acc.
Proof.
  intros self.
  assert (Hrange : labels_in_range (nth (L self) (layer_sizes self) 0) [0; -1]%Z)
    by (repeat constructor; simpl; lia).
  assert (HC : nth (L self) (layer_sizes self) 0 <> 0) by (simpl; lia).
  split; [apply two_layer_network_well_shaped |].
  split; [apply two_layer_network_usable |].
  split; [reflexivity | split; [exact HC | split; [reflexivity |
    split; [exact Hrange | split; [reflexivity |]]]]].
  exact (metrics_total (fun x => x) (fun x => x) (fun x => x) sum_left inner_left
           unit self Toy.X [0; -1]%Z "Cross_Entropy"
           (two_layer_network_well_shaped 0%float)
           (two_layer_network_usable 0%float) eq_refl HC eq_refl Hrange eq_refl).
Defined.

(** X19 at a configuration without hidden layers, trained for one epoch
    on one sample. *)
Lemma nn_from_config_network_witness :
  let init := fun (_ : optimizer_class) (_ _ : list ndarray) (_ : dict) =>
                @Ok unit tt in
  let update := fun (_ : optimizer_class) (st : unit) (W_ B_ : list ndarray)
                    (_ _ : grads) (_ : Z) =>
                  (@Ok (list ndarray * list ndarray) (W_, B_), st) in
  let get_optimizer := fun (name : string) (lr : float) =>
                         @Ok dict [("name", PStr name); ("learning_rate", PFloat lr)] in
  let config := Config.mk 16 0 "relu" "random" 0%float "sgd" 0.5%float 1 1
                  "cross_entropy" in
  let zero := fun _ _ _ : nat => 0%float in
  let X := tabulate 1 784 (fun _ _ => 0%float) in
  let y := Indices [3]%Z in
  let call := nn_from_config (fun x => x) (fun x => x) (fun x => x) sum_left
                inner_left init update get_optimizer config None X y
                (Some X) (Some y) zero zero (fun _ => [0]) in
  let r := from_ok (one_layer_network unit, mk_history [] [] None None) call in
  call = Ok (fst r, snd r) /\
  layer_sizes (fst r) = [784; 10] /\
  L (fst r) = 1 /\
  activation_functions (fst r) = ["softmax"].
Proof.
  intros init update get_optimizer config zero X y call r.
  assert (Hrun : call = Ok (fst r, snd r)) by (vm_compute; reflexivity).
  split; [exact Hrun |].
  destruct (nn_from_config_network (fun x => x) (fun x => x) (fun x => x) sum_left
              inner_left unit init update get_optimizer config None X y
              (Some X) (Some y) zero zero (fun _ => [0]) (fst r) (snd r) Hrun)
    as [Hsizes [HL [Hacts _]]].
  split; [exact Hsizes | split; [exact HL | exact Hacts]].
Defined.


(** X10 at the two-layer network, which predicts class 0 for both
    rows, and the labels [0, -2^63]. *)
Lemma accuracy_is_fraction_of_matches_witness :
  let self := two_layer_network unit 0%float in
  let predict_ := predict (fun x => x) (fun x => x) sum_left inner_left Toy.X in
  let P := from_ok Toy.X (run predict_ self) in
  let p := from_ok [] (argmax_axis1 P) in
  let v := [0; - 2 ^ 63]%Z in
  run predict_ self = Ok P /\ argmax_axis1 P = Ok p /\
  List.length v = shape0 P /\
  run (compute_accuracy (fun x => x) (fun x => x) sum_left inner_left Toy.X
         (Indices v)) self
    = Ok 0.5%float.
Proof.
  intros self predict_ P p v.
  assert (EP : run predict_ self = Ok P) by (vm_compute; reflexivity).
  assert (Ep : argmax_axis1 P = Ok p) by (vm_compute; reflexivity).
  assert (Hlen : List.length v = shape0 P) by (vm_compute; reflexivity).
  split; [exact EP | split; [exact Ep | split; [exact Hlen |]]].
  destruct (accuracy_is_fraction_of_matches (fun x => x) (fun x => x) sum_left
              inner_left unit self Toy.X P p v EP Ep Hlen) as [Hacc _].
  rewrite Hacc. vm_compute. reflexivity.
Defined.


(** X23 at the two-layer network and an input of three columns. *)
Lemma forward_propagation_rejects_width_witness :
  let self := two_layer_network unit 0%float in
  let X := transpose Toy.half3 in
  well_shaped self /\ 1 <= L self /\ shape1 X <> nth 0 (layer_sizes self) 0 /\
  run (predict (fun x => x) (fun x => x) sum_left inner_left X) self
    = Err (ValueError "shapes not aligned").
Proof.
  intros self X.
  assert (HX : shape1 X <> nth 0 (layer_sizes self) 0) by (simpl; lia).
  split; [apply two_layer_network_well_shaped |].
  split; [exact (le_S 1 1 (le_n 1)) | split; [exact HX |]].
  destruct (forward_propagation_rejects_width (fun x => x) (fun x => x) sum_left
              inner_left unit self X (two_layer_network_well_shaped 0%float)
              (le_S 1 1 (le_n 1)) HX) as [_ Hpredict].
  exact Hpredict.
Defined.

(** X24 at the sample input of three rows and a batch size of 2. *)
Lemma num_batches_exact_witness :
  let num_datapoints := Z.of_nat (shape0 Toy.X) in
  let num_batches := int_ceil (true_divide num_datapoints 2) in
  (0 < num_datapoints < 2 ^ 53)%Z /\ (0 < 2 < 2 ^ 1000)%Z /\
  num_batches = ceil_div num_datapoints 2 /\
  (0 < num_batches)%Z /\
  ((num_batches - 1) * 2 < num_datapoints <= num_batches * 2)%Z.
Proof.
  intros num_datapoints num_batches.
  assert (HN : (0 < Z.of_nat (shape0 Toy.X) < 2 ^ 53)%Z)
    by (vm_compute; split; reflexivity).
  assert (Hb : (0 < 2 < 2 ^ 1000)%Z) by (vm_compute; split; reflexivity).
  split; [exact HN | split; [exact Hb |]].
  exact (num_batches_exact Toy.X 2 HN Hb).
Defined.
